(** * Huntio server: session protocol and job-application handlers

    A shallow embedding of the Express handlers of the Huntio backend
    ([controllers/auth.controller.ts], [controllers/applications.controller.ts],
    [middleware/authenticateToken.middleware.ts]) together with the services
    they call, and the properties of the session protocol proved over it.

    Conventions.
    - Request data that TypeScript types as [any] (the body, the cookies) is
      kept as an untyped JavaScript value, [JsValue].
    - The database is an explicit state ([DB]) threaded through a small
      state-and-exception monad [M]; a thrown exception keeps the writes that
      were made before it (the code does no rollback).
    - The clock, [randomUUID], the bcrypt salt and the database's generated
      ids are inputs of the handlers ([now], [Rand]).
    - [jsonwebtoken] and [bcrypt] are outside the repository; they enter as
      the interfaces [JwtLib] and [BcryptLib], their contracts as
      [JwtLawful] and [BcryptLawful].
    - A table is kept as the list of its rows. The order of that list is no
      part of the database: the handlers look rows up by a unique key, and
      the one read of many rows, [findMany], returns them in the order the
      database chooses ([scan] of the interface [PrismaLib]). What the Prisma
      client makes of an object of operations ([{ set: v }],
      [{ increment: n }]) in the [data] of an [update] is left to the same
      interface. *)

From Stdlib Require Import String Ascii List ZArith Bool Lia DecimalString Permutation.
Import ListNotations.
Open Scope string_scope.
Open Scope Z_scope.

(** ** JavaScript values *)

#[local] Set Warnings "-register-all".

Inductive JsValue : Type :=
| JUndefined
| JNull
| JBool (b : bool)
| JNumber (n : Z)
| JString (s : string)
| JArray (items : list JsValue)
| JObject (fields : list (string * JsValue)).

Inductive JsType : Type := TUndefined | TObject | TBoolean | TNumber | TString.

Definition JsType_eqb (a b : JsType) : bool :=
  match a, b with
  | TUndefined, TUndefined | TObject, TObject | TBoolean, TBoolean
  | TNumber, TNumber | TString, TString => true
  | _, _ => false
  end.

(** [typeof value]; note that [typeof null] is ["object"]. *)
Definition typeof (value : JsValue) : JsType :=
  match value with
  | JUndefined => TUndefined
  | JNull => TObject
  | JBool _ => TBoolean
  | JNumber _ => TNumber
  | JString _ => TString
  | JArray _ => TObject
  | JObject _ => TObject
  end.

Definition isNull (value : JsValue) : bool :=
  match value with JNull => true | _ => false end.

Definition Array_isArray (value : JsValue) : bool :=
  match value with JArray _ => true | _ => false end.

(** [util/helper.ts]:
    [value !== null && typeof value === "object" && !Array.isArray(value)]. *)
Definition isObject (value : JsValue) : bool :=
  negb (isNull value) && JsType_eqb (typeof value) TObject && negb (Array_isArray value).

Fixpoint assoc {A : Type} (key : string) (l : list (string * A)) : option A :=
  match l with
  | [] => None
  | (k, v) :: rest => if String.eqb k key then Some v else assoc key rest
  end.

(** Property access [value.key] on a value that passed [isObject] (or on the
    cookie jar): a missing property reads as [undefined]. *)
Definition prop (value : JsValue) (key : string) : JsValue :=
  match value with
  | JObject fields => match assoc key fields with Some v => v | None => JUndefined end
  | _ => JUndefined
  end.

(** [String(value)], the conversion that a property access [object[value]]
    applies to its key. An array prints its elements joined by commas, with
    [null] and [undefined] among them printed as nothing. An object prints
    as ["[object Object]"], unless it has a property [toString] of its own:
    in a value parsed from JSON that property is no function, and the
    conversion throws a [TypeError], here [None]. Numbers are the integers,
    printed in decimal digits (JavaScript turns to exponent notation from 22
    digits on). *)
Fixpoint ToString (value : JsValue) : option string :=
  match value with
  | JUndefined => Some "undefined"
  | JNull => Some "null"
  | JBool b => Some (if b then "true" else "false")
  | JNumber n => Some (NilZero.string_of_int (Z.to_int n))
  | JString s => Some s
  | JArray items =>
    (fix join (items : list JsValue) : option string :=
       match items with
       | [] => Some ""
       | item :: rest =>
         let element :=
           match item with
           | JUndefined | JNull => Some ""
           | _ => ToString item
           end in
         match rest with
         | [] => element
         | _ :: _ =>
           match element, join rest with
           | Some first, Some others => Some (first ++ "," ++ others)
           | _, _ => None
           end
         end
       end) items
  | JObject fields =>
    match assoc "toString" fields with
    | Some _ => None
    | None => Some "[object Object]"
    end
  end.

(** The property names of [Object.prototype], which every object literal
    inherits. *)
Definition Object_prototype : list string :=
  ["constructor"; "__defineGetter__"; "__defineSetter__"; "hasOwnProperty";
   "__lookupGetter__"; "__lookupSetter__"; "isPrototypeOf"; "propertyIsEnumerable";
   "toString"; "valueOf"; "__proto__"; "toLocaleString"].

(** ** Exceptions and the database monad *)

Inductive Result (A : Type) : Type :=
| Ok (a : A)
| Threw.
Arguments Ok {A} a.
Arguments Threw {A}.

(** ** Tables (prisma/migrations) *)

Inductive JobApplicationStatus : Type :=
| PENDING | APPLIED | SHORTLISTED | INTERVIEW | REJECTED | NO_RESPONSE | WITHDRAWN | OFFER.

Inductive WorkModel : Type := ONSITE | HYBRID | REMOTE.

Record User : Type := mkUser {
  user_id : string;
  user_email : string;
  user_username : string;
  user_firstname : option string;
  user_hashedPassword : string;
  user_createdAt : Z;
  user_updatedAt : Z
}.

Record RefreshToken : Type := mkRefreshToken {
  rt_id : string;
  rt_hash : string;
  rt_jti : string;
  rt_createdAt : Z;
  rt_userId : string
}.

Record JobApplication : Type := mkJobApplication {
  app_id : string;
  app_companyName : string;
  app_jobTitle : string;
  app_salary : Z;
  app_status : JobApplicationStatus;
  app_workModel : WorkModel;
  app_createdAt : Z;
  app_updatedAt : Z;
  app_userId : string
}.

Record DB : Type := mkDB {
  users : list User;
  refreshTokens : list RefreshToken;
  jobApplications : list JobApplication
}.

(** A database computation: it returns a value or throws, and in both cases
    leaves a database behind. *)
Definition M (A : Type) : Type := DB -> Result A * DB.

Definition ret {A : Type} (a : A) : M A := fun db => (Ok a, db).

Definition throw {A : Type} : M A := fun db => (Threw, db).

Definition bind {A B : Type} (m : M A) (k : A -> M B) : M B :=
  fun db =>
    match m db with
    | (Ok a, db') => k a db'
    | (Threw, db') => (Threw, db')
    end.

Notation "x <- m ;; k" := (bind m (fun x => k))
  (at level 61, m at next level, right associativity).
Notation "m ;;; k" := (bind m (fun _ => k))
  (at level 61, right associativity).

(** [try { body } catch (e) { handler }] *)
Definition try_catch {A : Type} (body : M A) (handler : A) : DB -> A * DB :=
  fun db =>
    match body db with
    | (Ok a, db') => (a, db')
    | (Threw, db') => (handler, db')
    end.

(** A function typed [string] in TypeScript that is handed an [any]: the
    libraries behind it (bcrypt, the Prisma client) validate their arguments
    at run time and throw on anything that is not a string. *)
Definition expect_string (v : JsValue) : M string :=
  match v with
  | JString s => ret s
  | _ => throw
  end.

(** ** Process environment, requests and responses *)

Record Env : Type := mkEnv {
  REFRESH_TOKEN_SECRET : option string;
  ACCESS_TOKEN_SECRET : option string
}.

(** [!secret] for a value of type [string | undefined]: [undefined] and the
    empty string are falsy. *)
Definition falsy (secret : option string) : bool :=
  match secret with
  | None => true
  | Some s => String.eqb s ""
  end.

Definition secret_value (secret : option string) : string :=
  match secret with
  | Some s => s
  | None => ""
  end.

Record Request : Type := mkRequest {
  req_body : JsValue;
  req_cookies : JsValue;
  req_authorization : option string;
  req_params_id : string;
  req_userId : string
}.

Record CookieOptions : Type := mkCookieOptions {
  httpOnly : bool;
  secure : bool;
  sameSite : string;
  path : string;
  maxAge : Z
}.

Inductive CookieOp : Type :=
| SetCookie (name value : string) (options : CookieOptions)
| ClearCookie (name cookiePath : string).

Record Response : Type := mkResponse {
  status : Z;
  body : option JsValue;
  cookies : list CookieOp
}.

(** [http-status-codes] *)
Definition OK : Z := 200.
Definition CREATED : Z := 201.
Definition NO_CONTENT : Z := 204.
Definition BAD_REQUEST : Z := 400.
Definition UNAUTHORIZED : Z := 401.
Definition FORBIDDEN : Z := 403.
Definition INTERNAL_SERVER_ERROR : Z := 500.

(** [res.status(code).json(value)] and [res.status(code).send(value)] on a
    response on which the cookie operations [cs] were made before. *)
Definition send_json (cs : list CookieOp) (code : Z) (value : JsValue) : Response :=
  mkResponse code (Some value) cs.

(** [res.status(code).send()]; [res.sendStatus(204)] also ends with an empty
    body. *)
Definition send_empty (cs : list CookieOp) (code : Z) : Response :=
  mkResponse code None cs.

Definition message (text : string) : JsValue :=
  JObject [("message", JString text)].

(** [services/cookies.service.ts] *)
Definition setRefreshCookie (cs : list CookieOp) (refreshToken : string) : list CookieOp :=
  cs ++ [SetCookie "refreshToken" refreshToken
           (mkCookieOptions true false "lax" "/auth/" (7 * 24 * 60 * 60 * 1000))].

(** ** The external libraries *)

(** The payload built by [createJwtPayload]; [jwt.verify] hands it back
    (with [iat] and [exp], which the handlers never read). *)
Record JwtPayload : Type := mkJwtPayload {
  sub : string;
  jti : string
}.

(** [jsonwebtoken]: [jwt_sign payload secret expiresIn now] is
    [jwt.sign(payload, secret, { expiresIn })] called at clock [now] (seconds);
    [jwt_verify token secret now] is [jwt.verify(token, secret)] called at
    clock [now], [None] when it throws. *)
Class JwtLib : Type := {
  jwt_sign : JwtPayload -> string -> Z -> Z -> string;
  jwt_verify : string -> string -> Z -> option JwtPayload
}.

(** The contract of [jsonwebtoken] for HMAC secrets: a token verifies under
    the secret that signed it until its expiry, never after, never under
    another secret; the payload read from a token does not depend on when it
    is read; a token is not the empty string. *)
Class JwtLawful (J : JwtLib) : Prop := {
  verify_sign : forall p secret expiresIn now t,
    t < now + expiresIn -> jwt_verify (jwt_sign p secret expiresIn now) secret t = Some p;
  verify_expired : forall p secret secret' expiresIn now t,
    now + expiresIn <= t -> jwt_verify (jwt_sign p secret expiresIn now) secret' t = None;
  verify_other_secret : forall p secret secret' expiresIn now t,
    secret <> secret' -> jwt_verify (jwt_sign p secret expiresIn now) secret' t = None;
  verify_payload_stable : forall token secret t t' p p',
    jwt_verify token secret t = Some p -> jwt_verify token secret t' = Some p' -> p = p';
  sign_nonempty : forall p secret expiresIn now,
    jwt_sign p secret expiresIn now <> ""
}.

(** [bcrypt]: [bcrypt_hash data rounds salt] is [bcrypt.hash(data, rounds)]
    when the library draws [salt]; [bcrypt_compare data encrypted] is
    [bcrypt.compare(data, encrypted)]. *)
Class BcryptLib : Type := {
  bcrypt_hash : string -> Z -> string -> string;
  bcrypt_compare : string -> string -> bool
}.

(** The contract of [bcrypt]: a digest matches the plaintext it was made
    from. Nothing is said of another plaintext: bcrypt reads the first 72
    bytes of its input only, so two plaintexts that agree on them match each
    other's digests. *)
Class BcryptLawful (B : BcryptLib) : Prop := {
  compare_hash : forall data rounds salt,
    bcrypt_compare data (bcrypt_hash data rounds salt) = true
}.

(** What the handlers draw from the outside during one request: the two
    [randomUUID()] results, the bcrypt salts, the ids the database
    generates. *)
Record Rand : Type := mkRand {
  rnd_accessJti : string;
  rnd_refreshJti : string;
  rnd_passwordSalt : string;
  rnd_tokenSalt : string;
  rnd_userId : string;
  rnd_rowId : string
}.

(** The Prisma client and the database behind it, where the handlers leave
    the outcome to them.

    An [update] takes for a column, besides a plain value, an object of
    operations: [{ set: v }], for a number also [{ increment: n }] and the
    like. [text_operations fields old] is the content that the operations
    object [fields] gives a text column holding [old];
    [nullable_text_operations] and [int_operations] are the same for a
    nullable text column and for an [Int] column. [None] is an object that
    the client or the database refuses, by an exception.

    [findMany] without [orderBy] returns the rows in the order in which the
    database comes across them: [scan rows] for a table holding [rows]. *)
Class PrismaLib : Type := {
  text_operations : list (string * JsValue) -> string -> option string;
  nullable_text_operations :
    list (string * JsValue) -> option string -> option (option string);
  int_operations : list (string * JsValue) -> Z -> option Z;
  scan : list JobApplication -> list JobApplication
}.

(** Whatever the order of a scan is, it returns every row once. *)
Class PrismaLawful (P : PrismaLib) : Prop := {
  scan_permutation : forall rows, Permutation (scan rows) rows
}.

(** ** The Prisma client on the three tables

    [findUnique] returns [null] when no row matches; [update] and [delete]
    throw when no row matches; [create], [update] and [upsert] throw when the
    row they would write breaks a primary key, a unique index or a foreign
    key of the migrations. *)

Definition set_users (db : DB) (l : list User) : DB :=
  mkDB l (refreshTokens db) (jobApplications db).

Definition set_refreshTokens (db : DB) (l : list RefreshToken) : DB :=
  mkDB (users db) l (jobApplications db).

Definition set_jobApplications (db : DB) (l : list JobApplication) : DB :=
  mkDB (users db) (refreshTokens db) l.

Definition owned_by (userId : string) (row : RefreshToken) : bool :=
  String.eqb (rt_userId row) userId.

(** Would writing [hash] and [jti] into the row of [userId] collide with the
    unique indexes on [hash] and on [jti]? *)
Definition token_conflict (userId hash jti : string) (rows : list RefreshToken) : bool :=
  existsb (fun row => negb (owned_by userId row)
                      && (String.eqb (rt_hash row) hash || String.eqb (rt_jti row) jti)) rows.

Definition write_token (hash jti : string) (row : RefreshToken) : RefreshToken :=
  mkRefreshToken (rt_id row) hash jti (rt_createdAt row) (rt_userId row).

(** *** [services/users.service.ts] *)

Definition findUserById (userId : string) : M (option User) :=
  fun db => (Ok (find (fun u => String.eqb (user_id u) userId) (users db)), db).

Definition findUserByEmail (email : JsValue) : M (option User) :=
  e <- expect_string email ;;
  fun db => (Ok (find (fun u => String.eqb (user_email u) e) (users db)), db).

(** [newId] is the id the database generates for the row, [now] its clock;
    [id] is the primary key and [email] carries a unique index. *)
Definition createUser (newId : string) (now : Z)
    (username email : JsValue) (hashedPassword : string) : M User :=
  name <- expect_string username ;;
  e <- expect_string email ;;
  fun db =>
    if existsb (fun u => String.eqb (user_id u) newId || String.eqb (user_email u) e) (users db)
    then (Threw, db)
    else
      let row := mkUser newId e name None hashedPassword now now in
      (Ok row, set_users db (users db ++ [row])).

(** *** [services/refreshTokens.service.ts] *)

Definition findRefreshTokenByUserId (userId : string) : M (option RefreshToken) :=
  fun db => (Ok (find (owned_by userId) (refreshTokens db)), db).

Definition updateHashOfRefreshTokenByUserId (userId hash jti : string) : M RefreshToken :=
  fun db =>
    match find (owned_by userId) (refreshTokens db) with
    | None => (Threw, db)
    | Some row =>
      if token_conflict userId hash jti (refreshTokens db) then (Threw, db)
      else
        (Ok (write_token hash jti row),
         set_refreshTokens db
           (map (fun r => if owned_by userId r then write_token hash jti r else r)
                (refreshTokens db)))
    end.

(** The new row must not collide on [id], [userId], [hash] or [jti], and its
    [userId] must name a user. *)
Definition createRefreshToken (newId : string) (now : Z) (hash userId jti : string)
    : M RefreshToken :=
  fun db =>
    if existsb (fun r => String.eqb (rt_id r) newId || owned_by userId r) (refreshTokens db)
       || token_conflict userId hash jti (refreshTokens db)
       || negb (existsb (fun u => String.eqb (user_id u) userId) (users db))
    then (Threw, db)
    else
      let row := mkRefreshToken newId hash jti now userId in
      (Ok row, set_refreshTokens db (refreshTokens db ++ [row])).

Definition upsertHashOfRefreshTokenByUserId (newId : string) (now : Z)
    (userId hash jti : string) : M RefreshToken :=
  fun db =>
    match find (owned_by userId) (refreshTokens db) with
    | Some _ => updateHashOfRefreshTokenByUserId userId hash jti db
    | None => createRefreshToken newId now hash userId jti db
    end.

Definition deleteRefreshTokenByUserId (userId : string) : M RefreshToken :=
  fun db =>
    match find (owned_by userId) (refreshTokens db) with
    | None => (Threw, db)
    | Some row =>
      (Ok row,
       set_refreshTokens db (filter (fun r => negb (owned_by userId r)) (refreshTokens db)))
    end.

(** [user.username] on the result of [findUserById]: a [TypeError] when the
    user is [null]. *)
Definition username_of (user : option User) : M string :=
  match user with
  | Some u => ret (user_username u)
  | None => throw
  end.

Definition string_of (v : JsValue) : string :=
  match v with
  | JString s => s
  | _ => ""
  end.

(** [typeof refreshToken !== "string" || refreshToken.length === 0] *)
Definition not_a_nonempty_string (v : JsValue) : bool :=
  negb (JsType_eqb (typeof v) TString) || Nat.eqb (String.length (string_of v)) 0.

Definition lift {A : Type} (f : DB -> A * DB) : M A :=
  fun db => let (a, db') := f db in (Ok a, db').

Section Server.

Context {J : JwtLib} {B : BcryptLib}.

(** ** [services/jwt.service.ts] *)

(** [expiresIn: "15m"] *)
Definition generateAccessToken (payload : JwtPayload) (secretAccessKey : string) (now : Z)
    : string :=
  jwt_sign payload secretAccessKey (15 * 60) now.

(** [expiresIn: "7d"] *)
Definition generateRefreshToken (payload : JwtPayload) (secretRefreshKey : string) (now : Z)
    : string :=
  jwt_sign payload secretRefreshKey (7 * 24 * 60 * 60) now.

Definition createJwtPayload (sub jti : string) : JwtPayload :=
  mkJwtPayload sub jti.

(** [jwt.verify(token, secret) as JwtPayload], which throws on a bad
    signature and on an expired token. *)
Definition verify (token secret : string) (now : Z) : M JwtPayload :=
  match jwt_verify token secret now with
  | Some decoded => ret decoded
  | None => throw
  end.

(** ** [util/crypto.util.ts] *)

Definition hash (str salt : string) : string := bcrypt_hash str 10 salt.

Definition compare (data encrypted : string) : bool := bcrypt_compare data encrypted.

(** ** [controllers/auth.controller.ts] *)

Definition register (env : Env) (now : Z) (rnd : Rand) (req : Request)
    : DB -> Response * DB :=
  if negb (isObject (req_body req)) then
    fun db => (send_json [] BAD_REQUEST (message "The request body is not an object"), db)
  else
    try_catch
      (password <- expect_string (prop (req_body req) "password") ;;
       let hashedPassword := hash password (rnd_passwordSalt rnd) in
       createdUser <- createUser (rnd_userId rnd) now
                        (prop (req_body req) "username") (prop (req_body req) "email")
                        hashedPassword ;;
       let createdUserId := user_id createdUser in
       let secretRefreshKey := REFRESH_TOKEN_SECRET env in
       let secretAccessKey := ACCESS_TOKEN_SECRET env in
       if falsy secretAccessKey || falsy secretRefreshKey then
         ret (send_json [] INTERNAL_SERVER_ERROR (message "Server misconfigured"))
       else
         let accessTokenJti := rnd_accessJti rnd in
         let accessToken :=
           generateAccessToken (createJwtPayload createdUserId accessTokenJti)
             (secret_value secretAccessKey) now in
         let refreshTokenJti := rnd_refreshJti rnd in
         let refreshToken :=
           generateRefreshToken (createJwtPayload createdUserId refreshTokenJti)
             (secret_value secretRefreshKey) now in
         let hashedRefreshToken := hash refreshToken (rnd_tokenSalt rnd) in
         createRefreshToken (rnd_rowId rnd) now hashedRefreshToken createdUserId
           refreshTokenJti ;;;
         ret (send_json (setRefreshCookie [] refreshToken) CREATED
                (JObject [("accessToken", JString accessToken)])))
      (send_empty [] INTERNAL_SERVER_ERROR).

Definition login (env : Env) (now : Z) (rnd : Rand) (req : Request)
    : DB -> Response * DB :=
  if negb (isObject (req_body req)) then
    fun db => (send_json [] BAD_REQUEST (message "The request body is not an object"), db)
  else
    let email := prop (req_body req) "email" in
    try_catch
      (user <- findUserByEmail email ;;
       match user with
       | None => ret (send_json [] UNAUTHORIZED (message "Email or password are incorrect"))
       | Some user =>
         let userId := user_id user in
         let storedHashedPassword := user_hashedPassword user in
         plaintextPassword <- expect_string (prop (req_body req) "password") ;;
         let isPasswordCorrect := compare plaintextPassword storedHashedPassword in
         if negb isPasswordCorrect then
           ret (send_json [] UNAUTHORIZED (message "Email or password are incorrect"))
         else
           let secretRefreshKey := REFRESH_TOKEN_SECRET env in
           let secretAccessKey := ACCESS_TOKEN_SECRET env in
           if falsy secretAccessKey || falsy secretRefreshKey then
             ret (send_json [] INTERNAL_SERVER_ERROR (message "Server misconfigured"))
           else
             let accessTokenJti := rnd_accessJti rnd in
             let accessToken :=
               generateAccessToken (createJwtPayload userId accessTokenJti)
                 (secret_value secretAccessKey) now in
             let refreshTokenJti := rnd_refreshJti rnd in
             let refreshToken :=
               generateRefreshToken (createJwtPayload userId refreshTokenJti)
                 (secret_value secretRefreshKey) now in
             let hashedRefreshToken := hash refreshToken (rnd_tokenSalt rnd) in
             upsertHashOfRefreshTokenByUserId (rnd_rowId rnd) now userId hashedRefreshToken
               refreshTokenJti ;;;
             ret (send_json (setRefreshCookie [] refreshToken) OK
                    (JObject [("accessToken", JString accessToken)]))
       end)
      (send_empty [] INTERNAL_SERVER_ERROR).

(** [jwt.verify] stands before the [try] here: when it throws, the handler's
    promise rejects ([Threw]) and the handler has sent nothing. *)
Definition logout (env : Env) (now : Z) (req : Request) : M Response :=
  let refreshToken := prop (req_cookies req) "refreshToken" in
  if not_a_nonempty_string refreshToken then
    ret (send_empty [] BAD_REQUEST)
  else
    let secretRefreshKey := REFRESH_TOKEN_SECRET env in
    if falsy secretRefreshKey then
      ret (send_json [] INTERNAL_SERVER_ERROR (message "Server misconfigured"))
    else
      decoded <- verify (string_of refreshToken) (secret_value secretRefreshKey) now ;;
      let userId := sub decoded in
      lift (try_catch
              (deleteRefreshTokenByUserId userId ;;;
               user <- findUserById userId ;;
               username_of user ;;;
               ret (send_empty [ClearCookie "refreshToken" "/auth/"] NO_CONTENT))
              (send_empty [] INTERNAL_SERVER_ERROR)).

Definition refresh (env : Env) (now : Z) (rnd : Rand) (req : Request)
    : DB -> Response * DB :=
  try_catch
    (let refreshToken := prop (req_cookies req) "refreshToken" in
     if not_a_nonempty_string refreshToken then
       ret (send_json [] UNAUTHORIZED (message "The refresh token is not valid"))
     else
       let secretRefreshKey := REFRESH_TOKEN_SECRET env in
       if falsy secretRefreshKey then
         ret (send_json [] INTERNAL_SERVER_ERROR (message "Server misconfigured"))
       else
         decoded <- verify (string_of refreshToken) (secret_value secretRefreshKey) now ;;
         let secretAccessKey := ACCESS_TOKEN_SECRET env in
         if falsy secretAccessKey then
           ret (send_json [] INTERNAL_SERVER_ERROR (message "Server misconfigured"))
         else
           let userId := sub decoded in
           storedRefreshToken <- findRefreshTokenByUserId userId ;;
           match storedRefreshToken with
           | None =>
             ret (send_json [] FORBIDDEN
                    (message "The user has no refresh token stored in the database"))
           | Some storedRefreshToken =>
             let isHashMatch := compare (string_of refreshToken) (rt_hash storedRefreshToken) in
             if negb isHashMatch then
               ret (send_json [] FORBIDDEN (message "The refresh token is not valid"))
             else
               let isJtiMatch := String.eqb (jti decoded) (rt_jti storedRefreshToken) in
               if negb isJtiMatch then
                 ret (send_json [] FORBIDDEN (message "The refresh token is not valid"))
               else
                 let newAccessTokenJti := rnd_accessJti rnd in
                 let newAccessToken :=
                   generateAccessToken (createJwtPayload userId newAccessTokenJti)
                     (secret_value secretAccessKey) now in
                 let newRefreshTokenJti := rnd_refreshJti rnd in
                 let newRefreshToken :=
                   generateRefreshToken (createJwtPayload userId newRefreshTokenJti)
                     (secret_value secretRefreshKey) now in
                 let newHashedRefreshToken := hash newRefreshToken (rnd_tokenSalt rnd) in
                 updateHashOfRefreshTokenByUserId userId newHashedRefreshToken
                   newRefreshTokenJti ;;;
                 user <- findUserById userId ;;
                 username_of user ;;;
                 ret (send_json (setRefreshCookie [] (string_of refreshToken)) OK
                        (JObject [("accessToken", JString newAccessToken);
                                  ("refreshToken", JString newRefreshToken)]))
           end)
    (send_empty [] INTERNAL_SERVER_ERROR).

End Server.

(** ** [middleware/authenticateToken.middleware.ts] *)

(** [s.split(" ")] *)
Fixpoint split_space (s : string) : list string :=
  match s with
  | EmptyString => [EmptyString]
  | String c rest =>
    if Ascii.eqb c " "%char then EmptyString :: split_space rest
    else
      match split_space rest with
      | word :: words => String c word :: words
      | [] => [String c EmptyString]
      end
  end.

(** What a middleware does with a request: answer it, or hand it on with
    [next()]. *)
Inductive Middleware : Type :=
| Replied (res : Response)
| Next (req : Request).

Definition set_userId (req : Request) (userId : string) : Request :=
  mkRequest (req_body req) (req_cookies req) (req_authorization req) (req_params_id req) userId.

(** The [authorization] header of Node's [IncomingMessage] is a string or
    [undefined], never an array. [jwt.verify] is not guarded: when it throws,
    the middleware throws ([Threw]) without having answered. *)
Definition authenticateToken {J : JwtLib} (env : Env) (now : Z) (req : Request)
    : Result Middleware :=
  let authHeader := req_authorization req in
  if falsy authHeader then
    Ok (Replied (send_json [] UNAUTHORIZED (message "Missing Authorization header")))
  else
    let parts := split_space (secret_value authHeader) in
    let scheme := nth_error parts 0 in
    let token := nth_error parts 1 in
    if negb (match scheme with Some s => String.eqb s "Bearer" | None => false end)
       || falsy token then
      Ok (Replied (send_json [] UNAUTHORIZED (message "Invalid Authorization header format")))
    else
      let secretAccessKey := ACCESS_TOKEN_SECRET env in
      if falsy secretAccessKey then
        Ok (Replied (send_json [] INTERNAL_SERVER_ERROR (message "Server misconfigured")))
      else
        match jwt_verify (secret_value token) (secret_value secretAccessKey) now with
        | None => Threw
        | Some decoded => Ok (Next (set_userId req (sub decoded)))
        end.

(** ** [services/applications.service.ts] *)

Definition has_id (applicationId : string) (a : JobApplication) : bool :=
  String.eqb (app_id a) applicationId.

(** [findMany({ where: { userId } })], with no [orderBy]. *)
Definition findApplicationsByUserId {P : PrismaLib} (userId : string)
    : M (list JobApplication) :=
  fun db =>
    (Ok (filter (fun a => String.eqb (app_userId a) userId) (scan (jobApplications db))),
     db).

Definition deleteApplicationById (applicationId : string) : M unit :=
  fun db =>
    match find (has_id applicationId) (jobApplications db) with
    | None => (Threw, db)
    | Some _ =>
      (Ok tt,
       set_jobApplications db
         (filter (fun a => negb (has_id applicationId a)) (jobApplications db)))
    end.

(** What [object[key]] finds on an enum object of the generated client, an
    object literal with one property per member: the member of that name, a
    function or object inherited from [Object.prototype], or [undefined]. *)
Inductive Lookup (A : Type) : Type :=
| Member (a : A)
| Inherited (name : string)
| Missing.
Arguments Member {A} a.
Arguments Inherited {A} name.
Arguments Missing {A}.

(** The key is converted to a string first; [Threw] is the [TypeError] of
    that conversion. *)
Definition lookup {A : Type} (members : list (string * A)) (key : JsValue)
    : Result (Lookup A) :=
  match ToString key with
  | None => Threw
  | Some name =>
    Ok (match assoc name members with
        | Some a => Member a
        | None =>
          if existsb (String.eqb name) Object_prototype then Inherited name else Missing
        end)
  end.

(** [WorkModel[key]] and [JobApplicationStatus[key]] *)
Definition WorkModel_at (key : JsValue) : Result (Lookup WorkModel) :=
  lookup [("ONSITE", ONSITE); ("HYBRID", HYBRID); ("REMOTE", REMOTE)] key.

Definition JobApplicationStatus_at (key : JsValue) : Result (Lookup JobApplicationStatus) :=
  lookup [("PENDING", PENDING); ("APPLIED", APPLIED); ("SHORTLISTED", SHORTLISTED);
          ("INTERVIEW", INTERVIEW); ("REJECTED", REJECTED); ("NO_RESPONSE", NO_RESPONSE);
          ("WITHDRAWN", WITHDRAWN); ("OFFER", OFFER)] key.

Definition of_result {A : Type} (r : Result A) : M A :=
  fun db => (r, db).

(** The range of an [Int] column. *)
Definition int4 (n : Z) : bool :=
  (- 2147483648 <=? n) && (n <=? 2147483647).

(** A [data] entry of an [update], for a column holding [old]: the content
    the column gets, [None] when the client or the database refuses the
    entry. [undefined] leaves the column alone, a value of the column's type
    is written, an object is an object of operations, and nothing else is
    taken. *)
Definition text_field {P : PrismaLib} (v : JsValue) (old : string) : option string :=
  match v with
  | JUndefined => Some old
  | JString s => Some s
  | JObject operations => text_operations operations old
  | _ => None
  end.

Definition int_field {P : PrismaLib} (v : JsValue) (old : Z) : option Z :=
  match v with
  | JUndefined => Some old
  | JNumber n => if int4 n then Some n else None
  | JObject operations => int_operations operations old
  | _ => None
  end.

(** The entry of an enum column is what the lookup on the enum object
    found: a member is written, [undefined] leaves the column alone, and an
    inherited function is no value of the column. *)
Definition enum_field {A : Type} (v : Lookup A) (old : A) : option A :=
  match v with
  | Member a => Some a
  | Missing => Some old
  | Inherited _ => None
  end.

(** The [data] object is built first, with its two lookups; the client then
    checks it and rewrites the row of that id. [updatedAt] is set by the
    client on every update. *)
Definition updateApplicationById {P : PrismaLib} (now : Z) (application : JsValue)
    (applicationId : string) : M unit :=
  workModel <- of_result (WorkModel_at (prop application "workModel")) ;;
  status <- of_result (JobApplicationStatus_at (prop application "status")) ;;
  fun db =>
    match find (has_id applicationId) (jobApplications db) with
    | None => (Threw, db)
    | Some row =>
      match text_field (prop application "companyName") (app_companyName row),
            text_field (prop application "jobTitle") (app_jobTitle row),
            enum_field workModel (app_workModel row),
            int_field (prop application "salary") (app_salary row),
            enum_field status (app_status row) with
      | Some companyName, Some jobTitle, Some workModel, Some salary, Some status =>
        (Ok tt,
         set_jobApplications db
           (map (fun a =>
                   if has_id applicationId a then
                     mkJobApplication (app_id a) companyName jobTitle salary status workModel
                       (app_createdAt a) now (app_userId a)
                   else a)
                (jobApplications db)))
      | _, _, _, _, _ => (Threw, db)
      end
    end.

(** ** [controllers/applications.controller.ts]

    These handlers have no [try]: an exception of a service rejects the
    handler's promise ([Threw]). *)

Definition deleteApplication (req : Request) : M Response :=
  let applicationId := req_params_id req in
  let userId := req_userId req in
  deleteApplicationById applicationId ;;;
  user <- findUserById userId ;;
  username_of user ;;;
  ret (send_empty [] NO_CONTENT).

Definition updateApplication {P : PrismaLib} (now : Z) (req : Request) : M Response :=
  let userId := req_userId req in
  let applicationId := req_params_id req in
  if negb (isObject (req_body req)) then
    ret (send_json [] BAD_REQUEST (message "The request body is not an object"))
  else
    updateApplicationById now (req_body req) applicationId ;;;
    user <- findUserById userId ;;
    username_of user ;;;
    ret (send_empty [] NO_CONTENT).

(** ** Reference instances of the libraries

    A transparent stand-in for each library, used to run the handlers on
    concrete requests: a token spells out secret, subject, jti and expiry; a
    digest is the salt followed by the first 72 bytes of the plaintext; an
    object of operations is one operation on one value; a scan returns the
    rows in the order in which they were last written. Each satisfies the
    contract of its library. *)

Module Mock.

Fixpoint enc_str (s : string) : string :=
  match s with
  | EmptyString => "."
  | String c rest => String "+" (String c (enc_str rest))
  end.

Fixpoint dec_str (s : string) : option (string * string) :=
  match s with
  | EmptyString => None
  | String tag rest =>
    if Ascii.eqb tag "."%char then Some (EmptyString, rest)
    else
      match rest with
      | EmptyString => None
      | String c rest' =>
        match dec_str rest' with
        | Some (x, tail) => Some (String c x, tail)
        | None => None
        end
      end
  end.

Fixpoint enc_pos (p : positive) : string :=
  match p with
  | xH => "."
  | xO q => String "0" (enc_pos q)
  | xI q => String "1" (enc_pos q)
  end.

Fixpoint dec_pos (s : string) : option (positive * string) :=
  match s with
  | EmptyString => None
  | String c rest =>
    if Ascii.eqb c "."%char then Some (xH, rest)
    else
      match dec_pos rest with
      | Some (q, tail) => Some (if Ascii.eqb c "0"%char then xO q else xI q, tail)
      | None => None
      end
  end.

Definition enc_Z (z : Z) : string :=
  match z with
  | Z0 => "z"
  | Zpos p => String "p" (enc_pos p)
  | Zneg p => String "n" (enc_pos p)
  end.

Definition dec_Z (s : string) : option Z :=
  match s with
  | EmptyString => None
  | String c rest =>
    if Ascii.eqb c "z"%char then Some 0
    else
      match dec_pos rest with
      | Some (q, _) => Some (if Ascii.eqb c "p"%char then Zpos q else Zneg q)
      | None => None
      end
  end.

Definition sign (p : JwtPayload) (secret : string) (expiresIn now : Z) : string :=
  enc_str secret ++ enc_str (sub p) ++ enc_str (jti p) ++ enc_Z (now + expiresIn).

(** The fields of a token: secret, payload, expiry. *)
Definition parse (token : string) : option (string * JwtPayload * Z) :=
  match dec_str token with
  | None => None
  | Some (secret, r1) =>
    match dec_str r1 with
    | None => None
    | Some (s, r2) =>
      match dec_str r2 with
      | None => None
      | Some (j, r3) =>
        match dec_Z r3 with
        | None => None
        | Some exp => Some (secret, mkJwtPayload s j, exp)
        end
      end
    end
  end.

Definition verify (token secret : string) (now : Z) : option JwtPayload :=
  match parse token with
  | Some (signer, p, exp) =>
    if String.eqb signer secret && (now <? exp) then Some p else None
  | None => None
  end.

Definition jwt : JwtLib := {| jwt_sign := sign; jwt_verify := verify |}.

(** The part of a plaintext that bcrypt reads. *)
Definition first72 (data : string) : string :=
  String.substring 0 72 data.

Definition digest (data : string) (rounds : Z) (salt : string) : string :=
  enc_str salt ++ first72 data.

Definition matches (data encrypted : string) : bool :=
  match dec_str encrypted with
  | Some (_, plain) => String.eqb (first72 data) plain
  | None => false
  end.

Definition bcrypt : BcryptLib := {| bcrypt_hash := digest; bcrypt_compare := matches |}.

(** An object of operations holds exactly one operation. *)
Definition set_text (operations : list (string * JsValue)) (old : string) : option string :=
  match operations with
  | [("set", JString s)] => Some s
  | _ => None
  end.

Definition set_nullable_text (operations : list (string * JsValue)) (old : option string)
    : option (option string) :=
  match operations with
  | [("set", JString s)] => Some (Some s)
  | [("set", JNull)] => Some None
  | _ => None
  end.

(** The result must fit the column. *)
Definition fitting (n : Z) : option Z :=
  if int4 n then Some n else None.

Definition arithmetic (operations : list (string * JsValue)) (old : Z) : option Z :=
  match operations with
  | [("set", JNumber n)] => fitting n
  | [("increment", JNumber n)] => fitting (old + n)
  | [("decrement", JNumber n)] => fitting (old - n)
  | [("multiply", JNumber n)] => fitting (old * n)
  | [("divide", JNumber n)] => if n =? 0 then None else fitting (Z.quot old n)
  | _ => None
  end.

(** Insertion of a row behind the rows that were written no later. *)
Fixpoint written_after (a : JobApplication) (rows : list JobApplication)
    : list JobApplication :=
  match rows with
  | [] => [a]
  | b :: rest =>
    if app_updatedAt a <? app_updatedAt b then a :: b :: rest
    else b :: written_after a rest
  end.

Definition by_last_write (rows : list JobApplication) : list JobApplication :=
  fold_left (fun sorted a => written_after a sorted) rows [].

Definition prisma : PrismaLib :=
  {| text_operations := set_text;
     nullable_text_operations := set_nullable_text;
     int_operations := arithmetic;
     scan := by_last_write |}.

End Mock.

(** ** Predicates used in the statements *)

Section Predicates.

Context {J : JwtLib} {B : BcryptLib}.

(** The login request names an email no user has. *)
Definition unknown_email (req : Request) (db : DB) : Prop :=
  exists email,
    prop (req_body req) "email" = JString email
    /\ find (fun u => String.eqb (user_email u) email) (users db) = None.

(** The login request names an existing user and a password that does not
    compare equal to the stored hash. *)
Definition wrong_password (req : Request) (db : DB) : Prop :=
  exists email user password,
    prop (req_body req) "email" = JString email
    /\ find (fun u => String.eqb (user_email u) email) (users db) = Some user
    /\ prop (req_body req) "password" = JString password
    /\ compare password (user_hashedPassword user) = false.

(** [refresh] finds nothing to object to in the request: the cookie holds a
    token that verifies to [decoded], the secrets are set, [stored] is the
    record of the token's subject, hash and jti match it, the row can be
    rewritten and the user [user] is there to be logged. *)
Definition refresh_accepts (env : Env) (now : Z) (rnd : Rand) (req : Request)
    (db : DB) (decoded : JwtPayload) (stored : RefreshToken) (user : User) : Prop :=
  let cookie := prop (req_cookies req) "refreshToken" in
  let secretRefreshKey := secret_value (REFRESH_TOKEN_SECRET env) in
  let secretAccessKey := secret_value (ACCESS_TOKEN_SECRET env) in
  let newRefreshToken :=
    generateRefreshToken (createJwtPayload (sub decoded) (rnd_refreshJti rnd))
      secretRefreshKey now in
  not_a_nonempty_string cookie = false
  /\ falsy (REFRESH_TOKEN_SECRET env) = false
  /\ falsy (ACCESS_TOKEN_SECRET env) = false
  /\ jwt_verify (string_of cookie) secretRefreshKey now = Some decoded
  /\ find (owned_by (sub decoded)) (refreshTokens db) = Some stored
  /\ compare (string_of cookie) (rt_hash stored) = true
  /\ jti decoded = rt_jti stored
  /\ token_conflict (sub decoded) (hash newRefreshToken (rnd_tokenSalt rnd))
       (rnd_refreshJti rnd) (refreshTokens db) = false
  /\ find (fun u => String.eqb (user_id u) (sub decoded)) (users db) = Some user.

(** The token pair a refresh mints for [decoded]. *)
Definition minted_access (env : Env) (now : Z) (rnd : Rand) (decoded : JwtPayload)
    : string :=
  generateAccessToken (createJwtPayload (sub decoded) (rnd_accessJti rnd))
    (secret_value (ACCESS_TOKEN_SECRET env)) now.

Definition minted_refresh (env : Env) (now : Z) (rnd : Rand) (decoded : JwtPayload)
    : string :=
  generateRefreshToken (createJwtPayload (sub decoded) (rnd_refreshJti rnd))
    (secret_value (REFRESH_TOKEN_SECRET env)) now.

(** The table after the record of [userId] was rewritten in place. *)
Definition rotated (userId hash jti : string) (db : DB) : DB :=
  set_refreshTokens db
    (map (fun r => if owned_by userId r then write_token hash jti r else r) (refreshTokens db)).

(** One call of [login]: its clock, its random draws, its request. *)
Record LoginCall : Type := mkLoginCall {
  lc_now : Z;
  lc_rnd : Rand;
  lc_req : Request
}.


(** The refresh token a successful login of [user] by call [c] hands out. *)
Definition issued (env : Env) (user : User) (c : LoginCall) : string :=
  generateRefreshToken (createJwtPayload (user_id user) (rnd_refreshJti (lc_rnd c)))
    (secret_value (REFRESH_TOKEN_SECRET env)) (lc_now c).

(** The unique index on [userId] of the refresh-token table. *)
Definition unique_userId (db : DB) : Prop :=
  NoDup (map rt_userId (refreshTokens db)).

End Predicates.

(** ** A concrete deployment to run the handlers on *)

Module Scenario.

Definition env : Env := mkEnv (Some "refresh-secret") (Some "access-secret").

Definition alice : User :=
  mkUser "u-alice" "alice@example.com" "alice" None (Mock.digest "pw123" 10 "na") 0 0.

Definition bob : User :=
  mkUser "u-bob" "bob@example.com" "bob" None (Mock.digest "hunter2" 10 "nb") 0 0.

Definition alices_application : JobApplication :=
  mkJobApplication "app-1" "Acme" "Engineer" 50000 PENDING REMOTE 0 0 "u-alice".

Definition bobs_application : JobApplication :=
  mkJobApplication "app-2" "Initech" "Analyst" 40000 APPLIED ONSITE 0 0 "u-bob".

Definition db0 : DB := mkDB [alice; bob] [] [alices_application; bobs_application].

Definition post (body : JsValue) : Request :=
  mkRequest body (JObject []) None "" "".

Definition with_cookie (refreshToken : string) : Request :=
  mkRequest JUndefined (JObject [("refreshToken", JString refreshToken)]) None "" "".

Definition with_header (authorization : string) : Request :=
  mkRequest JUndefined (JObject []) (Some authorization) "" "".

Definition credentials (email password : string) : JsValue :=
  JObject [("email", JString email); ("password", JString password)].

Definition alice_login : Request := post (credentials "alice@example.com" "pw123").

(** The refresh token of alice's login at time 10 with the draws [rnd1]. *)
Definition alice_token : string :=
  Mock.sign (mkJwtPayload "u-alice" "jti-r1") "refresh-secret" (7 * 24 * 60 * 60) 10.

Definition rnd1 : Rand := mkRand "jti-a1" "jti-r1" "np1" "nt1" "u-new1" "row-1".
Definition rnd2 : Rand := mkRand "jti-a2" "jti-r2" "np2" "nt2" "u-new2" "row-2".
Definition rnd3 : Rand := mkRand "jti-a3" "jti-r3" "np3" "nt3" "u-new3" "row-3".

Definition logged_in : Response * DB :=
  @login Mock.jwt Mock.bcrypt env 10 rnd1 alice_login db0.


(** The database after alice refreshed at time 20 with her login token:
    that token is rotated out. *)
Definition rotated_out : DB :=
  snd (@refresh Mock.jwt Mock.bcrypt env 20 rnd2 (with_cookie alice_token) (snd logged_in)).

(** A token with alice as subject signed with a secret that is not the
    server's, and one signed by the server at time 0 for 60 seconds. *)
Definition forged : string :=
  Mock.sign (mkJwtPayload "u-alice" "jti-x") "not-our-secret" (7 * 24 * 60 * 60) 0.

Definition short_lived (secret : string) : string :=
  Mock.sign (mkJwtPayload "u-alice" "jti-x") secret 60 0.

(** Dave's id is a UUID, as the database generates them. His login at
    time 10 with the draws [rnd1], on a database that holds him alone, and
    the refresh token it hands out. *)
Definition dave : User :=
  mkUser "7f3c1e9a-5b2d-4c8e-9f1a-2b3c4d5e6f70" "dave@example.com" "dave" None
    (Mock.digest "pw456" 10 "nd") 0 0.

Definition dave_logged_in : Response * DB :=
  @login Mock.jwt Mock.bcrypt env 10 rnd1
    (post (credentials "dave@example.com" "pw456")) (mkDB [dave] [] []).

Definition dave_token : string :=
  Mock.sign (mkJwtPayload (user_id dave) "jti-r1") "refresh-secret" (7 * 24 * 60 * 60) 10.

(** Bob, authenticated, addresses the application [app-1], which is alice's. *)
Definition bob_on_alices (body : JsValue) : Request :=
  mkRequest body (JObject []) None "app-1" "u-bob".

End Scenario.


(** * The rest of the server

    The services and handlers that the session protocol does not use:
    the remaining lookups of the refresh-token service, the profile handlers,
    the creation and listing of job applications, and the two routers that
    put [authenticateToken] in front of them. *)

(** ** [services/refreshTokens.service.ts], the two lookups *)

(** [findUnique({ where: { hash } })] and [refreshToken !== null] *)
Definition refreshTokenExists (hash : string) : M bool :=
  fun db =>
    (Ok (match find (fun r => String.eqb (rt_hash r) hash) (refreshTokens db) with
         | Some _ => true
         | None => false
         end), db).

(** [refreshToken.hash] without a null check: a [TypeError] when the user
    has no record. *)
Definition findHashOfRefreshTokenByUserId (userId : string) : M string :=
  fun db =>
    match find (owned_by userId) (refreshTokens db) with
    | Some refreshToken => (Ok (rt_hash refreshToken), db)
    | None => (Threw, db)
    end.

(** ** [services/users.service.ts], [updateUserById] *)

(** The [data] entry of a nullable text column: [null] empties the column. *)
Definition nullable_text_field {P : PrismaLib} (v : JsValue) (old : option string)
    : option (option string) :=
  match v with
  | JUndefined => Some old
  | JNull => Some None
  | JString s => Some (Some s)
  | JObject operations => nullable_text_operations operations old
  | _ => None
  end.

Definition has_user_id (userId : string) (u : User) : bool :=
  String.eqb (user_id u) userId.

(** Would giving [email] to the user [userId] collide with the unique index
    on [email]? *)
Definition email_conflict (userId : string) (email : string) (rows : list User) : bool :=
  existsb (fun u => negb (has_user_id userId u) && String.eqb (user_email u) email) rows.

Definition updateUserById {P : PrismaLib} (now : Z) (userId : string) (user : JsValue)
    : M unit :=
  fun db =>
    match find (has_user_id userId) (users db) with
    | None => (Threw, db)
    | Some row =>
      match nullable_text_field (prop user "firstname") (user_firstname row),
            text_field (prop user "email") (user_email row),
            text_field (prop user "username") (user_username row) with
      | Some firstname, Some email, Some username =>
        if email_conflict userId email (users db) then (Threw, db)
        else
          (Ok tt,
           set_users db
             (map (fun u =>
                     if has_user_id userId u then
                       mkUser (user_id u) email username firstname
                         (user_hashedPassword u) (user_createdAt u) now
                     else u)
                  (users db)))
      | _, _, _ => (Threw, db)
      end
    end.

(** ** [services/applications.service.ts], [createJobApplicationByUserId] *)

(** A [data] entry of a [create] is a value of the column's type and nothing
    else; the columns written here have no default. *)
Definition expect_int (v : JsValue) : M Z :=
  match v with
  | JNumber n => if int4 n then ret n else throw
  | _ => throw
  end.

Definition expect_member {A : Type} (v : Lookup A) : M A :=
  match v with
  | Member a => ret a
  | _ => throw
  end.

(** The row gets the id the database generates, the default status
    [PENDING] and the given owner, who must exist. *)
Definition createJobApplicationByUserId (newId : string) (now : Z)
    (application : JsValue) (userId : string) : M JobApplication :=
  found <- of_result (WorkModel_at (prop application "workModel")) ;;
  companyName <- expect_string (prop application "companyName") ;;
  jobTitle <- expect_string (prop application "jobTitle") ;;
  workModel <- expect_member found ;;
  salary <- expect_int (prop application "salary") ;;
  fun db =>
    if existsb (has_id newId) (jobApplications db)
       || negb (existsb (has_user_id userId) (users db))
    then (Threw, db)
    else
      let createdApplication :=
        mkJobApplication newId companyName jobTitle salary PENDING workModel now now userId in
      (Ok createdApplication,
       set_jobApplications db (jobApplications db ++ [createdApplication])).

(** ** What [res.json] writes for a row *)

(** [Date.prototype.toJSON], the one part of the serialisation that is not
    fixed by the row. *)
Class JsonDate : Type := {
  date_toJSON : Z -> string
}.

Definition JobApplicationStatus_name (s : JobApplicationStatus) : string :=
  match s with
  | PENDING => "PENDING"
  | APPLIED => "APPLIED"
  | SHORTLISTED => "SHORTLISTED"
  | INTERVIEW => "INTERVIEW"
  | REJECTED => "REJECTED"
  | NO_RESPONSE => "NO_RESPONSE"
  | WITHDRAWN => "WITHDRAWN"
  | OFFER => "OFFER"
  end.

Definition WorkModel_name (w : WorkModel) : string :=
  match w with
  | ONSITE => "ONSITE"
  | HYBRID => "HYBRID"
  | REMOTE => "REMOTE"
  end.

Definition json_of_user {D : JsonDate} (u : User) : JsValue :=
  JObject [("id", JString (user_id u));
           ("email", JString (user_email u));
           ("username", JString (user_username u));
           ("firstname", match user_firstname u with Some s => JString s | None => JNull end);
           ("hashedPassword", JString (user_hashedPassword u));
           ("createdAt", JString (date_toJSON (user_createdAt u)));
           ("updatedAt", JString (date_toJSON (user_updatedAt u)))].

Definition json_of_application {D : JsonDate} (a : JobApplication) : JsValue :=
  JObject [("id", JString (app_id a));
           ("companyName", JString (app_companyName a));
           ("jobTitle", JString (app_jobTitle a));
           ("salary", JNumber (app_salary a));
           ("status", JString (JobApplicationStatus_name (app_status a)));
           ("workModel", JString (WorkModel_name (app_workModel a)));
           ("createdAt", JString (date_toJSON (app_createdAt a)));
           ("updatedAt", JString (date_toJSON (app_updatedAt a)));
           ("userId", JString (app_userId a))].

(** ** [controllers/applications.controller.ts], create and list *)

Definition createApplication (newId : string) (now : Z) (req : Request) : M Response :=
  let userId := req_userId req in
  if negb (isObject (req_body req)) then
    ret (send_json [] BAD_REQUEST (message "The request body is not an object"))
  else
    createJobApplicationByUserId newId now (req_body req) userId ;;;
    user <- findUserById userId ;;
    username_of user ;;;
    ret (send_empty [] OK).

Definition getAllApplications {P : PrismaLib} {D : JsonDate} (req : Request)
    : M Response :=
  let userId := req_userId req in
  applications <- findApplicationsByUserId userId ;;
  ret (send_json [] OK (JArray (map json_of_application applications))).

(** ** The users controller *)

(** [res.json(me)] also when [me] is [null]. *)
Definition getMe {D : JsonDate} (req : Request) : M Response :=
  let userId := req_userId req in
  me <- findUserById userId ;;
  ret (send_json [] OK (match me with Some u => json_of_user u | None => JNull end)).

Definition updateMe {P : PrismaLib} (now : Z) (req : Request) : M Response :=
  let userId := req_userId req in
  if negb (isObject (req_body req)) then
    ret (send_json [] BAD_REQUEST (message "The request body is not an object"))
  else
    updateUserById now userId (req_body req) ;;;
    updatedUser <- findUserById userId ;;
    username_of updatedUser ;;;
    ret (send_empty [] NO_CONTENT).

(** ** [routes/applications.route.ts] and [routes/users.route.ts]

    A router is entered with the method and the path below its mount point,
    split at the slashes. [router.use(authenticateToken)] runs first, for
    every request; then the first route of that method and shape runs, with
    [req.params.id] bound by [/:id]. [None] is a request that no route of
    the router takes. *)

Inductive Method : Type := GET | POST | PATCH | DELETE.

Definition set_params_id (req : Request) (id : string) : Request :=
  mkRequest (req_body req) (req_cookies req) (req_authorization req) id (req_userId req).

Definition routed (handler : M Response) : M (option Response) :=
  res <- handler ;; ret (Some res).

Definition applicationRouter {J : JwtLib} {P : PrismaLib} {D : JsonDate}
    (env : Env) (now : Z) (newId : string) (method : Method) (path : list string)
    (req : Request) : M (option Response) :=
  match authenticateToken env now req with
  | Threw => throw
  | Ok (Replied res) => ret (Some res)
  | Ok (Next req) =>
    match method, path with
    | POST, [] => routed (createApplication newId now req)
    | DELETE, [id] => routed (deleteApplication (set_params_id req id))
    | PATCH, [id] => routed (updateApplication now (set_params_id req id))
    | GET, [] => routed (getAllApplications req)
    | _, _ => ret None
    end
  end.

(** [router.patch("/me", getMe)] and [router.get("/me", updateMe)] *)
Definition userRouter {J : JwtLib} {P : PrismaLib} {D : JsonDate}
    (env : Env) (now : Z) (method : Method) (path : list string) (req : Request)
    : M (option Response) :=
  match authenticateToken env now req with
  | Threw => throw
  | Ok (Replied res) => ret (Some res)
  | Ok (Next req) =>
    match method, path with
    | PATCH, ["me"] => routed (getMe req)
    | GET, ["me"] => routed (updateMe now req)
    | _, _ => ret None
    end
  end.


(** ** The foreign key of the refresh-token table *)

(** Every refresh-token record names a user that exists. *)
Definition sessions_have_users (db : DB) : Prop :=
  forall r, In r (refreshTokens db) -> existsb (has_user_id (rt_userId r)) (users db) = true.

(** ** More concrete requests *)

Module Cases.

Definition signup (username email password : string) : Request :=
  Scenario.post (JObject [("username", JString username); ("email", JString email);
                          ("password", JString password)]).

Definition carol_signup : Request := signup "carol" "carol@example.com" "s3cret".

(** Carol's registration at time 5 with the draws [rnd3]. *)
Definition carol_registered : Response * DB :=
  @register Mock.jwt Mock.bcrypt Scenario.env 5 Scenario.rnd3 carol_signup Scenario.db0.

Definition carol_token : string :=
  Mock.sign (mkJwtPayload "u-new3" "jti-r3") "refresh-secret" (7 * 24 * 60 * 60) 5.

(** A deployment that lacks the access secret. *)
Definition env_without_access : Env := mkEnv (Some "refresh-secret") None.

(** A stand-in for the serialisation of dates. *)
Definition dates : JsonDate := {| date_toJSON := Mock.enc_Z |}.

(** Bob, authenticated, posts a new application, claiming alice as owner. *)
Definition bob_creates : Request :=
  mkRequest
    (JObject [("companyName", JString "Hooli"); ("jobTitle", JString "Tester");
              ("workModel", JString "HYBRID"); ("salary", JNumber 30000);
              ("status", JString "OFFER"); ("userId", JString "u-alice");
              ("id", JString "app-1")])
    (JObject []) None "" "u-bob".

(** Bob, with a valid access token issued at time 0, as he reaches a
    router. *)
Definition bob_access_token : string :=
  Mock.sign (mkJwtPayload "u-bob" "jti-b") "access-secret" (15 * 60) 0.

Definition bob_calls (body : JsValue) : Request :=
  mkRequest body (JObject []) (Some ("Bearer " ++ bob_access_token)) "" "".

End Cases.

(** * Properties *)

(** ** The reference instances meet the contracts *)

Module MockFacts.

Import Mock.

Lemma dec_enc_str (x rest : string) : dec_str (enc_str x ++ rest) = Some (x, rest).
Proof.
  induction x as [|c x IH]; simpl.
  - reflexivity.
  - now rewrite IH.
Qed.

Lemma dec_enc_Z (z : Z) : dec_Z (enc_Z z) = Some z.
Proof.
  assert (H : forall p, dec_pos (enc_pos p) = Some (p, "")).
  { induction p as [q IH|q IH|]; simpl; try rewrite IH; reflexivity. }
  destruct z as [|p|p]; simpl; try rewrite H; reflexivity.
Qed.

Lemma parse_sign (p : JwtPayload) (secret : string) (expiresIn now : Z) :
  parse (sign p secret expiresIn now) = Some (secret, p, now + expiresIn).
Proof.
  unfold parse, sign.
  rewrite !dec_enc_str, dec_enc_Z.
  now destruct p.
Qed.

Lemma jwt_lawful : JwtLawful jwt.
Proof.
  split; simpl; unfold verify.
  - intros p secret expiresIn now t Ht.
    rewrite parse_sign, String.eqb_refl.
    apply Z.ltb_lt in Ht. now rewrite Ht.
  - intros p secret secret' expiresIn now t Ht.
    rewrite parse_sign.
    apply Z.ltb_ge in Ht. rewrite Ht.
    now rewrite andb_false_r.
  - intros p secret secret' expiresIn now t Hne.
    rewrite parse_sign.
    apply String.eqb_neq in Hne. now rewrite Hne.
  - intros token secret t t' p p'.
    destruct (parse token) as [[[signer q] exp]|]; [|discriminate].
    destruct (String.eqb signer secret && (t <? exp)); [|discriminate].
    destruct (String.eqb signer secret && (t' <? exp)); [|discriminate].
    congruence.
  - intros p secret expiresIn now. unfold sign.
    destruct secret; discriminate.
Qed.

Lemma bcrypt_lawful : BcryptLawful bcrypt.
Proof.
  split; simpl. intros data rounds salt.
  unfold matches, digest. rewrite dec_enc_str. apply String.eqb_refl.
Qed.

Lemma written_after_permutation (a : JobApplication) (rows : list JobApplication) :
  Permutation (written_after a rows) (a :: rows).
Proof.
  induction rows as [|b rows IH]; simpl.
  - apply Permutation_refl.
  - destruct (app_updatedAt a <? app_updatedAt b).
    + apply Permutation_refl.
    + eapply Permutation_trans; [apply perm_skip, IH|apply perm_swap].
Qed.

Lemma prisma_lawful : PrismaLawful prisma.
Proof.
  split. simpl. unfold by_last_write. intros rows.
  assert (H : forall sorted,
             Permutation (fold_left (fun sorted a => written_after a sorted) rows sorted)
               (sorted ++ rows)).
  { induction rows as [|a rows IH]; intros sorted; simpl.
    - rewrite app_nil_r. apply Permutation_refl.
    - eapply Permutation_trans; [apply IH|].
      eapply Permutation_trans;
        [apply Permutation_app_tail, written_after_permutation|].
      simpl. apply Permutation_middle. }
  exact (H []).
Qed.

End MockFacts.

(** Case analysis on whatever the goal branches on next. *)
Ltac branch :=
  match goal with
  | |- context [match ?x with _ => _ end] =>
    lazymatch x with
    | context [match _ with _ => _ end] => fail
    | _ => destruct x eqn:?
    end
  end.

Ltac run := cbv beta iota zeta delta [negb bind ret throw try_catch lift expect_string username_of] in *.

Section Shape.

Context {J : JwtLib} {B : BcryptLib}.

Lemma isObject_spec (value : JsValue) :
  isObject value = true <-> exists fields, value = JObject fields.
Proof.
  split.
  - destruct value; simpl; try discriminate. intros _. now eexists.
  - intros [fields ->]. reflexivity.
Qed.

Lemma register_status (env : Env) (now : Z) (rnd : Rand) (req : Request) (db : DB) :
  isObject (req_body req) = true ->
  status (fst (register env now rnd req db)) = CREATED
  \/ status (fst (register env now rnd req db)) = INTERNAL_SERVER_ERROR.
Proof.
  intros Hobj. unfold register. rewrite Hobj.
  unfold createUser, createRefreshToken. run.
  repeat (branch; simpl in *; try discriminate); auto.
Qed.

Lemma login_status (env : Env) (now : Z) (rnd : Rand) (req : Request) (db : DB) :
  isObject (req_body req) = true ->
  status (fst (login env now rnd req db)) = OK
  \/ status (fst (login env now rnd req db)) = UNAUTHORIZED
  \/ status (fst (login env now rnd req db)) = INTERNAL_SERVER_ERROR.
Proof.
  intros Hobj. unfold login. rewrite Hobj.
  unfold findUserByEmail, upsertHashOfRefreshTokenByUserId,
    updateHashOfRefreshTokenByUserId, createRefreshToken. run.
  repeat (branch; simpl in *; try discriminate); auto.
Qed.

Lemma not_object_rejected (env : Env) (now : Z) (rnd : Rand) (req : Request) (db : DB) :
  isObject (req_body req) = false ->
  register env now rnd req db
    = (send_json [] BAD_REQUEST (message "The request body is not an object"), db)
  /\ login env now rnd req db
    = (send_json [] BAD_REQUEST (message "The request body is not an object"), db).
Proof.
  intros Hobj. unfold register, login. now rewrite Hobj.
Qed.

(** C10. The shape check of [register] and [login] lets every non-null,
    non-array value of object type through, the empty object included, and
    [BAD_REQUEST] is the answer exactly when the body is [null], an array or
    not of object type. *)
Theorem body_shape_check (env : Env) (now : Z) (rnd : Rand) (req : Request) (db : DB) :
  (isObject (req_body req) = false
   <-> req_body req = JNull
       \/ (exists items, req_body req = JArray items)
       \/ typeof (req_body req) <> TObject)
  /\ (status (fst (register env now rnd req db)) = BAD_REQUEST
      <-> isObject (req_body req) = false)
  /\ (status (fst (login env now rnd req db)) = BAD_REQUEST
      <-> isObject (req_body req) = false)
  /\ (req_body req = JObject [] ->
      status (fst (register env now rnd req db)) <> BAD_REQUEST
      /\ status (fst (login env now rnd req db)) <> BAD_REQUEST).
Proof.
  assert (Hreg : status (fst (register env now rnd req db)) = BAD_REQUEST
                 <-> isObject (req_body req) = false).
  { destruct (isObject (req_body req)) eqn:Hobj.
    - split; [|discriminate].
      destruct (register_status env now rnd req db Hobj) as [E|E];
        rewrite E; discriminate.
    - split; [reflexivity|]. intros _.
      now rewrite (proj1 (not_object_rejected env now rnd req db Hobj)). }
  assert (Hlog : status (fst (login env now rnd req db)) = BAD_REQUEST
                 <-> isObject (req_body req) = false).
  { destruct (isObject (req_body req)) eqn:Hobj.
    - split; [|discriminate].
      destruct (login_status env now rnd req db Hobj) as [E|[E|E]];
        rewrite E; discriminate.
    - split; [reflexivity|]. intros _.
      now rewrite (proj2 (not_object_rejected env now rnd req db Hobj)). }
  repeat split; try apply Hreg; try apply Hlog.
  - destruct (req_body req); simpl; try discriminate; intros _;
      solve [ now left | right; left; now eexists | right; right; discriminate ].
  - intros [->|[[items ->]|Hty]]; try reflexivity.
    destruct (req_body req); try reflexivity; exfalso; apply Hty; reflexivity.
  - intros E. apply Hreg in E. rewrite H in E. discriminate.
  - intros E. apply Hlog in E. rewrite H in E. discriminate.
Qed.

End Shape.

Section Credentials.

Context {J : JwtLib} {B : BcryptLib}.

Lemma login_unknown_email (env : Env) (now : Z) (rnd : Rand) (req : Request) (db : DB) :
  isObject (req_body req) = true ->
  unknown_email req db ->
  login env now rnd req db
    = (send_json [] UNAUTHORIZED (message "Email or password are incorrect"), db).
Proof.
  intros Hobj (email & Hemail & Hnone).
  unfold login. rewrite Hobj. simpl negb. cbv iota.
  unfold findUserByEmail. rewrite Hemail. run. now rewrite Hnone.
Qed.

Lemma login_wrong_password (env : Env) (now : Z) (rnd : Rand) (req : Request) (db : DB) :
  isObject (req_body req) = true ->
  wrong_password req db ->
  login env now rnd req db
    = (send_json [] UNAUTHORIZED (message "Email or password are incorrect"), db).
Proof.
  intros Hobj (email & user & password & Hemail & Hsome & Hpw & Hcmp).
  unfold login. rewrite Hobj. simpl negb. cbv iota.
  unfold findUserByEmail. rewrite Hemail, Hpw. run.
  now rewrite Hsome, Hcmp.
Qed.

(** C5, as the code has it. For bodies that carry the email and the password
    as strings, a login for an email that no user has and a login with a
    password that [compare] finds not to match the stored hash get the same
    response, status 401 and the same message, whatever else differs between
    the two requests; neither touches the database. *)
Theorem login_failures_indistinguishable
    (env1 env2 : Env) (now1 now2 : Z) (rnd1 rnd2 : Rand)
    (req1 req2 : Request) (db1 db2 : DB) :
  isObject (req_body req1) = true ->
  isObject (req_body req2) = true ->
  unknown_email req1 db1 ->
  wrong_password req2 db2 ->
  fst (login env1 now1 rnd1 req1 db1) = fst (login env2 now2 rnd2 req2 db2)
  /\ status (fst (login env1 now1 rnd1 req1 db1)) = UNAUTHORIZED
  /\ body (fst (login env1 now1 rnd1 req1 db1))
     = Some (message "Email or password are incorrect")
  /\ cookies (fst (login env1 now1 rnd1 req1 db1)) = []
  /\ snd (login env1 now1 rnd1 req1 db1) = db1
  /\ snd (login env2 now2 rnd2 req2 db2) = db2.
Proof.
  intros Hobj1 Hobj2 Hunknown Hwrong.
  rewrite (login_unknown_email env1 now1 rnd1 req1 db1 Hobj1 Hunknown).
  rewrite (login_wrong_password env2 now2 rnd2 req2 db2 Hobj2 Hwrong).
  repeat split.
Qed.

End Credentials.

(** The two rejected logins on the concrete deployment: nobody has
    [carol@example.com]; [alice@example.com] exists, but not with [letmein]. *)
Lemma login_failures_indistinguishable_witness :
  fst (@login Mock.jwt Mock.bcrypt Scenario.env 10 Scenario.rnd1
         (Scenario.post (Scenario.credentials "carol@example.com" "pw123")) Scenario.db0)
  = fst (@login Mock.jwt Mock.bcrypt Scenario.env 20 Scenario.rnd2
           (Scenario.post (Scenario.credentials "alice@example.com" "letmein")) Scenario.db0).
Proof.
  refine (proj1 (@login_failures_indistinguishable Mock.jwt Mock.bcrypt
                   _ _ _ _ _ _ _ _ _ _ _ _ _ _)).
  - reflexivity.
  - reflexivity.
  - exists "carol@example.com". split; reflexivity.
  - exists "alice@example.com", Scenario.alice, "letmein". repeat split; reflexivity.
Defined.

(** C5, refuted as stated. Two logins whose body is an object with an email
    and no password: for [carol@example.com], whom nobody has, the answer is
    401 with the message; for [alice@example.com], who exists, [bcrypt]
    throws on the missing password and the answer is 500 with an empty body.
    The two causes are told apart on the wire. *)
Lemma login_without_password_tells_the_causes_apart :
  let unknown := Scenario.post (JObject [("email", JString "carol@example.com")]) in
  let known := Scenario.post (JObject [("email", JString "alice@example.com")]) in
  let answer (req : Request) :=
    @login Mock.jwt Mock.bcrypt Scenario.env 10 Scenario.rnd1 req Scenario.db0 in
  isObject (req_body unknown) = true
  /\ isObject (req_body known) = true
  /\ find (fun u => String.eqb (user_email u) "carol@example.com") (users Scenario.db0) = None
  /\ find (fun u => String.eqb (user_email u) "alice@example.com") (users Scenario.db0)
     = Some Scenario.alice
  /\ answer unknown
     = (send_json [] UNAUTHORIZED (message "Email or password are incorrect"), Scenario.db0)
  /\ answer known = (send_empty [] INTERNAL_SERVER_ERROR, Scenario.db0)
  /\ fst (answer unknown) <> fst (answer known).
Proof.
  cbv zeta. repeat split; try (vm_compute; reflexivity). vm_compute. discriminate.
Qed.

Section Refresh.

Context {J : JwtLib} {B : BcryptLib}.

Lemma refresh_accepts_run (env : Env) (now : Z) (rnd : Rand) (req : Request) (db : DB)
    (decoded : JwtPayload) (stored : RefreshToken) (user : User) :
  refresh_accepts env now rnd req db decoded stored user ->
  refresh env now rnd req db
  = (send_json (setRefreshCookie [] (string_of (prop (req_cookies req) "refreshToken"))) OK
       (JObject [("accessToken", JString (minted_access env now rnd decoded));
                 ("refreshToken", JString (minted_refresh env now rnd decoded))]),
     rotated (sub decoded) (hash (minted_refresh env now rnd decoded) (rnd_tokenSalt rnd))
       (rnd_refreshJti rnd) db).
Proof.
  intros (Hcookie & Hrk & Hak & Hverify & Hfind & Hhash & Hjti & Hfree & Huser).
  unfold refresh, verify, findRefreshTokenByUserId, updateHashOfRefreshTokenByUserId,
    findUserById. run.
  repeat progress
    (rewrite ?Hcookie, ?Hrk, ?Hverify, ?Hak, ?Hfind, ?Hhash, ?Hjti, ?String.eqb_refl,
       ?Hfree, ?Huser; simpl).
  reflexivity.
Qed.

Lemma refresh_success_inv (env : Env) (now : Z) (rnd : Rand) (req : Request) (db : DB) :
  status (fst (refresh env now rnd req db)) = OK ->
  exists decoded stored user, refresh_accepts env now rnd req db decoded stored user.
Proof.
  unfold refresh, verify, findRefreshTokenByUserId, updateHashOfRefreshTokenByUserId,
    findUserById. run.
  repeat (branch; simpl in *; try discriminate).
  intros _.
  repeat match goal with
         | H : (_, _) = (_, _) |- _ => inversion H; subst; clear H
         | H : Some _ = Some _ |- _ => inversion H; subst; clear H
         end.
  do 3 eexists. unfold refresh_accepts.
  repeat split; try apply String.eqb_eq; eauto.
Qed.

Lemma refresh_missing_cookie (env : Env) (now : Z) (rnd : Rand) (req : Request) (db : DB) :
  not_a_nonempty_string (prop (req_cookies req) "refreshToken") = true ->
  refresh env now rnd req db
  = (send_json [] UNAUTHORIZED (message "The refresh token is not valid"), db).
Proof.
  intros Hcookie. unfold refresh. run. now rewrite Hcookie.
Qed.

Lemma refresh_verify_throws (env : Env) (now : Z) (rnd : Rand) (req : Request) (db : DB) :
  not_a_nonempty_string (prop (req_cookies req) "refreshToken") = false ->
  jwt_verify (string_of (prop (req_cookies req) "refreshToken"))
    (secret_value (REFRESH_TOKEN_SECRET env)) now = None ->
  status (fst (refresh env now rnd req db)) = INTERNAL_SERVER_ERROR
  /\ snd (refresh env now rnd req db) = db
  /\ (falsy (REFRESH_TOKEN_SECRET env) = false ->
      refresh env now rnd req db = (send_empty [] INTERNAL_SERVER_ERROR, db)).
Proof.
  intros Hcookie Hverify. unfold refresh, verify. run. rewrite Hcookie, Hverify.
  destruct (falsy (REFRESH_TOKEN_SECRET env)); repeat split; discriminate.
Qed.

Lemma refresh_no_session (env : Env) (now : Z) (rnd : Rand) (req : Request) (db : DB)
    (decoded : JwtPayload) :
  not_a_nonempty_string (prop (req_cookies req) "refreshToken") = false ->
  falsy (REFRESH_TOKEN_SECRET env) = false ->
  falsy (ACCESS_TOKEN_SECRET env) = false ->
  jwt_verify (string_of (prop (req_cookies req) "refreshToken"))
    (secret_value (REFRESH_TOKEN_SECRET env)) now = Some decoded ->
  find (owned_by (sub decoded)) (refreshTokens db) = None ->
  refresh env now rnd req db
  = (send_json [] FORBIDDEN (message "The user has no refresh token stored in the database"),
     db).
Proof.
  intros Hcookie Hrk Hak Hverify Hfind.
  unfold refresh, verify, findRefreshTokenByUserId. run.
  now rewrite Hcookie, Hrk, Hverify, Hak, Hfind.
Qed.

Lemma refresh_stale (env : Env) (now : Z) (rnd : Rand) (req : Request) (db : DB)
    (decoded : JwtPayload) (stored : RefreshToken) :
  not_a_nonempty_string (prop (req_cookies req) "refreshToken") = false ->
  falsy (REFRESH_TOKEN_SECRET env) = false ->
  falsy (ACCESS_TOKEN_SECRET env) = false ->
  jwt_verify (string_of (prop (req_cookies req) "refreshToken"))
    (secret_value (REFRESH_TOKEN_SECRET env)) now = Some decoded ->
  find (owned_by (sub decoded)) (refreshTokens db) = Some stored ->
  compare (string_of (prop (req_cookies req) "refreshToken")) (rt_hash stored) = false
  \/ jti decoded <> rt_jti stored ->
  refresh env now rnd req db
  = (send_json [] FORBIDDEN (message "The refresh token is not valid"), db).
Proof.
  intros Hcookie Hrk Hak Hverify Hfind Hstale.
  unfold refresh, verify, findRefreshTokenByUserId. run.
  rewrite Hcookie, Hrk, Hverify, Hak, Hfind.
  destruct Hstale as [Hhash|Hjti].
  - now rewrite Hhash.
  - apply String.eqb_neq in Hjti. rewrite Hjti.
    now destruct (compare _ _).
Qed.

(** C4, as the code has it. The failures of [refresh]: 401 when the cookie is
    missing or empty (or no string at all); 500, not 401, when the token does
    not verify (bad signature or expired), because [jwt.verify] throws into
    the handler's catch-all; 403 when the subject has no stored record; 403
    when the token does not match the stored hash or its jti is not the
    stored one. No failure changes the database. *)
Theorem refresh_failure_statuses (env : Env) (now : Z) (rnd : Rand) (req : Request) (db : DB) :
  let cookie := prop (req_cookies req) "refreshToken" in
  let answer := fst (refresh env now rnd req db) in
  (not_a_nonempty_string cookie = true ->
   status answer = UNAUTHORIZED /\ snd (refresh env now rnd req db) = db)
  /\ (not_a_nonempty_string cookie = false ->
      jwt_verify (string_of cookie) (secret_value (REFRESH_TOKEN_SECRET env)) now = None ->
      status answer = INTERNAL_SERVER_ERROR /\ snd (refresh env now rnd req db) = db)
  /\ (forall decoded,
      not_a_nonempty_string cookie = false ->
      falsy (REFRESH_TOKEN_SECRET env) = false ->
      falsy (ACCESS_TOKEN_SECRET env) = false ->
      jwt_verify (string_of cookie) (secret_value (REFRESH_TOKEN_SECRET env)) now
        = Some decoded ->
      (find (owned_by (sub decoded)) (refreshTokens db) = None ->
       status answer = FORBIDDEN /\ snd (refresh env now rnd req db) = db)
      /\ (forall stored,
          find (owned_by (sub decoded)) (refreshTokens db) = Some stored ->
          compare (string_of cookie) (rt_hash stored) = false
          \/ jti decoded <> rt_jti stored ->
          status answer = FORBIDDEN /\ snd (refresh env now rnd req db) = db)).
Proof.
  cbv zeta. split; [|split].
  - intros Hcookie. now rewrite (refresh_missing_cookie env now rnd req db Hcookie).
  - intros Hcookie Hverify.
    destruct (refresh_verify_throws env now rnd req db Hcookie Hverify) as (Hs & Hdb & _).
    now split.
  - intros decoded Hcookie Hrk Hak Hverify. split.
    + intros Hfind.
      now rewrite (refresh_no_session env now rnd req db decoded Hcookie Hrk Hak Hverify Hfind).
    + intros stored Hfind Hstale.
      now rewrite (refresh_stale env now rnd req db decoded stored
                     Hcookie Hrk Hak Hverify Hfind Hstale).
Qed.

End Refresh.

(** C4, refuted as stated. A token signed with another secret, and a token of
    ours that has expired, both get 500 from [refresh], not 401. *)
Lemma refresh_unverifiable_token_is_not_401 :
  let expired := Scenario.short_lived "refresh-secret" in
  Mock.verify Scenario.forged "refresh-secret" 10 = None
  /\ @refresh Mock.jwt Mock.bcrypt Scenario.env 10 Scenario.rnd1
       (Scenario.with_cookie Scenario.forged) Scenario.db0
     = (send_empty [] INTERNAL_SERVER_ERROR, Scenario.db0)
  /\ status (fst (@refresh Mock.jwt Mock.bcrypt Scenario.env 10 Scenario.rnd1
                    (Scenario.with_cookie Scenario.forged) Scenario.db0)) <> UNAUTHORIZED
  /\ Mock.verify expired "refresh-secret" 10 = Some (mkJwtPayload "u-alice" "jti-x")
  /\ Mock.verify expired "refresh-secret" 61 = None
  /\ @refresh Mock.jwt Mock.bcrypt Scenario.env 61 Scenario.rnd1
       (Scenario.with_cookie expired) Scenario.db0
     = (send_empty [] INTERNAL_SERVER_ERROR, Scenario.db0)
  /\ status (fst (@refresh Mock.jwt Mock.bcrypt Scenario.env 61 Scenario.rnd1
                    (Scenario.with_cookie expired) Scenario.db0)) <> UNAUTHORIZED.
Proof.
  cbv zeta. repeat split; try (vm_compute; reflexivity); vm_compute; discriminate.
Qed.

(** The failures of [refresh] on the concrete deployment: no cookie, and a
    token of a user (alice) who has no session. *)
Lemma refresh_failure_statuses_witness :
  status (fst (@refresh Mock.jwt Mock.bcrypt Scenario.env 10 Scenario.rnd1
                 (Scenario.post JUndefined) Scenario.db0)) = UNAUTHORIZED
  /\ status (fst (@refresh Mock.jwt Mock.bcrypt Scenario.env 10 Scenario.rnd1
                    (Scenario.with_cookie (Scenario.short_lived "refresh-secret"))
                    Scenario.db0)) = FORBIDDEN.
Proof.
  split.
  - refine (proj1 (proj1 (@refresh_failure_statuses Mock.jwt Mock.bcrypt
                            Scenario.env 10 Scenario.rnd1 (Scenario.post JUndefined)
                            Scenario.db0) _)).
    reflexivity.
  - refine (proj1 (proj1 (proj2 (proj2 (@refresh_failure_statuses Mock.jwt Mock.bcrypt
                            Scenario.env 10 Scenario.rnd1 _ Scenario.db0))
                            (mkJwtPayload "u-alice" "jti-x") _ _ _ _) _));
      reflexivity.
Defined.

(** C1, at a concrete request. Alice logs in at time 10 and presents the
    refresh token she got to [refresh] at time 20. The refresh succeeds with
    200, returns a new access token and a new refresh token in the body and
    rewrites her record in place with the hash and jti of the new refresh
    token, but the cookie it sets carries the token she presented, not the
    new one. *)
Theorem refresh_sets_presented_token_as_cookie :
  let presented := Scenario.alice_token in
  let renewed :=
    Mock.sign (mkJwtPayload "u-alice" "jti-r2") "refresh-secret" (7 * 24 * 60 * 60) 20 in
  let access :=
    Mock.sign (mkJwtPayload "u-alice" "jti-a2") "access-secret" (15 * 60) 20 in
  let refreshed :=
    @refresh Mock.jwt Mock.bcrypt Scenario.env 20 Scenario.rnd2
      (Scenario.with_cookie presented) (snd Scenario.logged_in) in
  cookies (fst Scenario.logged_in) = setRefreshCookie [] presented
  /\ refreshTokens (snd Scenario.logged_in)
     = [mkRefreshToken "row-1" (Mock.digest presented 10 "nt1") "jti-r1" 10 "u-alice"]
  /\ status (fst refreshed) = OK
  /\ body (fst refreshed)
     = Some (JObject [("accessToken", JString access); ("refreshToken", JString renewed)])
  /\ refreshTokens (snd refreshed)
     = [mkRefreshToken "row-1" (Mock.digest renewed 10 "nt2") "jti-r2" 10 "u-alice"]
  /\ cookies (fst refreshed) = setRefreshCookie [] presented
  /\ cookies (fst refreshed) <> setRefreshCookie [] renewed.
Proof.
  cbv zeta. repeat split; try (vm_compute; reflexivity).
  vm_compute. discriminate.
Qed.

Section Rotation.

Context {J : JwtLib} {B : BcryptLib}.

Lemma find_map_keeping {A : Type} (p : A -> bool) (f : A -> A) (l : list A) :
  (forall a, p (f a) = p a) ->
  find p (map f l) = option_map f (find p l).
Proof.
  intros Hkeep. induction l as [|a l IH]; simpl.
  - reflexivity.
  - rewrite Hkeep. destruct (p a); [reflexivity|exact IH].
Qed.

Lemma find_rotated (userId hash jti : string) (db : DB) (stored : RefreshToken) :
  find (owned_by userId) (refreshTokens db) = Some stored ->
  find (owned_by userId) (refreshTokens (rotated userId hash jti db))
  = Some (write_token hash jti stored).
Proof.
  intros Hfind. unfold rotated. simpl.
  rewrite find_map_keeping.
  - rewrite Hfind. simpl.
    apply find_some in Hfind. destruct Hfind as [_ Howned]. now rewrite Howned.
  - intros r. now destruct (owned_by userId r) eqn:E.
Qed.

(** A token that verifies now with one jti is not the token minted now with
    another. *)
Lemma minted_refresh_differs `{!JwtLawful J} (env : Env) (now : Z) (rnd : Rand)
    (token : string) (decoded : JwtPayload) :
  jwt_verify token (secret_value (REFRESH_TOKEN_SECRET env)) now = Some decoded ->
  rnd_refreshJti rnd <> jti decoded ->
  token <> minted_refresh env now rnd decoded.
Proof.
  intros Hverify Hfresh Heq. subst token.
  unfold minted_refresh, generateRefreshToken in Hverify.
  rewrite verify_sign in Hverify by lia.
  inversion Hverify as [Hp]. apply Hfresh. now rewrite <- Hp.
Qed.

(** Every accepted refresh sets the cookie to the token it was presented
    with, which is not the token it minted. *)
Lemma refresh_cookie_is_presented_token `{!JwtLawful J}
    (env : Env) (now : Z) (rnd : Rand) (req : Request) (db : DB) :
  let token := string_of (prop (req_cookies req) "refreshToken") in
  status (fst (refresh env now rnd req db)) = OK ->
  (forall decoded,
     jwt_verify token (secret_value (REFRESH_TOKEN_SECRET env)) now = Some decoded ->
     rnd_refreshJti rnd <> jti decoded) ->
  exists decoded,
    cookies (fst (refresh env now rnd req db)) = setRefreshCookie [] token
    /\ body (fst (refresh env now rnd req db))
       = Some (JObject [("accessToken", JString (minted_access env now rnd decoded));
                        ("refreshToken", JString (minted_refresh env now rnd decoded))])
    /\ token <> minted_refresh env now rnd decoded.
Proof.
  cbv zeta. intros Hok Hfresh.
  destruct (refresh_success_inv env now rnd req db Hok) as (decoded & stored & user & Hacc).
  rewrite (refresh_accepts_run env now rnd req db decoded stored user Hacc).
  destruct Hacc as (_ & _ & _ & Hverify & _).
  exists decoded. repeat split.
  apply minted_refresh_differs; auto.
Qed.

(** The refusal of a rotated-out token rests on the jti check alone: it holds
    for any hasher, whatever [compare] answers. *)
Lemma refresh_rotation_by_jti `{!JwtLawful J}
    (env : Env) (now : Z) (rnd : Rand) (req : Request) (db : DB) (now' : Z) (rnd' : Rand) :
  let token := string_of (prop (req_cookies req) "refreshToken") in
  let secretRefreshKey := secret_value (REFRESH_TOKEN_SECRET env) in
  status (fst (refresh env now rnd req db)) = OK ->
  (forall decoded,
     jwt_verify token secretRefreshKey now = Some decoded ->
     rnd_refreshJti rnd <> jti decoded) ->
  jwt_verify token secretRefreshKey now' <> None ->
  refresh env now' rnd' req (snd (refresh env now rnd req db))
  = (send_json [] FORBIDDEN (message "The refresh token is not valid"),
     snd (refresh env now rnd req db)).
Proof.
  cbv zeta. intros Hok Hfresh Hlive.
  destruct (refresh_success_inv env now rnd req db Hok) as (decoded & stored & user & Hacc).
  rewrite (refresh_accepts_run env now rnd req db decoded stored user Hacc). simpl snd.
  destruct Hacc as (Hcookie & Hrk & Hak & Hverify & Hfind & _).
  specialize (Hfresh decoded Hverify).
  destruct (jwt_verify _ _ now') as [decoded'|] eqn:Hverify'; [|congruence].
  assert (decoded' = decoded) by (eapply verify_payload_stable; eassumption). subst decoded'.
  eapply (refresh_stale _ _ _ _ _ decoded); eauto.
  - exact (find_rotated _ _ _ _ _ Hfind).
  - right. simpl. congruence.
Qed.

(** C2, as the code has it. A refresh token that one call of [refresh]
    accepted is never accepted again: the next call that presents it is
    answered 403 for as long as the token verifies and 500 once it does not
    (it has expired), and changes nothing. The refusal rests on the jti: the
    record now holds the hash of the newly minted token and the newly drawn
    jti, which is not the old token's, whatever [compare] answers for the
    old token against the new hash. The random jti is taken to be a fresh
    one. *)
Theorem refresh_rotation_invariant `{!JwtLawful J}
    (env : Env) (now : Z) (rnd : Rand) (req : Request) (db : DB) (now' : Z) (rnd' : Rand) :
  let token := string_of (prop (req_cookies req) "refreshToken") in
  let secretRefreshKey := secret_value (REFRESH_TOKEN_SECRET env) in
  let after := snd (refresh env now rnd req db) in
  status (fst (refresh env now rnd req db)) = OK ->
  (forall decoded,
     jwt_verify token secretRefreshKey now = Some decoded ->
     rnd_refreshJti rnd <> jti decoded) ->
  (jwt_verify token secretRefreshKey now' <> None ->
   refresh env now' rnd' req after
   = (send_json [] FORBIDDEN (message "The refresh token is not valid"), after))
  /\ (jwt_verify token secretRefreshKey now' = None ->
      refresh env now' rnd' req after = (send_empty [] INTERNAL_SERVER_ERROR, after))
  /\ exists decoded stored,
       jwt_verify token secretRefreshKey now = Some decoded
       /\ find (owned_by (sub decoded)) (refreshTokens after) = Some stored
       /\ rt_hash stored = hash (minted_refresh env now rnd decoded) (rnd_tokenSalt rnd)
       /\ rt_jti stored = rnd_refreshJti rnd
       /\ jti decoded <> rt_jti stored.
Proof.
  cbv zeta. intros Hok Hfresh.
  split; [now apply refresh_rotation_by_jti|].
  destruct (refresh_success_inv env now rnd req db Hok) as (decoded & stored & user & Hacc).
  destruct Hacc as (Hcookie & Hrk & Hak & Hverify & Hfind & Hrest).
  split.
  - intros Hdead.
    exact (proj2 (proj2 (refresh_verify_throws env now' rnd' req _ Hcookie Hdead)) Hrk).
  - rewrite (refresh_accepts_run env now rnd req db decoded stored user
               (conj Hcookie (conj Hrk (conj Hak (conj Hverify (conj Hfind Hrest)))))).
    simpl snd. specialize (Hfresh decoded Hverify).
    exists decoded, (write_token (hash (minted_refresh env now rnd decoded) (rnd_tokenSalt rnd))
                       (rnd_refreshJti rnd) stored).
    repeat split; try assumption.
    + exact (find_rotated _ _ _ _ _ Hfind).
    + simpl. congruence.
Qed.

End Rotation.

(** The rotation on the concrete deployment: alice's login token is accepted
    by [refresh] at time 20 and refused at time 30. *)
Lemma refresh_rotation_invariant_witness :
  @refresh Mock.jwt Mock.bcrypt Scenario.env 30 Scenario.rnd3
    (Scenario.with_cookie Scenario.alice_token)
    (snd (@refresh Mock.jwt Mock.bcrypt Scenario.env 20 Scenario.rnd2
            (Scenario.with_cookie Scenario.alice_token) (snd Scenario.logged_in)))
  = (send_json [] FORBIDDEN (message "The refresh token is not valid"),
     snd (@refresh Mock.jwt Mock.bcrypt Scenario.env 20 Scenario.rnd2
            (Scenario.with_cookie Scenario.alice_token) (snd Scenario.logged_in))).
Proof.
  refine (proj1 (@refresh_rotation_invariant Mock.jwt Mock.bcrypt
                   MockFacts.jwt_lawful
                   Scenario.env 20 Scenario.rnd2 (Scenario.with_cookie Scenario.alice_token)
                   (snd Scenario.logged_in) 30 Scenario.rnd3 _ _) _).
  - vm_compute. reflexivity.
  - intros decoded Hverify. vm_compute in Hverify.
    inversion Hverify. simpl. discriminate.
  - vm_compute. discriminate.
Defined.

(** C2, refuted as stated. Alice's login token, issued at time 10 for seven
    days and rotated out at time 20, is answered 403 one second before its
    expiry and 500, not 403, from its expiry on. And the hash comparison is
    not what refuses a rotated-out token: dave's user id is a UUID, so his
    tokens agree on their first 72 bytes; after his refresh at time 20 the
    token of his login still compares equal to the stored hash of the new
    token, and is refused by the jti check. *)
Lemma refresh_rotated_out_token_is_not_always_403 :
  let expiry := 10 + 7 * 24 * 60 * 60 in
  let again (t : Z) :=
    @refresh Mock.jwt Mock.bcrypt Scenario.env t Scenario.rnd3
      (Scenario.with_cookie Scenario.alice_token) Scenario.rotated_out in
  let daves_rotated :=
    snd (@refresh Mock.jwt Mock.bcrypt Scenario.env 20 Scenario.rnd2
           (Scenario.with_cookie Scenario.dave_token) (snd Scenario.dave_logged_in)) in
  status (fst (@refresh Mock.jwt Mock.bcrypt Scenario.env 20 Scenario.rnd2
                 (Scenario.with_cookie Scenario.alice_token) (snd Scenario.logged_in))) = OK
  /\ status (fst (again (expiry - 1))) = FORBIDDEN
  /\ again expiry = (send_empty [] INTERNAL_SERVER_ERROR, Scenario.rotated_out)
  /\ status (fst (again expiry)) <> FORBIDDEN
  /\ status (fst (@refresh Mock.jwt Mock.bcrypt Scenario.env 20 Scenario.rnd2
                    (Scenario.with_cookie Scenario.dave_token)
                    (snd Scenario.dave_logged_in))) = OK
  /\ (forall stored,
        In stored (refreshTokens daves_rotated) ->
        rt_hash stored
        = Mock.digest
            (Mock.sign (mkJwtPayload (user_id Scenario.dave) "jti-r2") "refresh-secret"
               (7 * 24 * 60 * 60) 20) 10 "nt2"
        /\ @compare Mock.bcrypt Scenario.dave_token (rt_hash stored) = true
        /\ rt_jti stored = "jti-r2")
  /\ @refresh Mock.jwt Mock.bcrypt Scenario.env 30 Scenario.rnd3
       (Scenario.with_cookie Scenario.dave_token) daves_rotated
     = (send_json [] FORBIDDEN (message "The refresh token is not valid"), daves_rotated).
Proof.
  cbv zeta. repeat split; try (vm_compute; reflexivity); try (vm_compute; discriminate).
  all: vm_compute in H; destruct H as [<-|[]]; vm_compute; reflexivity.
Qed.

Section SingleSession.

Context {J : JwtLib} {B : BcryptLib}.

Lemma find_snoc {A : Type} (p : A -> bool) (l : list A) (a : A) :
  find p l = None -> p a = true -> find p (l ++ [a]) = Some a.
Proof.
  intros Hnone Hpa. induction l as [|x l IH]; simpl in *.
  - now rewrite Hpa.
  - destruct (p x); [discriminate|auto].
Qed.

Lemma unowned_not_in (userId : string) (rows : list RefreshToken) :
  find (owned_by userId) rows = None -> ~ In userId (map rt_userId rows).
Proof.
  intros Hnone Hin. apply in_map_iff in Hin. destruct Hin as (r & Hr & Hin).
  pose proof (find_none _ _ Hnone r Hin) as Hfalse.
  unfold owned_by in Hfalse. rewrite Hr, String.eqb_refl in Hfalse. discriminate.
Qed.



Lemma update_keeps (userId hash jti : string) (db : DB)
    (r : Result RefreshToken) (db' : DB) :
  updateHashOfRefreshTokenByUserId userId hash jti db = (r, db') ->
  users db' = users db /\ (unique_userId db -> unique_userId db').
Proof.
  unfold updateHashOfRefreshTokenByUserId, unique_userId.
  destruct (find (owned_by userId) (refreshTokens db)) as [stored|];
    [destruct (token_conflict userId hash jti (refreshTokens db))|];
    intros E; inversion E; subst; clear E; split; auto.
  simpl. rewrite map_map.
  rewrite (map_ext
             (fun x => rt_userId (if owned_by userId x then write_token hash jti x else x))
             rt_userId); [auto|].
  intros a. now destruct (owned_by userId a).
Qed.

Lemma create_keeps (newId : string) (now : Z) (hash userId jti : string) (db : DB)
    (r : Result RefreshToken) (db' : DB) :
  createRefreshToken newId now hash userId jti db = (r, db') ->
  users db' = users db /\ (unique_userId db -> unique_userId db').
Proof.
  unfold createRefreshToken, unique_userId.
  destruct (existsb (fun r => String.eqb (rt_id r) newId || owned_by userId r)
              (refreshTokens db)) eqn:Hexists; simpl;
    [intros E; inversion E; subst; auto|].
  match goal with |- context [if ?c then _ else _] => destruct c end;
    intros E; inversion E; subst; clear E; split; auto.
  simpl. rewrite map_app. simpl. intros Hnodup.
  apply NoDup_app; [assumption|repeat constructor; intros []|].
  intros x Hin [<-|[]]. apply in_map_iff in Hin. destruct Hin as (row & Hrow & Hin).
  assert (Htrue : existsb (fun r => String.eqb (rt_id r) newId || owned_by userId r)
                    (refreshTokens db) = true).
  { apply existsb_exists. exists row. split; [assumption|].
    unfold owned_by. rewrite Hrow, String.eqb_refl. apply orb_true_r. }
  congruence.
Qed.

Lemma delete_keeps (userId : string) (db : DB) (r : Result RefreshToken) (db' : DB) :
  deleteRefreshTokenByUserId userId db = (r, db') ->
  users db' = users db /\ (unique_userId db -> unique_userId db').
Proof.
  unfold deleteRefreshTokenByUserId, unique_userId.
  destruct (find (owned_by userId) (refreshTokens db)) as [stored|];
    intros E; inversion E; subst; clear E; split; auto.
  simpl. generalize (refreshTokens db). intros rows.
  induction rows as [|row rows IH]; simpl; intros Hnodup; [constructor|].
  inversion Hnodup as [|? ? Hnotin Hrest]; subst.
  destruct (owned_by userId row); simpl; [auto|].
  constructor; [|auto].
  intros Hin. apply Hnotin. apply in_map_iff in Hin. destruct Hin as (x & Hx & Hin).
  apply filter_In in Hin. apply in_map_iff. exists x. tauto.
Qed.

Lemma upsert_keeps (newId : string) (now : Z) (userId hash jti : string) (db : DB)
    (r : Result RefreshToken) (db' : DB) :
  upsertHashOfRefreshTokenByUserId newId now userId hash jti db = (r, db') ->
  users db' = users db /\ (unique_userId db -> unique_userId db').
Proof.
  unfold upsertHashOfRefreshTokenByUserId.
  destruct (find (owned_by userId) (refreshTokens db)).
  - apply update_keeps.
  - apply create_keeps.
Qed.

Lemma upsert_ok (newId : string) (now : Z) (userId hash jti : string) (db : DB)
    (row : RefreshToken) (db' : DB) :
  upsertHashOfRefreshTokenByUserId newId now userId hash jti db = (Ok row, db') ->
  find (owned_by userId) (refreshTokens db') = Some row
  /\ rt_hash row = hash /\ rt_jti row = jti.
Proof.
  unfold upsertHashOfRefreshTokenByUserId, updateHashOfRefreshTokenByUserId,
    createRefreshToken.
  destruct (find (owned_by userId) (refreshTokens db)) as [stored|] eqn:Hfind.
  - destruct (token_conflict userId hash jti (refreshTokens db));
      intros E; inversion E; subst; clear E.
    repeat split. now apply (find_rotated userId hash jti db stored).
  - match goal with |- context [if ?c then _ else _] => destruct c end;
      intros E; inversion E; subst; clear E.
    repeat split. simpl. apply find_snoc; [assumption|].
    unfold owned_by. simpl. apply String.eqb_refl.
Qed.

Lemma login_keeps (env : Env) (now : Z) (rnd : Rand) (req : Request) (db : DB) :
  users (snd (login env now rnd req db)) = users db
  /\ (unique_userId db -> unique_userId (snd (login env now rnd req db))).
Proof.
  unfold login, findUserByEmail. run.
  repeat (branch; simpl in *; try discriminate);
    repeat match goal with
           | H : (_, _) = (_, _) |- _ => inversion H; subst; clear H
           end;
    try (split; [reflexivity|auto]);
    match goal with
    | H : upsertHashOfRefreshTokenByUserId _ _ _ _ _ _ = _ |- _ =>
      apply upsert_keeps in H; exact H
    end.
Qed.

Ltac keep_unique :=
  repeat (branch; simpl in *; try discriminate);
  repeat match goal with
         | H : (_, _) = (_, _) |- _ => inversion H; subst; clear H
         end;
  try assumption;
  match goal with
  | H : updateHashOfRefreshTokenByUserId _ _ _ _ = _ |- _ =>
    apply update_keeps in H; destruct H as [_ H]; now apply H
  | H : createRefreshToken _ _ _ _ _ _ = _ |- _ =>
    apply create_keeps in H; destruct H as [_ H]; now apply H
  | H : deleteRefreshTokenByUserId _ _ = _ |- _ =>
    apply delete_keeps in H; destruct H as [_ H]; now apply H
  end.

(** The unique index on [userId] is an invariant of the session protocol:
    each of the four handlers keeps it, whatever the request and whatever the
    outcome. *)
Lemma unique_userId_invariant (env : Env) (now : Z) (rnd : Rand) (req : Request) (db : DB) :
  unique_userId db ->
  unique_userId (snd (register env now rnd req db))
  /\ unique_userId (snd (login env now rnd req db))
  /\ unique_userId (snd (logout env now req db))
  /\ unique_userId (snd (refresh env now rnd req db)).
Proof.
  intros Hunique. repeat split.
  - unfold register, createUser. run. keep_unique.
  - now apply login_keeps.
  - unfold logout, verify, findUserById. run. keep_unique.
  - unfold refresh, verify, findRefreshTokenByUserId, findUserById. run. keep_unique.
Qed.

Lemma login_success_inv (env : Env) (now : Z) (rnd : Rand) (req : Request) (db : DB) :
  status (fst (login env now rnd req db)) = OK ->
  exists email user row,
    prop (req_body req) "email" = JString email
    /\ find (fun u => String.eqb (user_email u) email) (users db) = Some user
    /\ falsy (REFRESH_TOKEN_SECRET env) = false
    /\ falsy (ACCESS_TOKEN_SECRET env) = false
    /\ cookies (fst (login env now rnd req db))
       = setRefreshCookie [] (issued env user (mkLoginCall now rnd req))
    /\ find (owned_by (user_id user)) (refreshTokens (snd (login env now rnd req db)))
       = Some row
    /\ rt_hash row = hash (issued env user (mkLoginCall now rnd req)) (rnd_tokenSalt rnd)
    /\ rt_jti row = rnd_refreshJti rnd.
Proof.
  unfold login, findUserByEmail. run.
  repeat (branch; simpl in *; try discriminate).
  intros _.
  repeat match goal with
         | H : (_, _) = (_, _) |- _ => inversion H; subst; clear H
         | H : Some _ = Some _ |- _ => inversion H; subst; clear H
         end.
  match goal with
  | H : upsertHashOfRefreshTokenByUserId _ _ _ _ _ _ = _ |- _ =>
    apply upsert_ok in H; destruct H as (Hfind & Hhash & Hjti)
  end.
  match goal with
  | H : falsy _ || falsy _ = false |- _ => apply orb_false_elim in H; destruct H
  end.
  do 3 eexists. repeat split; eauto.
Qed.



Lemma nonempty_cookie (token : string) :
  token <> "" -> not_a_nonempty_string (JString token) = false.
Proof.
  intros Hne. destruct token; [congruence|reflexivity].
Qed.




End SingleSession.


Section Logout.

Context {J : JwtLib} {B : BcryptLib}.

Lemma find_after_delete (userId : string) (rows : list RefreshToken) :
  find (owned_by userId) (filter (fun r => negb (owned_by userId r)) rows) = None.
Proof.
  induction rows as [|r rows IH]; simpl; [reflexivity|].
  destruct (owned_by userId r) eqn:Howned; simpl; [exact IH|].
  now rewrite Howned.
Qed.

Lemma logout_missing_cookie (env : Env) (now : Z) (req : Request) (db : DB) :
  not_a_nonempty_string (prop (req_cookies req) "refreshToken") = true ->
  logout env now req db = (Ok (send_empty [] BAD_REQUEST), db).
Proof.
  intros Hcookie. unfold logout. now rewrite Hcookie.
Qed.

Lemma logout_signed (env : Env) (now : Z) (req : Request) (db : DB)
    (decoded : JwtPayload) (stored : RefreshToken) (user : User) :
  not_a_nonempty_string (prop (req_cookies req) "refreshToken") = false ->
  falsy (REFRESH_TOKEN_SECRET env) = false ->
  jwt_verify (string_of (prop (req_cookies req) "refreshToken"))
    (secret_value (REFRESH_TOKEN_SECRET env)) now = Some decoded ->
  find (owned_by (sub decoded)) (refreshTokens db) = Some stored ->
  find (fun u => String.eqb (user_id u) (sub decoded)) (users db) = Some user ->
  logout env now req db
  = (Ok (send_empty [ClearCookie "refreshToken" "/auth/"] NO_CONTENT),
     set_refreshTokens db
       (filter (fun r => negb (owned_by (sub decoded) r)) (refreshTokens db))).
Proof.
  intros Hcookie Hrk Hverify Hfind Huser.
  unfold logout, verify, deleteRefreshTokenByUserId, findUserById.
  rewrite Hcookie, Hrk. run. rewrite Hverify, Hfind. simpl. now rewrite Huser.
Qed.

(** C9, as the code has it. [logout] answers 400 when the cookie is missing
    or empty. Otherwise, with the refresh secret set, all it asks of the
    token is that it passes [jwt.verify], signature and expiry: whatever hash
    and jti the record of the token's subject holds, the record is deleted,
    the cookie cleared and the answer is 204. In particular a token that
    [refresh] has just rotated out still logs its user out. *)
Theorem logout_checks_signature_only `{!JwtLawful J}
    (env : Env) (now : Z) (req : Request) (db : DB) :
  let token := string_of (prop (req_cookies req) "refreshToken") in
  let secretRefreshKey := secret_value (REFRESH_TOKEN_SECRET env) in
  let goodbye := send_empty [ClearCookie "refreshToken" "/auth/"] NO_CONTENT in
  (not_a_nonempty_string (prop (req_cookies req) "refreshToken") = true ->
   logout env now req db = (Ok (send_empty [] BAD_REQUEST), db))
  /\ (forall decoded stored user,
        not_a_nonempty_string (prop (req_cookies req) "refreshToken") = false ->
        falsy (REFRESH_TOKEN_SECRET env) = false ->
        jwt_verify token secretRefreshKey now = Some decoded ->
        find (owned_by (sub decoded)) (refreshTokens db) = Some stored ->
        find (fun u => String.eqb (user_id u) (sub decoded)) (users db) = Some user ->
        fst (logout env now req db) = Ok goodbye
        /\ refreshTokens (snd (logout env now req db))
           = filter (fun r => negb (owned_by (sub decoded) r)) (refreshTokens db)
        /\ find (owned_by (sub decoded)) (refreshTokens (snd (logout env now req db))) = None)
  /\ (forall earlier rnd,
        status (fst (refresh env earlier rnd req db)) = OK ->
        jwt_verify token secretRefreshKey now <> None ->
        exists decoded,
          jwt_verify token secretRefreshKey now = Some decoded
          /\ fst (logout env now req (snd (refresh env earlier rnd req db))) = Ok goodbye
          /\ find (owned_by (sub decoded))
               (refreshTokens (snd (logout env now req (snd (refresh env earlier rnd req db)))))
             = None).
Proof.
  cbv zeta. split; [|split].
  - apply logout_missing_cookie.
  - intros decoded stored user Hcookie Hrk Hverify Hfind Huser.
    rewrite (logout_signed env now req db decoded stored user Hcookie Hrk Hverify Hfind Huser).
    simpl. repeat split. apply find_after_delete.
  - intros earlier rnd Hok Hlive.
    destruct (refresh_success_inv env earlier rnd req db Hok)
      as (decoded & stored & user & Hacc).
    rewrite (refresh_accepts_run env earlier rnd req db decoded stored user Hacc). simpl snd.
    destruct Hacc as (Hcookie & Hrk & _ & Hverify & Hfind & _ & _ & _ & Huser).
    destruct (jwt_verify _ _ now) as [decoded'|] eqn:Hverify'; [|congruence].
    assert (decoded' = decoded) by (eapply verify_payload_stable; eassumption). subst decoded'.
    exists decoded. split; [reflexivity|].
    erewrite logout_signed; eauto.
    + split; [reflexivity|]. exact (find_after_delete _ _).
    + exact (find_rotated _ _ _ _ _ Hfind).
Qed.

End Logout.

(** The logout on the concrete deployment: alice's login token, rotated out
    by her refresh at time 20, still logs her out at time 30. *)
Lemma logout_checks_signature_only_witness :
  fst (@logout Mock.jwt Scenario.env 30 (Scenario.with_cookie Scenario.alice_token)
         Scenario.rotated_out)
  = Ok (send_empty [ClearCookie "refreshToken" "/auth/"] NO_CONTENT).
Proof.
  refine (proj1 (proj1 (proj2 (@logout_checks_signature_only Mock.jwt Mock.bcrypt
                                 MockFacts.jwt_lawful Scenario.env 30
                                 (Scenario.with_cookie Scenario.alice_token)
                                 Scenario.rotated_out))
                   (mkJwtPayload "u-alice" "jti-r1")
                   (mkRefreshToken "row-1"
                      (Mock.digest
                         (Mock.sign (mkJwtPayload "u-alice" "jti-r2") "refresh-secret"
                            (7 * 24 * 60 * 60) 20) 10 "nt2")
                      "jti-r2" 10 "u-alice")
                   Scenario.alice _ _ _ _ _)); vm_compute; reflexivity.
Defined.

(** C9, refuted as stated. [jwt.verify] checks the expiry along with the
    signature. The refresh token that the server signed for alice at time 10
    for seven days logs her out one second before its expiry; from its
    expiry on, with the same signature, it makes [logout] throw: her record
    stays, the cookie is not cleared and no 204 is sent. *)
Lemma logout_expired_token_deletes_nothing :
  let expiry := 10 + 7 * 24 * 60 * 60 in
  let session := snd Scenario.logged_in in
  let bye (t : Z) :=
    @logout Mock.jwt Scenario.env t (Scenario.with_cookie Scenario.alice_token) session in
  Scenario.alice_token
  = @generateRefreshToken Mock.jwt (createJwtPayload "u-alice" "jti-r1")
      (secret_value (REFRESH_TOKEN_SECRET Scenario.env)) 10
  /\ (exists record, find (owned_by "u-alice") (refreshTokens session) = Some record)
  /\ fst (bye (expiry - 1)) = Ok (send_empty [ClearCookie "refreshToken" "/auth/"] NO_CONTENT)
  /\ find (owned_by "u-alice") (refreshTokens (snd (bye (expiry - 1)))) = None
  /\ bye expiry = (Threw, session)
  /\ fst (bye expiry) <> Ok (send_empty [ClearCookie "refreshToken" "/auth/"] NO_CONTENT).
Proof.
  cbv zeta. repeat split; try (vm_compute; reflexivity).
  - eexists. vm_compute. reflexivity.
  - vm_compute. discriminate.
Qed.

Section Middleware.

Context {J : JwtLib}.

Lemma split_space_bearer (token : string) :
  split_space ("Bearer " ++ token) = "Bearer" :: split_space token.
Proof.
  simpl. reflexivity.
Qed.

(** C7, as the code has it. [authenticateToken] answers 401 when the
    Authorization header is missing or empty, and 401 when its first word is
    not [Bearer] or no second word follows. When the header is well formed
    and the access secret is set, a token that does not verify (bad signature
    or expired) makes the middleware throw: it sends no response, 401 or
    other, and does not call [next]. *)
Theorem authenticateToken_outcomes (env : Env) (now : Z) (req : Request) :
  (falsy (req_authorization req) = true ->
   authenticateToken env now req
   = Ok (Replied (send_json [] UNAUTHORIZED (message "Missing Authorization header"))))
  /\ (forall header,
        req_authorization req = Some header ->
        header <> "" ->
        nth_error (split_space header) 0 <> Some "Bearer"
        \/ falsy (nth_error (split_space header) 1) = true ->
        authenticateToken env now req
        = Ok (Replied (send_json [] UNAUTHORIZED
                         (message "Invalid Authorization header format"))))
  /\ (forall token,
        req_authorization req = Some ("Bearer " ++ token) ->
        falsy (nth_error (split_space token) 0) = false ->
        falsy (ACCESS_TOKEN_SECRET env) = false ->
        jwt_verify (secret_value (nth_error (split_space token) 0))
          (secret_value (ACCESS_TOKEN_SECRET env)) now = None ->
        authenticateToken env now req = Threw).
Proof.
  unfold authenticateToken. split; [|split].
  - intros Hmissing. now rewrite Hmissing.
  - intros header Hheader Hne Hbad. rewrite Hheader.
    assert (Hfalsy : falsy (Some header) = false).
    { simpl. now apply String.eqb_neq. }
    rewrite Hfalsy. cbv zeta. simpl secret_value.
    destruct Hbad as [Hscheme|Htoken].
    + destruct (nth_error (split_space header) 0) as [scheme|] eqn:E.
      * destruct (String.eqb scheme "Bearer") eqn:Hs; [|reflexivity].
        apply String.eqb_eq in Hs. congruence.
      * reflexivity.
    + rewrite Htoken. now rewrite orb_true_r.
  - intros token Hheader Htoken Hak Hverify. rewrite Hheader.
    change (falsy (Some ("Bearer " ++ token))) with false.
    cbv beta iota zeta.
    change (secret_value (Some ("Bearer " ++ token))) with ("Bearer " ++ token).
    rewrite split_space_bearer.
    change (nth_error ("Bearer" :: split_space token) 0) with (Some "Bearer").
    change (nth_error ("Bearer" :: split_space token) 1)
      with (nth_error (split_space token) 0).
    rewrite Htoken, Hak, Hverify. reflexivity.
Qed.

End Middleware.

(** C7, refuted as stated. A Bearer token signed with another secret, and one
    of ours that has expired, make [authenticateToken] throw; no 401 is
    sent. *)
Lemma authenticateToken_unverifiable_token_throws :
  Mock.verify Scenario.forged "access-secret" 10 = None
  /\ @authenticateToken Mock.jwt Scenario.env 10
       (Scenario.with_header ("Bearer " ++ Scenario.forged)) = Threw
  /\ Mock.verify (Scenario.short_lived "access-secret") "access-secret" 10
     = Some (mkJwtPayload "u-alice" "jti-x")
  /\ Mock.verify (Scenario.short_lived "access-secret") "access-secret" 61 = None
  /\ @authenticateToken Mock.jwt Scenario.env 61
       (Scenario.with_header ("Bearer " ++ Scenario.short_lived "access-secret")) = Threw
  /\ forall res : Response, @Threw Middleware <> Ok (Replied res).
Proof.
  repeat split; try (vm_compute; reflexivity). discriminate.
Qed.

(** The middleware on the concrete deployment: a request without the header,
    and a forged Bearer token. *)
Lemma authenticateToken_outcomes_witness :
  @authenticateToken Mock.jwt Scenario.env 10 (Scenario.post JUndefined)
  = Ok (Replied (send_json [] UNAUTHORIZED (message "Missing Authorization header")))
  /\ @authenticateToken Mock.jwt Scenario.env 10
       (Scenario.with_header ("Bearer " ++ Scenario.forged)) = Threw.
Proof.
  split.
  - refine (proj1 (@authenticateToken_outcomes Mock.jwt Scenario.env 10
                     (Scenario.post JUndefined)) _).
    reflexivity.
  - refine (proj2 (proj2 (@authenticateToken_outcomes Mock.jwt Scenario.env 10
                            (Scenario.with_header ("Bearer " ++ Scenario.forged))))
              Scenario.forged _ _ _ _); vm_compute; reflexivity.
Defined.

(** ** Job applications *)

(** The read path is scoped: it returns the rows of the given user only. *)
Lemma findApplicationsByUserId_scoped {P : PrismaLib} (userId : string) (db : DB)
    (rows : list JobApplication) :
  fst (findApplicationsByUserId userId db) = Ok rows ->
  Forall (fun a => app_userId a = userId) rows.
Proof.
  unfold findApplicationsByUserId. simpl. intros E. inversion E; subst.
  apply Forall_forall. intros a Hin. apply filter_In in Hin.
  destruct Hin as [_ Howner]. now apply String.eqb_eq.
Qed.

(** The delete and update paths select the row by its id alone: the
    requesting user is read only to be logged. *)
Lemma deleteApplication_by_id_alone (req : Request) (db : DB) (user : User) (a : JobApplication) :
  find (has_id (req_params_id req)) (jobApplications db) = Some a ->
  find (fun u => String.eqb (user_id u) (req_userId req)) (users db) = Some user ->
  deleteApplication req db
  = (Ok (send_empty [] NO_CONTENT),
     set_jobApplications db
       (filter (fun a => negb (has_id (req_params_id req) a)) (jobApplications db))).
Proof.
  intros Hfind Huser. unfold deleteApplication, deleteApplicationById, findUserById. run.
  rewrite Hfind. simpl. now rewrite Huser.
Qed.

(** C6, at a concrete request. Bob, authenticated, sends DELETE and PATCH for
    [app-1], an application that belongs to alice. Both are answered 204;
    the delete removes alice's record, the update rewrites it. *)
Theorem other_users_application_is_not_protected :
  let deleted := deleteApplication (Scenario.bob_on_alices JUndefined) Scenario.db0 in
  let updated :=
    @updateApplication Mock.prisma 99
      (Scenario.bob_on_alices
         (JObject [("companyName", JString "Globex"); ("status", JString "REJECTED")]))
      Scenario.db0 in
  req_userId (Scenario.bob_on_alices JUndefined) = "u-bob"
  /\ find (has_id "app-1") (jobApplications Scenario.db0) = Some Scenario.alices_application
  /\ app_userId Scenario.alices_application = "u-alice"
  /\ fst deleted = Ok (send_empty [] NO_CONTENT)
  /\ jobApplications (snd deleted) = [Scenario.bobs_application]
  /\ fst updated = Ok (send_empty [] NO_CONTENT)
  /\ jobApplications (snd updated)
     = [mkJobApplication "app-1" "Globex" "Engineer" 50000 REJECTED REMOTE 0 99 "u-alice";
        Scenario.bobs_application].
Proof.
  cbv zeta. repeat split; vm_compute; reflexivity.
Qed.

(** ** Token signer *)

Section Signer.

Context {J : JwtLib}.

(** C8. With [jsonwebtoken] meeting its contract, a token issued by
    [generateAccessToken] or [generateRefreshToken] for the payload of
    [createJwtPayload] verifies, under the secret it was issued with and
    before its expiry (15 minutes, 7 days), to the subject and jti it was
    issued for; under any other secret its verification fails. *)
Theorem jwt_round_trip `{!JwtLawful J} (subject id secret : string) (now t : Z) :
  (t < now + 15 * 60 ->
   exists decoded,
     jwt_verify (generateAccessToken (createJwtPayload subject id) secret now) secret t
     = Some decoded
     /\ sub decoded = subject /\ jti decoded = id)
  /\ (t < now + 7 * 24 * 60 * 60 ->
      exists decoded,
        jwt_verify (generateRefreshToken (createJwtPayload subject id) secret now) secret t
        = Some decoded
        /\ sub decoded = subject /\ jti decoded = id)
  /\ (forall other,
        other <> secret ->
        jwt_verify (generateAccessToken (createJwtPayload subject id) secret now) other t
        = None
        /\ jwt_verify (generateRefreshToken (createJwtPayload subject id) secret now) other t
           = None).
Proof.
  unfold generateAccessToken, generateRefreshToken. split; [|split].
  - intros Hlive. eexists. split; [now apply verify_sign|]. split; reflexivity.
  - intros Hlive. eexists. split; [now apply verify_sign|]. split; reflexivity.
  - intros other Hother. split; apply verify_other_secret; congruence.
Qed.

End Signer.

(** The round trip on the reference signer: an access token for alice issued
    at time 0 read back at time 10. *)
Lemma jwt_round_trip_witness :
  exists decoded,
    Mock.verify
      (@generateAccessToken Mock.jwt (@createJwtPayload "u-alice" "jti-a1") "access-secret" 0)
      "access-secret" 10 = Some decoded
    /\ sub decoded = "u-alice" /\ jti decoded = "jti-a1".
Proof.
  refine (proj1 (@jwt_round_trip Mock.jwt MockFacts.jwt_lawful
                   "u-alice" "jti-a1" "access-secret" 0 10) _).
  reflexivity.
Defined.

(** * Further properties of the session protocol *)

Section Registration.

Context {J : JwtLib} {B : BcryptLib}.

(** What a registration that answers 201 has read and checked. *)
Lemma register_created_inv (env : Env) (now : Z) (rnd : Rand) (req : Request) (db : DB) :
  status (fst (register env now rnd req db)) = CREATED ->
  exists username email password,
    prop (req_body req) "username" = JString username
    /\ prop (req_body req) "email" = JString email
    /\ prop (req_body req) "password" = JString password
    /\ existsb (fun u => String.eqb (user_id u) (rnd_userId rnd)
                         || String.eqb (user_email u) email) (users db) = false
    /\ existsb (fun r => String.eqb (rt_id r) (rnd_rowId rnd) || owned_by (rnd_userId rnd) r)
         (refreshTokens db) = false
    /\ falsy (REFRESH_TOKEN_SECRET env) = false
    /\ falsy (ACCESS_TOKEN_SECRET env) = false
    /\ register env now rnd req db
       = (send_json
            (setRefreshCookie []
               (generateRefreshToken (createJwtPayload (rnd_userId rnd) (rnd_refreshJti rnd))
                  (secret_value (REFRESH_TOKEN_SECRET env)) now))
            CREATED
            (JObject [("accessToken",
                       JString (generateAccessToken
                                  (createJwtPayload (rnd_userId rnd) (rnd_accessJti rnd))
                                  (secret_value (ACCESS_TOKEN_SECRET env)) now))]),
          mkDB
            (users db
             ++ [mkUser (rnd_userId rnd) email username None
                   (hash password (rnd_passwordSalt rnd)) now now])
            (refreshTokens db
             ++ [mkRefreshToken (rnd_rowId rnd)
                   (hash (generateRefreshToken
                            (createJwtPayload (rnd_userId rnd) (rnd_refreshJti rnd))
                            (secret_value (REFRESH_TOKEN_SECRET env)) now)
                      (rnd_tokenSalt rnd))
                   (rnd_refreshJti rnd) now (rnd_userId rnd)])
            (jobApplications db)).
Proof.
  unfold register, createUser, createRefreshToken. run.
  repeat (branch; simpl in *; try discriminate);
    try match goal with
        | H : _ || true = false |- _ => rewrite orb_true_r in H; discriminate H
        end.
  intros _.
  repeat match goal with
         | H : (_, _) = (_, _) |- _ => inversion H; subst; clear H
         | H : _ || _ = false |- _ => apply orb_false_elim in H; destruct H
         end.
  do 3 eexists. repeat split; eauto.
Qed.

(** X1. A registration that answers 201 has appended exactly one user row,
    with the submitted name and email, no first name and the hash of the
    submitted password, and exactly one refresh-token record for that user,
    holding the hash of the refresh token it minted and the jti it drew; the
    cookie carries that refresh token and the body the access token. The
    rows that were there before are all kept, and the email was free. *)
Theorem register_success (env : Env) (now : Z) (rnd : Rand) (req : Request) (db : DB) :
  status (fst (register env now rnd req db)) = CREATED ->
  let issuedRefresh :=
    generateRefreshToken (createJwtPayload (rnd_userId rnd) (rnd_refreshJti rnd))
      (secret_value (REFRESH_TOKEN_SECRET env)) now in
  let issuedAccess :=
    generateAccessToken (createJwtPayload (rnd_userId rnd) (rnd_accessJti rnd))
      (secret_value (ACCESS_TOKEN_SECRET env)) now in
  exists username email password,
    req_body req <> JNull
    /\ prop (req_body req) "username" = JString username
    /\ prop (req_body req) "email" = JString email
    /\ prop (req_body req) "password" = JString password
    /\ find (fun u => String.eqb (user_email u) email) (users db) = None
    /\ users (snd (register env now rnd req db))
       = (users db ++ [mkUser (rnd_userId rnd) email username None
                         (hash password (rnd_passwordSalt rnd)) now now])%list
    /\ refreshTokens (snd (register env now rnd req db))
       = (refreshTokens db
          ++ [mkRefreshToken (rnd_rowId rnd) (hash issuedRefresh (rnd_tokenSalt rnd))
                (rnd_refreshJti rnd) now (rnd_userId rnd)])%list
    /\ jobApplications (snd (register env now rnd req db)) = jobApplications db
    /\ cookies (fst (register env now rnd req db)) = setRefreshCookie [] issuedRefresh
    /\ body (fst (register env now rnd req db))
       = Some (JObject [("accessToken", JString issuedAccess)]).
Proof.
  intros Hcreated. cbv zeta.
  destruct (register_created_inv env now rnd req db Hcreated)
    as (username & email & password & Hu & He & Hp & Hfree & _ & _ & _ & Hrun).
  exists username, email, password. rewrite Hrun. simpl.
  repeat split; try assumption.
  - intros Hnull. rewrite Hnull in Hu. discriminate.
  - destruct (find (fun u => String.eqb (user_email u) email) (users db)) as [u|] eqn:Hfind;
      [|reflexivity].
    apply find_some in Hfind. destruct Hfind as [Hin Hmail].
    assert (Htrue : existsb (fun u => String.eqb (user_id u) (rnd_userId rnd)
                                      || String.eqb (user_email u) email) (users db) = true).
    { apply existsb_exists. exists u. split; [assumption|]. rewrite Hmail. apply orb_true_r. }
    congruence.
Qed.

End Registration.

(** A registration on the concrete deployment: carol signs up at time 5. *)
Lemma register_success_witness :
  exists username, prop (req_body Cases.carol_signup) "username" = JString username.
Proof.
  destruct (@register_success Mock.jwt Mock.bcrypt Scenario.env 5 Scenario.rnd3
              Cases.carol_signup Scenario.db0) as (u & e & p & _ & Hu & _).
  - vm_compute. reflexivity.
  - exists u. exact Hu.
Defined.

Section RegistrationFailure.

Context {J : JwtLib} {B : BcryptLib}.

(** X2. Registration is not atomic. With a secret missing, a well-formed
    registration for a free email still inserts the user row, without any
    refresh-token record, and answers 500 "Server misconfigured"; the same
    registration sent again then fails on the unique email, with 500 and an
    empty body, and changes nothing. Whatever goes wrong, a registration that
    does not answer 201 adds no refresh-token record and at most one user
    row. *)
Theorem register_not_rolled_back (env : Env) (now : Z) (rnd : Rand) (req : Request) (db : DB) :
  (status (fst (register env now rnd req db)) <> CREATED ->
   refreshTokens (snd (register env now rnd req db)) = refreshTokens db
   /\ jobApplications (snd (register env now rnd req db)) = jobApplications db
   /\ (users (snd (register env now rnd req db)) = users db
       \/ exists orphan,
            users (snd (register env now rnd req db)) = (users db ++ [orphan])%list))
  /\ (forall username email password,
        prop (req_body req) "username" = JString username ->
        prop (req_body req) "email" = JString email ->
        prop (req_body req) "password" = JString password ->
        existsb (fun u => String.eqb (user_id u) (rnd_userId rnd)
                          || String.eqb (user_email u) email) (users db) = false ->
        falsy (ACCESS_TOKEN_SECRET env) || falsy (REFRESH_TOKEN_SECRET env) = true ->
        register env now rnd req db
        = (send_json [] INTERNAL_SERVER_ERROR (message "Server misconfigured"),
           set_users db
             (users db ++ [mkUser (rnd_userId rnd) email username None
                             (hash password (rnd_passwordSalt rnd)) now now]))
        /\ forall now' rnd',
             register env now' rnd' req (snd (register env now rnd req db))
             = (send_empty [] INTERNAL_SERVER_ERROR, snd (register env now rnd req db))).
Proof.
  split.
  - unfold register, createUser, createRefreshToken. run.
    repeat (branch; simpl in *; try discriminate);
      repeat match goal with
             | H : (_, _) = (_, _) |- _ => inversion H; subst; clear H
             end;
      simpl; intros Hstatus; try (exfalso; apply Hstatus; reflexivity);
      repeat split; solve [ now left | right; now eexists ].
  - intros username email password Hu He Hp Hfree Hmissing.
    assert (Hobj : isObject (req_body req) = true).
    { unfold prop in Hu. now destruct (req_body req). }
    assert (Hfirst : register env now rnd req db
                     = (send_json [] INTERNAL_SERVER_ERROR (message "Server misconfigured"),
                        set_users db
                          (users db ++ [mkUser (rnd_userId rnd) email username None
                                          (hash password (rnd_passwordSalt rnd)) now now]))).
    { unfold register, createUser. rewrite Hobj, Hu, He, Hp. run.
      rewrite Hfree. simpl. now rewrite Hmissing. }
    split; [exact Hfirst|].
    intros now' rnd'. rewrite Hfirst. simpl snd.
    unfold register, createUser. rewrite Hobj, Hu, He, Hp. run.
    simpl users. rewrite existsb_app. simpl.
    rewrite String.eqb_refl. now rewrite !orb_true_r.
Qed.

End RegistrationFailure.

(** The registration without rollback on the concrete deployment: carol
    signs up while the access secret is missing. *)
Lemma register_not_rolled_back_witness :
  status (fst (@register Mock.jwt Mock.bcrypt Cases.env_without_access 5 Scenario.rnd3
                 Cases.carol_signup Scenario.db0)) = INTERNAL_SERVER_ERROR
  /\ length (users (snd (@register Mock.jwt Mock.bcrypt Cases.env_without_access 5
                           Scenario.rnd3 Cases.carol_signup Scenario.db0))) = 3%nat.
Proof.
  destruct (proj2 (@register_not_rolled_back Mock.jwt Mock.bcrypt Cases.env_without_access 5
                     Scenario.rnd3 Cases.carol_signup Scenario.db0)
              "carol" "carol@example.com" "s3cret") as [Hrun _];
    try reflexivity.
  rewrite Hrun. split; reflexivity.
Defined.

Section Lifecycle.

Context {J : JwtLib} {B : BcryptLib}.

Lemma find_none_of_existsb {A : Type} (p q : A -> bool) (l : list A) :
  existsb p l = false ->
  (forall a, q a = true -> p a = true) ->
  find q l = None.
Proof.
  intros Hnone Himp. induction l as [|a l IH]; simpl in *; [reflexivity|].
  apply orb_false_elim in Hnone. destruct Hnone as [Hpa Hrest].
  destruct (q a) eqn:Hqa.
  - apply Himp in Hqa. congruence.
  - auto.
Qed.

(** X3. The refresh token handed out by a successful registration is accepted
    by [refresh] until it expires: the call answers 200, provided the hash
    and jti it draws collide with no other record. *)
Theorem register_then_refresh `{!JwtLawful J} `{!BcryptLawful B}
    (env : Env) (now : Z) (rnd : Rand) (req : Request) (db : DB)
    (now' : Z) (rnd' : Rand) (req' : Request) :
  let registered := snd (register env now rnd req db) in
  let subject := createJwtPayload (rnd_userId rnd) (rnd_refreshJti rnd) in
  let issuedRefresh :=
    generateRefreshToken subject (secret_value (REFRESH_TOKEN_SECRET env)) now in
  status (fst (register env now rnd req db)) = CREATED ->
  prop (req_cookies req') "refreshToken" = JString issuedRefresh ->
  now' < now + 7 * 24 * 60 * 60 ->
  token_conflict (rnd_userId rnd)
    (hash (minted_refresh env now' rnd' subject) (rnd_tokenSalt rnd'))
    (rnd_refreshJti rnd') (refreshTokens registered) = false ->
  status (fst (refresh env now' rnd' req' registered)) = OK
  /\ body (fst (refresh env now' rnd' req' registered))
     = Some (JObject [("accessToken", JString (minted_access env now' rnd' subject));
                      ("refreshToken", JString (minted_refresh env now' rnd' subject))]).
Proof.
  cbv zeta. intros Hcreated Hcookie Hlive Hfree.
  destruct (register_created_inv env now rnd req db Hcreated)
    as (username & email & password & _ & _ & _ & Husers & Hrows & Hrk & Hak & Hrun).
  rewrite Hrun in Hfree |- *. simpl snd in Hfree |- *.
  erewrite refresh_accepts_run; [split; reflexivity|].
  unfold refresh_accepts. rewrite Hcookie. simpl string_of.
  split; [apply nonempty_cookie, sign_nonempty|].
  split; [assumption|]. split; [assumption|].
  split; [unfold generateRefreshToken; now apply verify_sign|].
  split.
  { simpl. apply find_snoc; [|unfold owned_by; simpl; apply String.eqb_refl].
    apply (find_none_of_existsb _ _ _ Hrows). intros a Ha. rewrite Ha. apply orb_true_r. }
  split.
  { simpl. unfold compare, hash. apply compare_hash. }
  split; [reflexivity|].
  split; [exact Hfree|].
  simpl. apply find_snoc; [|simpl; apply String.eqb_refl].
  apply (find_none_of_existsb _ _ _ Husers). intros a Ha. now rewrite Ha.
Qed.

(** What a logout that answers 204 has checked and done. *)
Lemma logout_done_inv (env : Env) (now : Z) (req : Request) (db : DB) (res : Response) :
  fst (logout env now req db) = Ok res ->
  status res = NO_CONTENT ->
  exists decoded,
    not_a_nonempty_string (prop (req_cookies req) "refreshToken") = false
    /\ falsy (REFRESH_TOKEN_SECRET env) = false
    /\ jwt_verify (string_of (prop (req_cookies req) "refreshToken"))
         (secret_value (REFRESH_TOKEN_SECRET env)) now = Some decoded
    /\ snd (logout env now req db)
       = set_refreshTokens db
           (filter (fun r => negb (owned_by (sub decoded) r)) (refreshTokens db)).
Proof.
  unfold logout, verify, deleteRefreshTokenByUserId, findUserById. run.
  repeat (branch; simpl in *; try discriminate);
    intros E; inversion E; subst; clear E; simpl; try discriminate.
  intros _.
  repeat match goal with
         | H : (_, _) = (_, _) |- _ => inversion H; subst; clear H
         end.
  eexists. repeat split; eauto.
Qed.

(** X4. A logout that answers 204 ends the session for good. Afterwards
    [refresh] with the same cookie never answers 200 and changes nothing: it
    answers 403 "The user has no refresh token stored in the database" while
    the token still verifies (and the access secret is set). A second logout
    with the same cookie does not answer 204 either: the delete finds no
    record, and the call ends in 500 or, once the token has expired, in the
    exception of [jwt.verify]. *)
Theorem logout_ends_session `{!JwtLawful J}
    (env : Env) (now : Z) (req : Request) (db : DB) (res : Response) :
  let token := string_of (prop (req_cookies req) "refreshToken") in
  let secretRefreshKey := secret_value (REFRESH_TOKEN_SECRET env) in
  let after := snd (logout env now req db) in
  fst (logout env now req db) = Ok res ->
  status res = NO_CONTENT ->
  (forall now' rnd',
     status (fst (refresh env now' rnd' req after)) <> OK
     /\ snd (refresh env now' rnd' req after) = after
     /\ (falsy (ACCESS_TOKEN_SECRET env) = false ->
         jwt_verify token secretRefreshKey now' <> None ->
         fst (refresh env now' rnd' req after)
         = send_json [] FORBIDDEN
             (message "The user has no refresh token stored in the database")))
  /\ (forall now',
        snd (logout env now' req after) = after
        /\ (fst (logout env now' req after) = Threw
            \/ fst (logout env now' req after) = Ok (send_empty [] INTERNAL_SERVER_ERROR))
        /\ (jwt_verify token secretRefreshKey now' <> None ->
            fst (logout env now' req after) = Ok (send_empty [] INTERNAL_SERVER_ERROR))).
Proof.
  cbv zeta. intros Hres Hstatus.
  destruct (logout_done_inv env now req db res Hres Hstatus)
    as (decoded & Hcookie & Hrk & Hverify & Hafter).
  rewrite Hafter.
  set (after := set_refreshTokens db _).
  assert (Hgone : forall t d,
             jwt_verify (string_of (prop (req_cookies req) "refreshToken"))
               (secret_value (REFRESH_TOKEN_SECRET env)) t = Some d ->
             find (owned_by (sub d)) (refreshTokens after) = None).
  { intros t d Hd.
    assert (d = decoded) by (eapply verify_payload_stable; eassumption). subst d.
    exact (find_after_delete _ _). }
  split.
  - intros now' rnd'.
    destruct (jwt_verify (string_of (prop (req_cookies req) "refreshToken"))
                (secret_value (REFRESH_TOKEN_SECRET env)) now') as [d|] eqn:Hd.
    + destruct (falsy (ACCESS_TOKEN_SECRET env)) eqn:Hak.
      * unfold refresh, verify. run. rewrite Hcookie, Hrk, Hd, Hak. simpl.
        repeat split; [discriminate|discriminate].
      * rewrite (refresh_no_session env now' rnd' req after d Hcookie Hrk Hak Hd
                   (Hgone now' d Hd)).
        simpl. repeat split. discriminate.
    + destruct (refresh_verify_throws env now' rnd' req after Hcookie Hd) as (Hs & Hdb & _).
      rewrite Hs, Hdb. repeat split; [discriminate|congruence].
  - intros now'. unfold logout, verify, deleteRefreshTokenByUserId. run.
    rewrite Hcookie, Hrk.
    destruct (jwt_verify (string_of (prop (req_cookies req) "refreshToken"))
                (secret_value (REFRESH_TOKEN_SECRET env)) now') as [d|] eqn:Hd.
    + rewrite (Hgone now' d Hd). simpl. repeat split; auto.
    + simpl. repeat split; auto. congruence.
Qed.

End Lifecycle.

(** Carol's registration token on the concrete deployment is accepted by
    [refresh] at time 50. *)
Lemma register_then_refresh_witness :
  status (fst (@refresh Mock.jwt Mock.bcrypt Scenario.env 50 Scenario.rnd2
                 (Scenario.with_cookie Cases.carol_token) (snd Cases.carol_registered))) = OK.
Proof.
  refine (proj1 (@register_then_refresh Mock.jwt Mock.bcrypt
                   MockFacts.jwt_lawful MockFacts.bcrypt_lawful
                   Scenario.env 5 Scenario.rnd3 Cases.carol_signup Scenario.db0
                   50 Scenario.rnd2 (Scenario.with_cookie Cases.carol_token) _ _ _ _));
    vm_compute; reflexivity.
Defined.

(** Alice's logout at time 30 on the concrete deployment, and her refresh
    attempt at time 40. *)
Lemma logout_ends_session_witness :
  fst (@refresh Mock.jwt Mock.bcrypt Scenario.env 40 Scenario.rnd3
         (Scenario.with_cookie Scenario.alice_token)
         (snd (@logout Mock.jwt Scenario.env 30 (Scenario.with_cookie Scenario.alice_token)
                 (snd Scenario.logged_in))))
  = send_json [] FORBIDDEN (message "The user has no refresh token stored in the database").
Proof.
  refine (proj2 (proj2 (proj1 (@logout_ends_session Mock.jwt Mock.bcrypt MockFacts.jwt_lawful
                                 Scenario.env 30 (Scenario.with_cookie Scenario.alice_token)
                                 (snd Scenario.logged_in)
                                 (send_empty [ClearCookie "refreshToken" "/auth/"] NO_CONTENT)
                                 _ _) 40 Scenario.rnd3)) _ _).
  - vm_compute. reflexivity.
  - reflexivity.
  - reflexivity.
  - vm_compute. discriminate.
Defined.

(** * Failure of the session calls *)

Section Atomicity.

Context {J : JwtLib} {B : BcryptLib}.

Lemma session_user (db : DB) (userId : string) (r : RefreshToken) :
  sessions_have_users db ->
  find (owned_by userId) (refreshTokens db) = Some r ->
  find (fun u => String.eqb (user_id u) userId) (users db) <> None.
Proof.
  intros Hfk Hfind Hnone. apply find_some in Hfind. destruct Hfind as [Hin Howned].
  specialize (Hfk r Hin). apply existsb_exists in Hfk. destruct Hfk as (u & Hu & Hid).
  apply String.eqb_eq in Howned. rewrite Howned in Hid.
  pose proof (find_none _ _ Hnone u Hu) as Hfalse. simpl in Hfalse.
  unfold has_user_id in Hid. congruence.
Qed.

(** X6. On a database whose refresh-token records all belong to existing
    users, [login], [refresh] and [logout] are all or nothing: a call that
    does not answer with its success status (200, 200, 204), or that ends in
    an exception, leaves the database exactly as it was. For [login] this
    needs no assumption on the database. *)
Theorem session_calls_change_nothing_on_failure
    (env : Env) (now : Z) (rnd : Rand) (req : Request) (db : DB) :
  (status (fst (login env now rnd req db)) <> OK -> snd (login env now rnd req db) = db)
  /\ (sessions_have_users db ->
      (status (fst (refresh env now rnd req db)) <> OK ->
       snd (refresh env now rnd req db) = db)
      /\ (fst (logout env now req db)
          <> Ok (send_empty [ClearCookie "refreshToken" "/auth/"] NO_CONTENT) ->
          snd (logout env now req db) = db)).
Proof.
  split; [|intros Hfk; split].
  - unfold login, findUserByEmail, upsertHashOfRefreshTokenByUserId,
      updateHashOfRefreshTokenByUserId, createRefreshToken. run.
    repeat (branch; simpl in *; try discriminate);
      repeat match goal with
             | H : (_, _) = (_, _) |- _ => inversion H; subst; clear H
             end;
      intros Hstatus; try reflexivity; exfalso; apply Hstatus; reflexivity.
  - pose proof (session_user db) as Huser.
    unfold refresh, verify, findRefreshTokenByUserId, updateHashOfRefreshTokenByUserId,
      findUserById. run.
    repeat (branch; simpl in *; try discriminate);
      repeat match goal with
             | H : (_, _) = (_, _) |- _ => inversion H; subst; clear H
             | H : Some _ = Some _ |- _ => inversion H; subst; clear H
             end;
      intros Hstatus; try reflexivity;
      try (exfalso; apply Hstatus; reflexivity);
      exfalso; eapply Huser; eauto.
  - pose proof (session_user db) as Huser.
    unfold logout, verify, deleteRefreshTokenByUserId, findUserById. run.
    repeat (branch; simpl in *; try discriminate);
      repeat match goal with
             | H : (_, _) = (_, _) |- _ => inversion H; subst; clear H
             | H : Some _ = Some _ |- _ => inversion H; subst; clear H
             end;
      intros Hstatus; try reflexivity;
      try (exfalso; apply Hstatus; reflexivity);
      exfalso; eapply Huser; eauto.
Qed.

End Atomicity.

(** A failed refresh on the concrete deployment: alice, logged in, presents a
    forged token; her record stays as it was. *)
Lemma session_calls_change_nothing_on_failure_witness :
  snd (@refresh Mock.jwt Mock.bcrypt Scenario.env 20 Scenario.rnd2
         (Scenario.with_cookie Scenario.forged) (snd Scenario.logged_in))
  = snd Scenario.logged_in.
Proof.
  refine (proj1 (proj2 (@session_calls_change_nothing_on_failure Mock.jwt Mock.bcrypt
                          Scenario.env 20 Scenario.rnd2
                          (Scenario.with_cookie Scenario.forged) (snd Scenario.logged_in))
                   _) _).
  - intros r Hr. vm_compute in Hr. destruct Hr as [<-|[]]. reflexivity.
  - vm_compute. discriminate.
Defined.

Section Cookies.

Context {J : JwtLib} {B : BcryptLib}.

Ltac explore :=
  run;
  repeat (branch; simpl in *; try discriminate);
  repeat match goal with
         | H : (_, _) = (_, _) |- _ => inversion H; subst; clear H
         end;
  simpl.

(** X7. The refresh cookie is set on success and only on success.
    [register], [login] and [refresh] set exactly one cookie when they
    answer 201, 200 and 200, and none otherwise; it is named [refreshToken],
    is HTTP-only, [SameSite=Lax], scoped to [/auth/], and its max-age in
    milliseconds is the lifetime of the refresh token in seconds times 1000.
    [logout] clears a cookie only when it answers 204, and it clears that
    name on that path. *)
Theorem refresh_cookie_only_on_success
    (env : Env) (now : Z) (rnd : Rand) (req : Request) (db : DB) :
  let refresh_cookie (token : string) :=
    [SetCookie "refreshToken" token (mkCookieOptions true false "lax" "/auth/" 604800000)] in
  let on_success (res : Response) (success : Z) :=
    (status res = success -> exists token, cookies res = refresh_cookie token)
    /\ (status res <> success -> cookies res = []) in
  on_success (fst (register env now rnd req db)) CREATED
  /\ on_success (fst (login env now rnd req db)) OK
  /\ on_success (fst (refresh env now rnd req db)) OK
  /\ (forall res,
        fst (logout env now req db) = Ok res ->
        (status res = NO_CONTENT -> cookies res = [ClearCookie "refreshToken" "/auth/"])
        /\ (status res <> NO_CONTENT -> cookies res = []))
  /\ (forall payload secret,
        generateRefreshToken payload secret now
        = jwt_sign payload secret (604800000 / 1000) now).
Proof.
  cbv zeta. repeat split.
  - unfold register, createUser, createRefreshToken. explore;
      intros Hs; try discriminate; now eexists.
  - unfold register, createUser, createRefreshToken. explore;
      intros Hs; try reflexivity; exfalso; apply Hs; reflexivity.
  - unfold login, findUserByEmail, upsertHashOfRefreshTokenByUserId,
      updateHashOfRefreshTokenByUserId, createRefreshToken. explore;
      intros Hs; try discriminate; now eexists.
  - unfold login, findUserByEmail, upsertHashOfRefreshTokenByUserId,
      updateHashOfRefreshTokenByUserId, createRefreshToken. explore;
      intros Hs; try reflexivity; exfalso; apply Hs; reflexivity.
  - unfold refresh, verify, findRefreshTokenByUserId, updateHashOfRefreshTokenByUserId,
      findUserById. explore;
      intros Hs; try discriminate; now eexists.
  - unfold refresh, verify, findRefreshTokenByUserId, updateHashOfRefreshTokenByUserId,
      findUserById. explore;
      intros Hs; try reflexivity; exfalso; apply Hs; reflexivity.
  - revert H. unfold logout, verify, deleteRefreshTokenByUserId, findUserById. explore;
      intros E; inversion E; subst; simpl; intros Hs; try discriminate; reflexivity.
  - revert H. unfold logout, verify, deleteRefreshTokenByUserId, findUserById. explore;
      intros E; inversion E; subst; simpl; intros Hs; try reflexivity;
      exfalso; apply Hs; reflexivity.
Qed.

(** X8. A server that lacks a signing secret hands out nothing. With the
    refresh or the access secret missing or empty, [register], [login] and
    [refresh] never answer with success and never set a cookie, and [login]
    and [refresh] leave the database untouched; without the refresh secret
    [logout] deletes nothing; without the access secret [authenticateToken]
    lets no request through. *)
Theorem misconfigured_server_issues_nothing
    (env : Env) (now : Z) (rnd : Rand) (req : Request) (db : DB) :
  falsy (REFRESH_TOKEN_SECRET env) = true \/ falsy (ACCESS_TOKEN_SECRET env) = true ->
  (status (fst (register env now rnd req db)) <> CREATED
   /\ cookies (fst (register env now rnd req db)) = [])
  /\ (status (fst (login env now rnd req db)) <> OK
      /\ cookies (fst (login env now rnd req db)) = []
      /\ snd (login env now rnd req db) = db)
  /\ (status (fst (refresh env now rnd req db)) <> OK
      /\ cookies (fst (refresh env now rnd req db)) = []
      /\ snd (refresh env now rnd req db) = db)
  /\ (falsy (REFRESH_TOKEN_SECRET env) = true -> snd (logout env now req db) = db)
  /\ (falsy (ACCESS_TOKEN_SECRET env) = true ->
      forall req', authenticateToken env now req <> Ok (Next req')).
Proof.
  intros Hmissing.
  assert (Hor : falsy (ACCESS_TOKEN_SECRET env) || falsy (REFRESH_TOKEN_SECRET env) = true).
  { destruct Hmissing as [H|H]; rewrite H; auto using orb_true_r. }
  assert (Hrefresh : falsy (REFRESH_TOKEN_SECRET env) = false ->
                     falsy (ACCESS_TOKEN_SECRET env) = true).
  { intros Hr. destruct Hmissing; congruence. }
  repeat split.
  - unfold register, createUser, createRefreshToken. rewrite Hor. explore; discriminate.
  - unfold register, createUser, createRefreshToken. rewrite Hor. explore; reflexivity.
  - unfold login, findUserByEmail. rewrite Hor. explore; discriminate.
  - unfold login, findUserByEmail. rewrite Hor. explore; reflexivity.
  - unfold login, findUserByEmail. rewrite Hor. explore; reflexivity.
  - unfold refresh, verify. run.
    destruct (falsy (REFRESH_TOKEN_SECRET env)) eqn:Hr;
      [|rewrite (Hrefresh eq_refl)]; explore; discriminate.
  - unfold refresh, verify. run.
    destruct (falsy (REFRESH_TOKEN_SECRET env)) eqn:Hr;
      [|rewrite (Hrefresh eq_refl)]; explore; reflexivity.
  - unfold refresh, verify. run.
    destruct (falsy (REFRESH_TOKEN_SECRET env)) eqn:Hr;
      [|rewrite (Hrefresh eq_refl)]; explore; reflexivity.
  - intros Hr. unfold logout. rewrite Hr. explore; reflexivity.
  - intros Ha req'. unfold authenticateToken. rewrite Ha.
    repeat (branch; simpl in *; try discriminate).
Qed.

End Cookies.

(** The deployment without access secret: alice's correct login gets no
    token. *)
Lemma misconfigured_server_issues_nothing_witness :
  status (fst (@login Mock.jwt Mock.bcrypt Cases.env_without_access 10 Scenario.rnd1
                 Scenario.alice_login Scenario.db0)) <> OK.
Proof.
  refine (proj1 (proj1 (proj2 (@misconfigured_server_issues_nothing Mock.jwt Mock.bcrypt
                                 Cases.env_without_access 10 Scenario.rnd1
                                 Scenario.alice_login Scenario.db0 _)))).
  right. reflexivity.
Defined.

(** * Further properties of the middleware *)

Section Bearer.

Context {J : JwtLib} {B : BcryptLib}.

Lemma split_space_first (word rest : string) :
  split_space word = [word] ->
  split_space (word ++ " " ++ rest) = word :: split_space rest.
Proof.
  revert rest. induction word as [|c word IH]; intros rest Hword; simpl in *.
  - reflexivity.
  - destruct (Ascii.eqb c " "%char); [inversion Hword|].
    destruct (split_space word) as [|w ws] eqn:Hsplit;
      inversion Hword; subst; [simpl in Hsplit; discriminate Hsplit|].
    rewrite (IH rest eq_refl). reflexivity.
Qed.

Lemma authenticate_bearer (env : Env) (now : Z) (req : Request) (tail token : string) :
  req_authorization req = Some ("Bearer " ++ tail) ->
  nth_error (split_space tail) 0 = Some token ->
  token <> "" ->
  falsy (ACCESS_TOKEN_SECRET env) = false ->
  authenticateToken env now req
  = match jwt_verify token (secret_value (ACCESS_TOKEN_SECRET env)) now with
    | Some decoded => Ok (Next (set_userId req (sub decoded)))
    | None => Threw
    end.
Proof.
  intros Hheader Hfirst Hne Hak.
  unfold authenticateToken. rewrite Hheader.
  change (falsy (Some ("Bearer " ++ tail))) with false.
  cbv beta iota zeta.
  change (secret_value (Some ("Bearer " ++ tail))) with ("Bearer " ++ tail).
  rewrite split_space_bearer.
  change (nth_error ("Bearer" :: split_space tail) 0) with (Some "Bearer").
  change (nth_error ("Bearer" :: split_space tail) 1)
    with (nth_error (split_space tail) 0).
  rewrite Hfirst, Hak. simpl.
  destruct token; [congruence|reflexivity].
Qed.

(** X9. The access token of a successful login opens the authenticated
    endpoints as that user: until it expires, 15 minutes after the login,
    [authenticateToken] passes a request that carries it as Bearer token on
    to the handler with [req.userId] set to the id of the user who logged
    in, and with nothing else in the request changed. (The token is taken to
    contain no space, as every JWT.) *)
Theorem login_token_authenticates `{!JwtLawful J}
    (env : Env) (now : Z) (rnd : Rand) (req : Request) (db : DB) :
  status (fst (login env now rnd req db)) = OK ->
  exists email user accessToken,
    prop (req_body req) "email" = JString email
    /\ find (fun u => String.eqb (user_email u) email) (users db) = Some user
    /\ body (fst (login env now rnd req db))
       = Some (JObject [("accessToken", JString accessToken)])
    /\ forall t req',
         req_authorization req' = Some ("Bearer " ++ accessToken) ->
         split_space accessToken = [accessToken] ->
         t < now + 15 * 60 ->
         authenticateToken env t req' = Ok (Next (set_userId req' (user_id user))).
Proof.
  intros Hok.
  destruct (login_success_inv env now rnd req db Hok)
    as (email & user & row & Hemail & Huser & Hrk & Hak & _).
  exists email, user,
    (generateAccessToken (createJwtPayload (user_id user) (rnd_accessJti rnd))
       (secret_value (ACCESS_TOKEN_SECRET env)) now).
  split; [assumption|]. split; [assumption|]. split.
  - assert (Hobj : isObject (req_body req) = true).
    { unfold prop in Hemail. now destruct (req_body req). }
    revert Hok. unfold login, findUserByEmail. rewrite Hobj, Hemail. run. rewrite Huser.
    repeat (branch; simpl in *; try discriminate). reflexivity.
  - intros t req' Hheader Hcompact Hlive.
    match type of Hcompact with
    | split_space ?tok = _ => rewrite (authenticate_bearer env t req' tok tok Hheader)
    end; [|now rewrite Hcompact|apply sign_nonempty|assumption].
    unfold generateAccessToken. now rewrite verify_sign.
Qed.

(** X10. The two token classes do not stand in for each other when their
    secrets differ. A refresh token sent as Bearer token makes
    [authenticateToken] throw instead of calling [next]; an access token
    sent as the [refreshToken] cookie gets 500 from [refresh] and an
    exception from [logout], and changes nothing. *)
Theorem token_classes_do_not_mix `{!JwtLawful J}
    (env : Env) (payload : JwtPayload) (issuedAt now : Z) (rnd : Rand) (req : Request)
    (db : DB) :
  let refreshToken :=
    generateRefreshToken payload (secret_value (REFRESH_TOKEN_SECRET env)) issuedAt in
  let accessToken :=
    generateAccessToken payload (secret_value (ACCESS_TOKEN_SECRET env)) issuedAt in
  falsy (REFRESH_TOKEN_SECRET env) = false ->
  falsy (ACCESS_TOKEN_SECRET env) = false ->
  secret_value (REFRESH_TOKEN_SECRET env) <> secret_value (ACCESS_TOKEN_SECRET env) ->
  (req_authorization req = Some ("Bearer " ++ refreshToken) ->
   split_space refreshToken = [refreshToken] ->
   authenticateToken env now req = Threw)
  /\ (prop (req_cookies req) "refreshToken" = JString accessToken ->
      refresh env now rnd req db = (send_empty [] INTERNAL_SERVER_ERROR, db)
      /\ logout env now req db = (Threw, db)).
Proof.
  cbv zeta. intros Hrk Hak Hdiff. split.
  - intros Hheader Hcompact.
    match type of Hcompact with
    | split_space ?tok = _ => rewrite (authenticate_bearer env now req tok tok Hheader)
    end; [|now rewrite Hcompact|apply sign_nonempty|assumption].
    unfold generateRefreshToken. now rewrite verify_other_secret.
  - intros Hcookie.
    assert (Hne : not_a_nonempty_string (prop (req_cookies req) "refreshToken") = false).
    { rewrite Hcookie. apply nonempty_cookie, sign_nonempty. }
    assert (Hverify : jwt_verify (string_of (prop (req_cookies req) "refreshToken"))
                        (secret_value (REFRESH_TOKEN_SECRET env)) now = None).
    { rewrite Hcookie. simpl. unfold generateAccessToken.
      apply verify_other_secret. congruence. }
    split.
    + now apply refresh_verify_throws.
    + unfold logout, verify. rewrite Hne, Hrk. run. now rewrite Hverify.
Qed.

(** X11. What [authenticateToken] reads of the Authorization header: the
    words are split at single spaces, and after the word [Bearer] the second
    word is the token. Words after the token are ignored; a non-empty header
    without a space, and a header with two spaces after [Bearer], get 401
    "Invalid Authorization header format" whatever follows. *)
Theorem authorization_header_reading (env : Env) (now : Z) (req : Request) :
  (forall token rest,
     req_authorization req = Some ("Bearer " ++ token ++ " " ++ rest) ->
     split_space token = [token] ->
     token <> "" ->
     authenticateToken env now req
     = if falsy (ACCESS_TOKEN_SECRET env) then
         Ok (Replied (send_json [] INTERNAL_SERVER_ERROR (message "Server misconfigured")))
       else
         match jwt_verify token (secret_value (ACCESS_TOKEN_SECRET env)) now with
         | Some decoded => Ok (Next (set_userId req (sub decoded)))
         | None => Threw
         end)
  /\ (forall header,
        req_authorization req = Some header ->
        header <> "" ->
        split_space header = [header] ->
        authenticateToken env now req
        = Ok (Replied (send_json [] UNAUTHORIZED
                         (message "Invalid Authorization header format"))))
  /\ (forall rest,
        req_authorization req = Some ("Bearer  " ++ rest) ->
        authenticateToken env now req
        = Ok (Replied (send_json [] UNAUTHORIZED
                         (message "Invalid Authorization header format")))).
Proof.
  split; [|split].
  - intros token rest Hheader Hcompact Hne.
    destruct (falsy (ACCESS_TOKEN_SECRET env)) eqn:Hak.
    + unfold authenticateToken. rewrite Hheader.
      change (falsy (Some ("Bearer " ++ token ++ " " ++ rest))) with false.
      cbv beta iota zeta.
      change (secret_value (Some ("Bearer " ++ token ++ " " ++ rest)))
        with ("Bearer " ++ token ++ " " ++ rest).
      rewrite split_space_bearer, (split_space_first token rest Hcompact).
      simpl nth_error. rewrite Hak.
      destruct token; [congruence|reflexivity].
    + apply (authenticate_bearer env now req (token ++ " " ++ rest) token Hheader);
        [now rewrite (split_space_first token rest Hcompact)|assumption|assumption].
  - intros header Hheader Hne Hcompact.
    unfold authenticateToken. rewrite Hheader.
    assert (Hfalsy : falsy (Some header) = false) by (simpl; now apply String.eqb_neq).
    rewrite Hfalsy. cbv beta iota zeta. simpl secret_value. rewrite Hcompact. simpl.
    now rewrite orb_true_r.
  - intros rest Hheader. unfold authenticateToken. rewrite Hheader. reflexivity.
Qed.

End Bearer.

(** Alice's login on the concrete deployment names her row. *)
Lemma login_token_authenticates_witness :
  exists email user,
    prop (req_body Scenario.alice_login) "email" = JString email
    /\ find (fun u => String.eqb (user_email u) email) (users Scenario.db0) = Some user.
Proof.
  destruct (@login_token_authenticates Mock.jwt Mock.bcrypt MockFacts.jwt_lawful
              Scenario.env 10 Scenario.rnd1 Scenario.alice_login Scenario.db0)
    as (email & user & token & Hemail & Huser & _).
  - vm_compute. reflexivity.
  - exists email, user. split; assumption.
Defined.

(** Alice's refresh token, sent as Bearer token on the concrete deployment,
    is not let through. *)
Lemma token_classes_do_not_mix_witness :
  @authenticateToken Mock.jwt Scenario.env 20
    (Scenario.with_header ("Bearer " ++ Scenario.alice_token)) = Threw.
Proof.
  refine (proj1 (@token_classes_do_not_mix Mock.jwt Mock.bcrypt MockFacts.jwt_lawful
                   Scenario.env (mkJwtPayload "u-alice" "jti-r1") 10 20 Scenario.rnd1
                   (Scenario.with_header ("Bearer " ++ Scenario.alice_token)) Scenario.db0
                   _ _ _) _ _); try reflexivity.
  vm_compute. discriminate.
Defined.

(** A header with a word after the token, on the concrete deployment: the
    forged token is read, the word after it is not. *)
Lemma authorization_header_reading_witness :
  @authenticateToken Mock.jwt Scenario.env 20
    (Scenario.with_header ("Bearer " ++ Scenario.forged ++ " " ++ "trailer")) = Threw.
Proof.
  refine (eq_trans (proj1 (@authorization_header_reading Mock.jwt Scenario.env 20
                             (Scenario.with_header
                                ("Bearer " ++ Scenario.forged ++ " " ++ "trailer")))
                      Scenario.forged "trailer" _ _ _) _); try reflexivity.
  vm_compute. discriminate.
Defined.

(** * The refresh-token store *)

Section Store.

(** X12. The refresh-token service round-trips: after a successful create,
    update or upsert for a user, the lookup by user id returns the record
    just written, with the given hash and jti, and the lookup by hash finds
    it; after a successful delete the lookup returns [null]. The lookup of
    the hash alone, [findHashOfRefreshTokenByUserId], never returns [null]:
    for a user without a record it throws. *)
Theorem refresh_token_store_round_trips
    (newId : string) (now : Z) (userId hash jti : string) (db : DB) :
  let written (outcome : Result RefreshToken * DB) :=
    forall row,
      fst outcome = Ok row ->
      findRefreshTokenByUserId userId (snd outcome) = (Ok (Some row), snd outcome)
      /\ rt_hash row = hash /\ rt_jti row = jti /\ rt_userId row = userId
      /\ findHashOfRefreshTokenByUserId userId (snd outcome) = (Ok hash, snd outcome)
      /\ refreshTokenExists hash (snd outcome) = (Ok true, snd outcome) in
  written (createRefreshToken newId now hash userId jti db)
  /\ written (updateHashOfRefreshTokenByUserId userId hash jti db)
  /\ written (upsertHashOfRefreshTokenByUserId newId now userId hash jti db)
  /\ (forall row,
        fst (deleteRefreshTokenByUserId userId db) = Ok row ->
        findRefreshTokenByUserId userId (snd (deleteRefreshTokenByUserId userId db))
        = (Ok None, snd (deleteRefreshTokenByUserId userId db))
        /\ findHashOfRefreshTokenByUserId userId (snd (deleteRefreshTokenByUserId userId db))
           = (Threw, snd (deleteRefreshTokenByUserId userId db)))
  /\ (fst (findRefreshTokenByUserId userId db) = Ok None
      <-> fst (findHashOfRefreshTokenByUserId userId db) = Threw).
Proof.
  assert (Hwritten : forall row db',
             find (owned_by userId) (refreshTokens db') = Some row ->
             rt_hash row = hash -> rt_jti row = jti ->
             findRefreshTokenByUserId userId db' = (Ok (Some row), db')
             /\ rt_hash row = hash /\ rt_jti row = jti /\ rt_userId row = userId
             /\ findHashOfRefreshTokenByUserId userId db' = (Ok hash, db')
             /\ refreshTokenExists hash db' = (Ok true, db')).
  { intros row db' Hfind Hhash Hjti.
    unfold findRefreshTokenByUserId, findHashOfRefreshTokenByUserId, refreshTokenExists.
    rewrite Hfind, Hhash. repeat split; auto.
    - apply find_some in Hfind. destruct Hfind as [_ Howned]. now apply String.eqb_eq.
    - destruct (find (fun r => String.eqb (rt_hash r) hash) (refreshTokens db')) eqn:Hnone;
        [reflexivity|].
      apply find_some in Hfind. destruct Hfind as [Hin _].
      pose proof (find_none _ _ Hnone row Hin) as Hfalse. simpl in Hfalse.
      rewrite Hhash, String.eqb_refl in Hfalse. discriminate. }
  assert (Hupsert : forall row,
             fst (upsertHashOfRefreshTokenByUserId newId now userId hash jti db) = Ok row ->
             find (owned_by userId)
               (refreshTokens (snd (upsertHashOfRefreshTokenByUserId newId now userId
                                      hash jti db))) = Some row
             /\ rt_hash row = hash /\ rt_jti row = jti).
  { intros row Hrow.
    destruct (upsertHashOfRefreshTokenByUserId newId now userId hash jti db) as [r d] eqn:E.
    simpl in *. subst r. exact (upsert_ok _ _ _ _ _ _ _ _ E). }
  cbv zeta. split; [|split; [|split; [|split]]].
  - intros row Hrow.
    assert (Hnone : find (owned_by userId) (refreshTokens db) = None).
    { revert Hrow. unfold createRefreshToken.
      destruct (existsb (fun r => String.eqb (rt_id r) newId || owned_by userId r)
                  (refreshTokens db)) eqn:Hexists; simpl; [discriminate|]. intros _.
      apply (find_none_of_existsb _ _ _ Hexists). intros a Ha. rewrite Ha.
      apply orb_true_r. }
    specialize (Hupsert row). unfold upsertHashOfRefreshTokenByUserId in Hupsert.
    rewrite Hnone in Hupsert. destruct (Hupsert Hrow) as (Hfind & Hhash & Hjti).
    now apply Hwritten.
  - intros row Hrow.
    assert (Hsome : find (owned_by userId) (refreshTokens db) <> None).
    { revert Hrow. unfold updateHashOfRefreshTokenByUserId.
      destruct (find (owned_by userId) (refreshTokens db)); [discriminate|].
      simpl. discriminate. }
    specialize (Hupsert row). unfold upsertHashOfRefreshTokenByUserId in Hupsert.
    destruct (find (owned_by userId) (refreshTokens db)); [|congruence].
    destruct (Hupsert Hrow) as (Hfind & Hhash & Hjti).
    now apply Hwritten.
  - intros row Hrow. destruct (Hupsert row Hrow) as (Hfind & Hhash & Hjti).
    now apply Hwritten.
  - intros row. unfold deleteRefreshTokenByUserId, findRefreshTokenByUserId,
      findHashOfRefreshTokenByUserId.
    destruct (find (owned_by userId) (refreshTokens db)); simpl; [intros _|discriminate].
    rewrite find_after_delete. split; reflexivity.
  - unfold findRefreshTokenByUserId, findHashOfRefreshTokenByUserId.
    destruct (find (owned_by userId) (refreshTokens db)); simpl; split;
      intros E; try discriminate; reflexivity.
Qed.

End Store.

(** The store on the concrete deployment: a record created for alice is
    found again. *)
Lemma refresh_token_store_round_trips_witness :
  findRefreshTokenByUserId "u-alice"
    (snd (createRefreshToken "row-9" 3 "digest" "u-alice" "jti-9" Scenario.db0))
  = (Ok (Some (mkRefreshToken "row-9" "digest" "jti-9" 3 "u-alice")),
     snd (createRefreshToken "row-9" 3 "digest" "u-alice" "jti-9" Scenario.db0)).
Proof.
  refine (proj1 (proj1 (refresh_token_store_round_trips "row-9" 3 "u-alice" "digest" "jti-9"
                          Scenario.db0)
                   (mkRefreshToken "row-9" "digest" "jti-9" 3 "u-alice") _)).
  reflexivity.
Defined.

(** * Further properties of the job applications *)

Section Applications.

Context {P : PrismaLib} {D : JsonDate}.

Ltac explore :=
  run;
  repeat (branch; simpl in *; try discriminate);
  repeat match goal with
         | H : (_, _) = (_, _) |- _ => inversion H; subst; clear H
         | H : _ || _ = false |- _ => apply orb_false_elim in H; destruct H
         end;
  simpl; try discriminate.

(** The key of a lookup is converted to a string before it is looked up: an
    array of one name finds the member of that name, a name of
    [Object.prototype] finds what every object inherits, [undefined] finds
    nothing, and an object with a [toString] of its own makes the lookup
    throw. *)
Lemma WorkModel_at_keys :
  WorkModel_at (JString "HYBRID") = Ok (Member HYBRID)
  /\ WorkModel_at (JArray [JString "HYBRID"]) = Ok (Member HYBRID)
  /\ WorkModel_at (JString "constructor") = Ok (Inherited "constructor")
  /\ WorkModel_at JUndefined = Ok Missing
  /\ WorkModel_at (JObject [("toString", JNull)]) = Threw.
Proof.
  repeat split.
Qed.

(** The two ways a creation can end. *)
Lemma createApplication_cases (newId : string) (now : Z) (req : Request) (db : DB) :
  (fst (createApplication newId now req db) = Ok (send_empty [] OK)
   /\ exists companyName jobTitle workModel salary,
        prop (req_body req) "companyName" = JString companyName
        /\ prop (req_body req) "jobTitle" = JString jobTitle
        /\ WorkModel_at (prop (req_body req) "workModel") = Ok (Member workModel)
        /\ prop (req_body req) "salary" = JNumber salary
        /\ snd (createApplication newId now req db)
           = set_jobApplications db
               (jobApplications db
                ++ [mkJobApplication newId companyName jobTitle salary PENDING workModel
                      now now (req_userId req)]))
  \/ (fst (createApplication newId now req db) <> Ok (send_empty [] OK)
      /\ snd (createApplication newId now req db) = db).
Proof.
  unfold createApplication, createJobApplicationByUserId, of_result, expect_member,
    expect_int, findUserById.
  destruct (isObject (req_body req)); [|right; split; [discriminate|reflexivity]].
  explore;
    try (right; split; [discriminate|reflexivity]).
  - left. split; [reflexivity|]. do 4 eexists. repeat split; eauto.
  - exfalso.
    match goal with
    | H : find _ _ = None, E : existsb (has_user_id _) _ = true |- _ =>
      apply existsb_exists in E; destruct E as (u & Hin & Hu);
        pose proof (find_none _ _ H u Hin) as Hfalse; simpl in Hfalse;
        unfold has_user_id in Hu; congruence
    end.
Qed.

(** X13. A new job application belongs to the requester and starts as
    [PENDING], whatever the body says. [createApplication] either answers
    200, and then it has appended exactly one row with the id the database
    generated, the submitted company, title and salary, the work model that
    the submitted key names on the enum object, the status [PENDING] and the
    requester as owner, ignoring any [id], [status] or [userId] in the body;
    or it does not, and then it has changed nothing. *)
Theorem createApplication_assigns_owner (newId : string) (now : Z) (req : Request) (db : DB) :
  (fst (createApplication newId now req db) = Ok (send_empty [] OK)
   /\ exists companyName jobTitle workModel salary,
        prop (req_body req) "companyName" = JString companyName
        /\ prop (req_body req) "jobTitle" = JString jobTitle
        /\ WorkModel_at (prop (req_body req) "workModel") = Ok (Member workModel)
        /\ prop (req_body req) "salary" = JNumber salary
        /\ snd (createApplication newId now req db)
           = set_jobApplications db
               (jobApplications db
                ++ [mkJobApplication newId companyName jobTitle salary PENDING workModel
                      now now (req_userId req)]))
  \/ (fst (createApplication newId now req db) <> Ok (send_empty [] OK)
      /\ snd (createApplication newId now req db) = db).
Proof.
  exact (createApplication_cases newId now req db).
Qed.

Lemma filter_permutation {A : Type} (p : A -> bool) (l l' : list A) :
  Permutation l l' -> Permutation (filter p l) (filter p l').
Proof.
  induction 1 as [|x l l' _ IH|x y l|l l' l'' _ IH1 _ IH2]; simpl.
  - apply perm_nil.
  - destruct (p x); [apply perm_skip|]; exact IH.
  - destruct (p x), (p y); try apply Permutation_refl. apply perm_swap.
  - eapply Permutation_trans; eassumption.
Qed.

(** X14. The listing is scoped and sees what was created, in whatever order
    the database returns the rows. [getAllApplications] answers 200 with the
    requester's applications, each once and no others, and every item
    carries the requester's [userId]. After a creation that answered 200 the
    creator is listed what was listed before and the new application, and
    every other user what was listed before. *)
Theorem created_application_is_listed `{!PrismaLawful P}
    (newId : string) (now : Z) (req req' : Request) (db : DB) :
  let created := snd (createApplication newId now req db) in
  let listed (rows : list JobApplication) (db : DB) :=
    getAllApplications req' db
    = (Ok (send_json [] OK (JArray (map json_of_application rows))), db) in
  exists before after,
    listed before db
    /\ listed after created
    /\ Permutation before
         (filter (fun a => String.eqb (app_userId a) (req_userId req')) (jobApplications db))
    /\ Forall (fun item => prop item "userId" = JString (req_userId req'))
         (map json_of_application before)
    /\ (fst (createApplication newId now req db) = Ok (send_empty [] OK) ->
        (req_userId req' <> req_userId req -> Permutation after before)
        /\ (req_userId req' = req_userId req ->
            exists a,
              Permutation after (a :: before)
              /\ app_id a = newId /\ app_userId a = req_userId req
              /\ app_status a = PENDING)).
Proof.
  cbv zeta.
  set (mine := fun a => String.eqb (app_userId a) (req_userId req')).
  assert (Hscan : forall db, Permutation (filter mine (scan (jobApplications db)))
                               (filter mine (jobApplications db))).
  { intros d. apply filter_permutation, scan_permutation. }
  exists (filter mine (scan (jobApplications db))),
    (filter mine (scan (jobApplications (snd (createApplication newId now req db))))).
  split; [reflexivity|]. split; [reflexivity|]. split; [apply Hscan|]. split.
  - apply Forall_forall. intros item Hitem. apply in_map_iff in Hitem.
    destruct Hitem as (a & <- & Ha). apply filter_In in Ha. destruct Ha as [_ Ha].
    apply String.eqb_eq in Ha. simpl. now rewrite Ha.
  - intros Hok.
    destruct (createApplication_cases newId now req db)
      as [(_ & c & t & w & n & _ & _ & _ & _ & Hdb)|[Hno _]]; [|contradiction].
    assert (Hafter : Permutation
                       (filter mine (scan (jobApplications
                                             (snd (createApplication newId now req db)))))
                       (filter mine (jobApplications db)
                        ++ filter mine [mkJobApplication newId c t n PENDING w now now
                                          (req_userId req)])).
    { eapply Permutation_trans; [apply Hscan|].
      rewrite Hdb. simpl jobApplications. rewrite filter_app. apply Permutation_refl. }
    split.
    + intros Hother. apply not_eq_sym in Hother. apply String.eqb_neq in Hother.
      eapply Permutation_trans; [exact Hafter|].
      simpl. unfold mine at 2. simpl. rewrite Hother, app_nil_r.
      apply Permutation_sym, Hscan.
    + intros Hsame.
      exists (mkJobApplication newId c t n PENDING w now now (req_userId req)).
      split; [|repeat split].
      eapply Permutation_trans; [exact Hafter|].
      simpl. unfold mine at 2. simpl. rewrite Hsame, String.eqb_refl.
      eapply Permutation_trans; [apply Permutation_app_comm|].
      simpl. apply perm_skip, Permutation_sym, Hscan.
Qed.

(** Rows rewritten by a function that keeps the key and leaves the rows of
    other keys alone. *)
Lemma rewritten_rows {A : Type} (key : A -> string) (id : string) (g : A -> A)
    (rows : list A) (a : A) :
  (forall b, String.eqb (key b) id = false -> g b = b) ->
  (forall b, key (g b) = key b) ->
  key a <> id ->
  In a (map g rows) <-> In a rows.
Proof.
  intros Hother Hkey Ha. split.
  - intros Hin. apply in_map_iff in Hin. destruct Hin as (b & Hb & Hin).
    destruct (String.eqb (key b) id) eqn:E.
    + apply String.eqb_eq in E. exfalso. apply Ha. now rewrite <- Hb, Hkey.
    + rewrite (Hother b E) in Hb. now subst.
  - intros Hin. apply in_map_iff. exists a. split; [|assumption].
    apply Hother. now apply String.eqb_neq.
Qed.

(** X15. What an update of a job application can and cannot touch, whatever
    the body, whatever the client makes of it and whatever the outcome.
    [updateApplication] leaves every row with another id as it was, adds no
    row and removes none, and keeps the [id], the [userId] and the
    [createdAt] of the row it rewrites: the owner of an application cannot be
    changed, neither can its id. Users and sessions are left alone. An id
    that no row has makes it throw with nothing changed. *)
Theorem updateApplication_frame (now : Z) (req : Request) (db : DB) :
  let after := snd (updateApplication now req db) in
  let same_key (a b : JobApplication) :=
    app_id a = app_id b /\ app_userId a = app_userId b /\ app_createdAt a = app_createdAt b in
  (forall a, app_id a <> req_params_id req ->
             (In a (jobApplications after) <-> In a (jobApplications db)))
  /\ (forall b, In b (jobApplications after) ->
                exists a, In a (jobApplications db) /\ same_key a b)
  /\ (forall a, In a (jobApplications db) ->
                exists b, In b (jobApplications after) /\ same_key a b)
  /\ length (jobApplications after) = length (jobApplications db)
  /\ users after = users db
  /\ refreshTokens after = refreshTokens db
  /\ (isObject (req_body req) = true ->
      find (has_id (req_params_id req)) (jobApplications db) = None ->
      updateApplication now req db = (Threw, db)).
Proof.
  cbv zeta.
  assert (Hrows : snd (updateApplication now req db) = db
                  \/ exists g,
                       (forall a, has_id (req_params_id req) a = false -> g a = a)
                       /\ (forall a, app_id (g a) = app_id a
                                     /\ app_userId (g a) = app_userId a
                                     /\ app_createdAt (g a) = app_createdAt a)
                       /\ snd (updateApplication now req db)
                          = set_jobApplications db (map g (jobApplications db))).
  { unfold updateApplication, updateApplicationById, of_result, findUserById.
    explore; try (now left);
      right; eexists; (split; [|split; [|reflexivity]]);
      intros x; cbv beta; try (intros Hx; now rewrite Hx);
      now destruct (has_id (req_params_id req) x). }
  split; [|split; [|split; [|split; [|split; [|split]]]]].
  1-6: destruct Hrows as [->|(g & Hother & Hkeep & ->)]; simpl; auto.
  - intros a Ha. reflexivity.
  - intros a Ha. apply (rewritten_rows app_id (req_params_id req)); auto.
    intros b. apply Hkeep.
  - intros b Hb. exists b. repeat split. assumption.
  - intros b Hb. apply in_map_iff in Hb. destruct Hb as (a & <- & Ha).
    exists a. split; [assumption|]. destruct (Hkeep a) as (H1 & H2 & H3). now repeat split.
  - intros a Ha. exists a. repeat split. assumption.
  - intros a Ha. exists (g a). split; [now apply in_map|].
    destruct (Hkeep a) as (H1 & H2 & H3). now repeat split.
  - apply length_map.
  - intros Hobj Hnone.
    unfold updateApplication, updateApplicationById, of_result.
    rewrite Hobj. run.
    repeat (branch; simpl in *; try discriminate); try reflexivity; congruence.
Qed.

(** X16. Deleting a job application removes the row of that id and nothing
    else. When [deleteApplication] answers 204, no row with the id is left
    and the rows with other ids are all there, in their order; users and
    sessions are untouched. For an id that no row has it throws, so a second
    delete of the same id fails, and nothing changes. *)
Theorem deleteApplication_removes_one (req : Request) (db : DB) :
  let after := snd (deleteApplication req db) in
  let id := req_params_id req in
  (fst (deleteApplication req db) = Ok (send_empty [] NO_CONTENT) ->
   find (has_id id) (jobApplications after) = None
   /\ jobApplications after = filter (fun a => negb (has_id id a)) (jobApplications db)
   /\ deleteApplication req after = (Threw, after))
  /\ (find (has_id id) (jobApplications db) = None ->
      deleteApplication req db = (Threw, db))
  /\ users after = users db
  /\ refreshTokens after = refreshTokens db.
Proof.
  cbv zeta.
  assert (Hgone : forall rows,
             find (has_id (req_params_id req))
               (filter (fun a => negb (has_id (req_params_id req) a)) rows) = None).
  { induction rows as [|a rows IH]; simpl; [reflexivity|].
    destruct (has_id (req_params_id req) a) eqn:Ha; simpl; [exact IH|]. now rewrite Ha. }
  unfold deleteApplication, deleteApplicationById, findUserById. run.
  destruct (find (has_id (req_params_id req)) (jobApplications db)) eqn:Hfind; simpl.
  - destruct (find (fun u => String.eqb (user_id u) (req_userId req)) (users db)); simpl.
    + split; [intros _|split; [discriminate|split; reflexivity]].
      rewrite Hgone. repeat split.
    + split; [discriminate|split; [discriminate|split; reflexivity]].
  - rewrite Hfind. split; [discriminate|]. repeat split.
Qed.

End Applications.

(** * Routers and the profile handlers *)

Section Routers.

Context {J : JwtLib} {P : PrismaLib} {D : JsonDate}.

Ltac explore :=
  run;
  repeat (branch; simpl in *; try discriminate);
  repeat match goal with
         | H : (_, _) = (_, _) |- _ => inversion H; subst; clear H
         | H : Some _ = Some _ |- _ => inversion H; subst; clear H
         end;
  simpl; try discriminate.

(** What [authenticateToken] has seen when it calls [next]. *)
Lemma authenticate_next_inv (env : Env) (now : Z) (req req' : Request) :
  authenticateToken env now req = Ok (Next req') ->
  exists header token decoded,
    req_authorization req = Some header
    /\ nth_error (split_space header) 0 = Some "Bearer"
    /\ nth_error (split_space header) 1 = Some token
    /\ falsy (ACCESS_TOKEN_SECRET env) = false
    /\ jwt_verify token (secret_value (ACCESS_TOKEN_SECRET env)) now = Some decoded
    /\ req' = set_userId req (sub decoded).
Proof.
  unfold authenticateToken.
  destruct (req_authorization req) as [header|] eqn:Hheader; simpl;
    [|intros E; discriminate E].
  repeat (branch; simpl in *; try discriminate);
    intros E; inversion E; subst; try discriminate;
    repeat match goal with
           | H : _ || true = false |- _ => rewrite orb_true_r in H; discriminate H
           | H : _ || _ = false |- _ => apply orb_false_elim in H; destruct H
           | H : negb _ = false |- _ => apply negb_false_iff in H
           | H : String.eqb _ "Bearer" = true |- _ => apply String.eqb_eq in H; subst
           end.
  exists header.
  match goal with H : split_space header = _ |- _ => rewrite H end.
  do 2 eexists. repeat split; eauto.
Qed.

(** X17. Nothing is written without a verified token. A request that
    [authenticateToken] does not pass on, because the header is missing or
    malformed, the secret is missing or the token does not verify, reaches no
    handler of the applications router or the users router: the database is
    unchanged and the outcome is the middleware's, a 401, a 500 or its
    exception. And an application created through the router is owned by the
    subject of the verified token. *)
Theorem routers_require_token (env : Env) (now : Z) (newId : string)
    (method : Method) (path : list string) (req : Request) (db : DB) :
  ((forall req', authenticateToken env now req <> Ok (Next req')) ->
   snd (applicationRouter env now newId method path req db) = db
   /\ snd (userRouter env now method path req db) = db
   /\ fst (applicationRouter env now newId method path req db)
      = fst (userRouter env now method path req db)
   /\ (fst (applicationRouter env now newId method path req db) = Threw
       \/ exists res,
            fst (applicationRouter env now newId method path req db) = Ok (Some res)
            /\ (status res = UNAUTHORIZED \/ status res = INTERNAL_SERVER_ERROR)))
  /\ (fst (applicationRouter env now newId POST [] req db) = Ok (Some (send_empty [] OK)) ->
      exists header token decoded created,
        req_authorization req = Some header
        /\ nth_error (split_space header) 1 = Some token
        /\ jwt_verify token (secret_value (ACCESS_TOKEN_SECRET env)) now = Some decoded
        /\ jobApplications (snd (applicationRouter env now newId POST [] req db))
           = (jobApplications db ++ [created])%list
        /\ app_userId created = sub decoded
        /\ app_id created = newId).
Proof.
  split.
  - intros Hno. unfold applicationRouter, userRouter.
    destruct (authenticateToken env now req) as [[res|req']|] eqn:Hauth.
    + simpl. repeat split. right. exists res. split; [reflexivity|].
      revert Hauth. unfold authenticateToken.
      repeat (branch; simpl in *; try discriminate);
        intros E; inversion E; subst; simpl; auto.
    + exfalso. now apply (Hno req').
    + simpl. repeat split. now left.
  - unfold applicationRouter.
    destruct (authenticateToken env now req) as [[res|req']|] eqn:Hauth.
    + simpl. intros E. inversion E as [Hres]. exfalso. revert Hauth. rewrite Hres.
      unfold authenticateToken.
      repeat (branch; simpl in *; try discriminate).
    + destruct (authenticate_next_inv env now req req' Hauth)
        as (header & token & decoded & Hheader & _ & Htoken & _ & Hverify & Hreq').
      intros Hok.
      destruct (createApplication_cases newId now req' db)
        as [(Hres & c & t & w & n & _ & _ & _ & _ & Hdb)|[Hno Hsame]].
      * unfold routed. run. destruct (createApplication newId now req' db) as [[r|] d];
          simpl in *; [|discriminate]. subst d.
        exists header, token, decoded. eexists. repeat split; eauto.
        simpl. now rewrite Hreq'.
      * exfalso. apply Hno. revert Hok. unfold routed. run.
        destruct (createApplication newId now req' db) as [[r|] d]; simpl;
          intros E; now inversion E.
    + simpl. discriminate.
Qed.

(** X18. The two routes of the users router are wired crosswise. For an
    authenticated request, PATCH /users/me runs the reading handler: it
    changes nothing, whatever the body, and answers 200 with the whole user
    row, the password hash included, or with [null] when the user is gone.
    GET /users/me runs the updating handler: it answers 400 when the request
    has no object as body, and otherwise does what [updateMe] does with that
    body. *)
Theorem user_routes_are_crossed (env : Env) (now : Z) (req req' : Request) (db : DB) :
  authenticateToken env now req = Ok (Next req') ->
  (snd (userRouter env now PATCH ["me"] req db) = db
   /\ (forall u,
         find (fun u => String.eqb (user_id u) (req_userId req')) (users db) = Some u ->
         fst (userRouter env now PATCH ["me"] req db)
         = Ok (Some (send_json [] OK (json_of_user u)))
         /\ prop (json_of_user u) "hashedPassword" = JString (user_hashedPassword u))
   /\ (find (fun u => String.eqb (user_id u) (req_userId req')) (users db) = None ->
       fst (userRouter env now PATCH ["me"] req db) = Ok (Some (send_json [] OK JNull))))
  /\ (isObject (req_body req) = false ->
      userRouter env now GET ["me"] req db
      = (Ok (Some (send_json [] BAD_REQUEST (message "The request body is not an object"))),
         db))
  /\ snd (userRouter env now GET ["me"] req db) = snd (updateMe now req' db).
Proof.
  intros Hauth. unfold userRouter. rewrite Hauth. cbv iota beta.
  assert (Hbody : req_body req' = req_body req).
  { destruct (authenticate_next_inv env now req req' Hauth)
      as (h & t & d & _ & _ & _ & _ & _ & ->). reflexivity. }
  unfold routed, getMe, updateMe, findUserById. run.
  split; [split; [reflexivity|split]|split].
  - intros u Hu. rewrite Hu. split; reflexivity.
  - intros Hnone. now rewrite Hnone.
  - intros Hobj. rewrite Hbody, Hobj. reflexivity.
  - destruct (isObject (req_body req')); [|reflexivity].
    destruct (updateUserById now (req_userId req') (req_body req') db) as [[[]|] d]; simpl;
      [|reflexivity].
    now destruct (find (fun u => String.eqb (user_id u) (req_userId req')) (users d)).
Qed.

(** X19. What a profile update can and cannot touch, whatever the body,
    whatever the client makes of it and whatever the outcome. [updateMe]
    leaves the row of every other user as it was, adds no user and removes
    none, and keeps the [id], the [hashedPassword] and the [createdAt] of
    the row it rewrites. Sessions and job applications are left alone.
    Asking for an email that another user has makes it throw with nothing
    changed. *)
Theorem updateMe_frame (now : Z) (req : Request) (db : DB) :
  let after := snd (updateMe now req db) in
  let same_key (u v : User) :=
    user_id u = user_id v /\ user_hashedPassword u = user_hashedPassword v
    /\ user_createdAt u = user_createdAt v in
  (forall u, user_id u <> req_userId req -> (In u (users after) <-> In u (users db)))
  /\ (forall v, In v (users after) -> exists u, In u (users db) /\ same_key u v)
  /\ (forall u, In u (users db) -> exists v, In v (users after) /\ same_key u v)
  /\ length (users after) = length (users db)
  /\ refreshTokens after = refreshTokens db
  /\ jobApplications after = jobApplications db
  /\ (forall email other,
        prop (req_body req) "email" = JString email ->
        In other (users db) ->
        user_id other <> req_userId req ->
        user_email other = email ->
        updateMe now req db = (Threw, db)).
Proof.
  cbv zeta.
  assert (Hrows : snd (updateMe now req db) = db
                  \/ exists g,
                       (forall u, has_user_id (req_userId req) u = false -> g u = u)
                       /\ (forall u, user_id (g u) = user_id u
                                     /\ user_hashedPassword (g u) = user_hashedPassword u
                                     /\ user_createdAt (g u) = user_createdAt u)
                       /\ snd (updateMe now req db) = set_users db (map g (users db))).
  { assert (Hsnd : snd (updateMe now req db) = db
                   \/ snd (updateMe now req db)
                      = snd (updateUserById now (req_userId req) (req_body req) db)).
    { unfold updateMe, findUserById. run.
      destruct (isObject (req_body req)); [|now left].
      destruct (updateUserById now (req_userId req) (req_body req) db) as [[[]|] d]; simpl;
        [|now right].
      destruct (find (fun u => String.eqb (user_id u) (req_userId req)) (users d));
        now right. }
    destruct Hsnd as [Hsnd|Hsnd]; [now left|]. rewrite Hsnd.
    unfold updateUserById.
    explore; try (now left);
      right; eexists; (split; [|split; [|reflexivity]]);
      intros x; cbv beta; try (intros Hx; now rewrite Hx);
      now destruct (has_user_id (req_userId req) x). }
  split; [|split; [|split; [|split; [|split; [|split]]]]].
  1-6: destruct Hrows as [->|(g & Hother & Hkeep & ->)]; simpl; auto.
  - intros u Hu. reflexivity.
  - intros u Hu. apply (rewritten_rows user_id (req_userId req)); auto.
    intros v. apply Hkeep.
  - intros v Hv. exists v. repeat split. assumption.
  - intros v Hv. apply in_map_iff in Hv. destruct Hv as (u & <- & Hu).
    exists u. split; [assumption|]. destruct (Hkeep u) as (H1 & H2 & H3). now repeat split.
  - intros u Hu. exists u. repeat split. assumption.
  - intros u Hu. exists (g u). split; [now apply in_map|].
    destruct (Hkeep u) as (H1 & H2 & H3). now repeat split.
  - apply length_map.
  - intros email other Hemail Hin Hid Hmail.
    assert (Hobj : isObject (req_body req) = true).
    { unfold prop in Hemail. now destruct (req_body req). }
    assert (Hconflict : email_conflict (req_userId req) email (users db) = true).
    { unfold email_conflict. apply existsb_exists. exists other. split; [assumption|].
      apply String.eqb_neq in Hid. unfold has_user_id. rewrite Hid, Hmail.
      now rewrite String.eqb_refl. }
    unfold updateMe, updateUserById.
    rewrite Hobj, Hemail. run. simpl text_field at 1.
    repeat (branch; simpl in *; try discriminate); try reflexivity; congruence.
Qed.

End Routers.

(** Bob's new application on the concrete deployment is his, although its
    body names alice. *)
Lemma createApplication_assigns_owner_witness :
  map app_userId (jobApplications (snd (createApplication "app-3" 7 Cases.bob_creates
                                          Scenario.db0)))
  = ["u-alice"; "u-bob"; "u-bob"].
Proof.
  destruct (createApplication_assigns_owner "app-3" 7 Cases.bob_creates Scenario.db0)
    as [(_ & c & t & w & n & _ & _ & _ & _ & Hdb)|[Hno _]].
  - rewrite Hdb. reflexivity.
  - exfalso. apply Hno. reflexivity.
Defined.

(** Bob's listing on the concrete deployment after he created his
    application: the new application and what was listed before, in the
    order of the reference database. *)
Lemma created_application_is_listed_witness :
  exists before after,
    @getAllApplications Mock.prisma Cases.dates
      (mkRequest JUndefined (JObject []) None "" "u-bob")
      (snd (createApplication "app-3" 7 Cases.bob_creates Scenario.db0))
    = (Ok (send_json [] OK (JArray (map (@json_of_application Cases.dates) after))),
       snd (createApplication "app-3" 7 Cases.bob_creates Scenario.db0))
    /\ Permutation before [Scenario.bobs_application]
    /\ exists a, Permutation after (a :: before) /\ app_id a = "app-3".
Proof.
  destruct (@created_application_is_listed Mock.prisma Cases.dates MockFacts.prisma_lawful
              "app-3" 7 Cases.bob_creates
              (mkRequest JUndefined (JObject []) None "" "u-bob") Scenario.db0)
    as (before & after & _ & Hafter & Hbefore & _ & Hcreated).
  destruct (proj2 (Hcreated eq_refl) eq_refl) as (a & Hperm & Hid & _).
  exists before, after. split; [exact Hafter|]. split; [exact Hbefore|].
  exists a. split; assumption.
Defined.

(** An update on the concrete deployment: bob's row is there as it was, and
    the row of [app-1] is still alice's. *)
Lemma updateApplication_frame_witness :
  In Scenario.bobs_application
    (jobApplications
       (snd (@updateApplication Mock.prisma 99
               (Scenario.bob_on_alices
                  (JObject [("companyName", JObject [("set", JString "Globex")]);
                            ("salary", JObject [("increment", JNumber 1)]);
                            ("userId", JString "u-bob")]))
               Scenario.db0))).
Proof.
  refine (proj2 (proj1 (@updateApplication_frame Mock.prisma 99
            (Scenario.bob_on_alices
               (JObject [("companyName", JObject [("set", JString "Globex")]);
                         ("salary", JObject [("increment", JNumber 1)]);
                         ("userId", JString "u-bob")]))
            Scenario.db0) Scenario.bobs_application _) _).
  - discriminate.
  - right. left. reflexivity.
Defined.

(** A delete on the concrete deployment, and the same delete again. *)
Lemma deleteApplication_removes_one_witness :
  deleteApplication (Scenario.bob_on_alices JUndefined)
    (snd (deleteApplication (Scenario.bob_on_alices JUndefined) Scenario.db0))
  = (Threw, snd (deleteApplication (Scenario.bob_on_alices JUndefined) Scenario.db0)).
Proof.
  refine (proj2 (proj2 (proj1 (deleteApplication_removes_one
                                 (Scenario.bob_on_alices JUndefined) Scenario.db0) _))).
  reflexivity.
Defined.

(** A request without Authorization header on the concrete deployment does
    not delete. *)
Lemma routers_require_token_witness :
  snd (@applicationRouter Mock.jwt Mock.prisma Cases.dates Scenario.env 10 "app-3" DELETE
         ["app-1"] (Scenario.post JUndefined) Scenario.db0)
  = Scenario.db0.
Proof.
  refine (proj1 (proj1 (@routers_require_token Mock.jwt Mock.prisma Cases.dates Scenario.env
                          10 "app-3" DELETE ["app-1"] (Scenario.post JUndefined)
                          Scenario.db0) _)).
  intros req'. discriminate.
Defined.

(** Bob's GET /users/me without a body on the concrete deployment. *)
Lemma user_routes_are_crossed_witness :
  @userRouter Mock.jwt Mock.prisma Cases.dates Scenario.env 10 GET ["me"]
    (Cases.bob_calls JUndefined) Scenario.db0
  = (Ok (Some (send_json [] BAD_REQUEST (message "The request body is not an object"))),
     Scenario.db0).
Proof.
  refine (proj1 (proj2 (@user_routes_are_crossed Mock.jwt Mock.prisma Cases.dates
                          Scenario.env 10
                          (Cases.bob_calls JUndefined)
                          (set_userId (Cases.bob_calls JUndefined) "u-bob")
                          Scenario.db0 _)) _).
  - vm_compute. reflexivity.
  - reflexivity.
Defined.

(** Bob asks for alice's email on the concrete deployment. *)
Lemma updateMe_frame_witness :
  @updateMe Mock.prisma 50
    (mkRequest (JObject [("email", JString "alice@example.com")]) (JObject []) None ""
       "u-bob")
    Scenario.db0
  = (Threw, Scenario.db0).
Proof.
  refine (proj2 (proj2 (proj2 (proj2 (proj2 (proj2 (@updateMe_frame Mock.prisma 50
            (mkRequest (JObject [("email", JString "alice@example.com")]) (JObject []) None
               "" "u-bob")
            Scenario.db0))))))
            "alice@example.com" Scenario.alice _ _ _ _).
  - reflexivity.
  - left. reflexivity.
  - discriminate.
  - reflexivity.
Defined.

(** Alice's login on the concrete deployment sets the cookie. *)
Lemma refresh_cookie_only_on_success_witness :
  exists token,
    cookies (fst Scenario.logged_in)
    = [SetCookie "refreshToken" token (mkCookieOptions true false "lax" "/auth/" 604800000)].
Proof.
  refine (proj1 (proj1 (proj2 (@refresh_cookie_only_on_success Mock.jwt Mock.bcrypt
                                 Scenario.env 10 Scenario.rnd1 Scenario.alice_login
                                 Scenario.db0))) _).
  vm_compute. reflexivity.
Defined.

(** * Sessions of different users *)

Section Sessions.

Context {J : JwtLib} {B : BcryptLib}.

Lemma find_map_other (userId other hash jti : string) (rows : list RefreshToken) :
  other <> userId ->
  find (owned_by other)
    (map (fun r => if owned_by userId r then write_token hash jti r else r) rows)
  = find (owned_by other) rows.
Proof.
  intros Hother. induction rows as [|r rows IH]; simpl; [reflexivity|].
  destruct (owned_by userId r) eqn:Hr; simpl.
  - unfold owned_by in *. simpl. apply String.eqb_eq in Hr. rewrite Hr.
    apply not_eq_sym in Hother. apply String.eqb_neq in Hother. rewrite Hother. exact IH.
  - rewrite IH. reflexivity.
Qed.

Lemma find_filter_other (userId other : string) (rows : list RefreshToken) :
  other <> userId ->
  find (owned_by other) (filter (fun r => negb (owned_by userId r)) rows)
  = find (owned_by other) rows.
Proof.
  intros Hother. induction rows as [|r rows IH]; simpl; [reflexivity|].
  destruct (owned_by userId r) eqn:Hr; simpl.
  - unfold owned_by in *. apply String.eqb_eq in Hr. rewrite Hr.
    apply not_eq_sym in Hother. apply String.eqb_neq in Hother. rewrite Hother. exact IH.
  - rewrite IH. reflexivity.
Qed.

Lemma find_snoc_other (other : string) (rows : list RefreshToken) (row : RefreshToken) :
  other <> rt_userId row ->
  find (owned_by other) (rows ++ [row]) = find (owned_by other) rows.
Proof.
  intros Hother. induction rows as [|r rows IH]; simpl.
  - unfold owned_by. apply not_eq_sym in Hother. apply String.eqb_neq in Hother.
    now rewrite Hother.
  - now rewrite IH.
Qed.

(** X20. A session call acts on one user's record only. [refresh] and
    [logout] with a token leave the record of every user other than the
    token's subject as it was, and [login] leaves the record of every user
    other than the one who logs in as it was; none of the three touches the
    users or the job applications; and [refresh] never adds or removes a
    record or changes the [id], [userId] or [createdAt] of one: when it
    rotates, it rewrites the record in place. *)
Theorem session_calls_touch_one_user
    (env : Env) (now : Z) (rnd : Rand) (req : Request) (db : DB) (other : string) :
  let token := string_of (prop (req_cookies req) "refreshToken") in
  let secretRefreshKey := secret_value (REFRESH_TOKEN_SECRET env) in
  ((forall decoded, jwt_verify token secretRefreshKey now = Some decoded ->
                    sub decoded <> other) ->
   find (owned_by other) (refreshTokens (snd (refresh env now rnd req db)))
   = find (owned_by other) (refreshTokens db)
   /\ find (owned_by other) (refreshTokens (snd (logout env now req db)))
      = find (owned_by other) (refreshTokens db))
  /\ ((forall email user,
         prop (req_body req) "email" = JString email ->
         find (fun u => String.eqb (user_email u) email) (users db) = Some user ->
         user_id user <> other) ->
      find (owned_by other) (refreshTokens (snd (login env now rnd req db)))
      = find (owned_by other) (refreshTokens db))
  /\ (users (snd (refresh env now rnd req db)) = users db
      /\ users (snd (logout env now req db)) = users db
      /\ users (snd (login env now rnd req db)) = users db)
  /\ (jobApplications (snd (refresh env now rnd req db)) = jobApplications db
      /\ jobApplications (snd (logout env now req db)) = jobApplications db
      /\ jobApplications (snd (login env now rnd req db)) = jobApplications db)
  /\ (map rt_id (refreshTokens (snd (refresh env now rnd req db)))
      = map rt_id (refreshTokens db)
      /\ map rt_userId (refreshTokens (snd (refresh env now rnd req db)))
         = map rt_userId (refreshTokens db)
      /\ map rt_createdAt (refreshTokens (snd (refresh env now rnd req db)))
         = map rt_createdAt (refreshTokens db)).
Proof.
  cbv zeta. split; [|split; [|split; [|split]]].
  - intros Hother. split.
    + unfold refresh, verify, findRefreshTokenByUserId, updateHashOfRefreshTokenByUserId,
        findUserById. run.
      repeat (branch; simpl in *; try discriminate);
        repeat match goal with
               | H : (_, _) = (_, _) |- _ => inversion H; subst; clear H
               end;
        simpl; try reflexivity;
        apply find_map_other; apply not_eq_sym; now apply Hother.
    + unfold logout, verify, deleteRefreshTokenByUserId, findUserById. run.
      repeat (branch; simpl in *; try discriminate);
        repeat match goal with
               | H : (_, _) = (_, _) |- _ => inversion H; subst; clear H
               end;
        simpl; try reflexivity;
        apply find_filter_other; apply not_eq_sym; now apply Hother.
  - intros Hother.
    unfold login, findUserByEmail, upsertHashOfRefreshTokenByUserId,
      updateHashOfRefreshTokenByUserId, createRefreshToken. run.
    repeat (branch; simpl in *; try discriminate);
      repeat match goal with
             | H : (_, _) = (_, _) |- _ => inversion H; subst; clear H
             end;
      simpl; try reflexivity;
      first [ apply find_map_other | apply find_snoc_other; simpl ];
      apply not_eq_sym; eapply Hother; eauto.
  - repeat split.
    + unfold refresh, verify, findRefreshTokenByUserId, updateHashOfRefreshTokenByUserId,
        findUserById. run.
      repeat (branch; simpl in *; try discriminate);
        repeat match goal with
               | H : (_, _) = (_, _) |- _ => inversion H; subst; clear H
               end; reflexivity.
    + unfold logout, verify, deleteRefreshTokenByUserId, findUserById. run.
      repeat (branch; simpl in *; try discriminate);
        repeat match goal with
               | H : (_, _) = (_, _) |- _ => inversion H; subst; clear H
               end; reflexivity.
    + apply login_keeps.
  - repeat split.
    + unfold refresh, verify, findRefreshTokenByUserId, updateHashOfRefreshTokenByUserId,
        findUserById. run.
      repeat (branch; simpl in *; try discriminate);
        repeat match goal with
               | H : (_, _) = (_, _) |- _ => inversion H; subst; clear H
               end; reflexivity.
    + unfold logout, verify, deleteRefreshTokenByUserId, findUserById. run.
      repeat (branch; simpl in *; try discriminate);
        repeat match goal with
               | H : (_, _) = (_, _) |- _ => inversion H; subst; clear H
               end; reflexivity.
    + unfold login, findUserByEmail, upsertHashOfRefreshTokenByUserId,
        updateHashOfRefreshTokenByUserId, createRefreshToken. run.
      repeat (branch; simpl in *; try discriminate);
        repeat match goal with
               | H : (_, _) = (_, _) |- _ => inversion H; subst; clear H
               end; reflexivity.
  - repeat split;
      unfold refresh, verify, findRefreshTokenByUserId, updateHashOfRefreshTokenByUserId,
        findUserById; run;
      repeat (branch; simpl in *; try discriminate);
      repeat match goal with
             | H : (_, _) = (_, _) |- _ => inversion H; subst; clear H
             end;
      simpl; try reflexivity;
      rewrite map_map; apply map_ext; intros a;
      match goal with |- context [owned_by ?u a] => now destruct (owned_by u a) end.
Qed.

End Sessions.

Section Supersede.

Context {J : JwtLib} {B : BcryptLib}.

(** X21. A login supersedes the registration. Once the user who registered
    has logged in, the refresh token handed out at registration is no longer
    accepted: [refresh] answers it with 403 "The refresh token is not valid"
    while it verifies, never with 200, and changes nothing. The jti drawn by
    the login is taken to differ from the one drawn at registration. *)
Theorem login_supersedes_registration `{!JwtLawful J}
    (env : Env) (now : Z) (rnd : Rand) (req : Request) (db : DB)
    (now1 : Z) (rnd1 : Rand) (req1 : Request)
    (now2 : Z) (rnd2 : Rand) (req2 : Request) :
  let registered := snd (register env now rnd req db) in
  let relogged := snd (login env now1 rnd1 req1 registered) in
  let secretRefreshKey := secret_value (REFRESH_TOKEN_SECRET env) in
  let first_token :=
    generateRefreshToken (createJwtPayload (rnd_userId rnd) (rnd_refreshJti rnd))
      secretRefreshKey now in
  status (fst (register env now rnd req db)) = CREATED ->
  status (fst (login env now1 rnd1 req1 registered)) = OK ->
  prop (req_body req1) "email" = prop (req_body req) "email" ->
  rnd_refreshJti rnd1 <> rnd_refreshJti rnd ->
  prop (req_cookies req2) "refreshToken" = JString first_token ->
  status (fst (refresh env now2 rnd2 req2 relogged)) <> OK
  /\ snd (refresh env now2 rnd2 req2 relogged) = relogged
  /\ (jwt_verify first_token secretRefreshKey now2 <> None ->
      fst (refresh env now2 rnd2 req2 relogged)
      = send_json [] FORBIDDEN (message "The refresh token is not valid")).
Proof.
  cbv zeta. intros Hcreated Hok Hsame Hfresh Hcookie.
  destruct (register_created_inv env now rnd req db Hcreated)
    as (username & email & password & _ & Hemail & _ & Husers & _ & _ & _ & Hrun).
  destruct (login_success_inv env now1 rnd1 req1 _ Hok)
    as (email' & user & row & Hemail' & Huser & Hrk & Hak & _ & Hfind & _ & Hjti).
  rewrite Hsame, Hemail in Hemail'. inversion Hemail'; subst email'. clear Hemail'.
  assert (Hid : user_id user = rnd_userId rnd).
  { assert (Hfree : find (fun u => String.eqb (user_email u) email) (users db) = None).
    { apply (find_none_of_existsb _ _ _ Husers). intros a Ha. rewrite Ha.
      apply orb_true_r. }
    rewrite Hrun in Huser. simpl in Huser.
    rewrite (find_snoc _ _ _ Hfree) in Huser by apply String.eqb_refl.
    now inversion Huser. }
  rewrite Hid in Hfind.
  set (relogged := snd (login env now1 rnd1 req1 (snd (register env now rnd req db)))) in *.
  set (token := generateRefreshToken (createJwtPayload (rnd_userId rnd) (rnd_refreshJti rnd))
                  (secret_value (REFRESH_TOKEN_SECRET env)) now) in *.
  assert (Hne : not_a_nonempty_string (prop (req_cookies req2) "refreshToken") = false).
  { rewrite Hcookie. apply nonempty_cookie. apply sign_nonempty. }
  destruct (jwt_verify token (secret_value (REFRESH_TOKEN_SECRET env)) now2)
    as [decoded|] eqn:Hverify.
  - assert (Hthen : jwt_verify token (secret_value (REFRESH_TOKEN_SECRET env)) now
                    = Some (createJwtPayload (rnd_userId rnd) (rnd_refreshJti rnd))).
    { unfold token, generateRefreshToken. apply verify_sign. lia. }
    assert (decoded = createJwtPayload (rnd_userId rnd) (rnd_refreshJti rnd))
      by (eapply verify_payload_stable; eassumption).
    subst decoded.
    rewrite (refresh_stale env now2 rnd2 req2 relogged
               (createJwtPayload (rnd_userId rnd) (rnd_refreshJti rnd)) row Hne Hrk Hak).
    + simpl. repeat split. discriminate.
    + rewrite Hcookie. exact Hverify.
    + exact Hfind.
    + right. simpl. rewrite Hjti. apply not_eq_sym. exact Hfresh.
  - destruct (refresh_verify_throws env now2 rnd2 req2 relogged Hne) as (Hs & Hdb & _).
    { rewrite Hcookie. exact Hverify. }
    rewrite Hs, Hdb. repeat split; [discriminate|congruence].
Qed.

End Supersede.

(** Carol registers at time 5 and logs in at time 8 on the concrete
    deployment; her registration token is refused at time 9. *)
Lemma login_supersedes_registration_witness :
  fst (@refresh Mock.jwt Mock.bcrypt Scenario.env 9 Scenario.rnd2
         (Scenario.with_cookie Cases.carol_token)
         (snd (@login Mock.jwt Mock.bcrypt Scenario.env 8 Scenario.rnd1
                 (Scenario.post (Scenario.credentials "carol@example.com" "s3cret"))
                 (snd Cases.carol_registered))))
  = send_json [] FORBIDDEN (message "The refresh token is not valid").
Proof.
  refine (proj2 (proj2 (@login_supersedes_registration Mock.jwt Mock.bcrypt
                          MockFacts.jwt_lawful
                          Scenario.env 5 Scenario.rnd3 Cases.carol_signup Scenario.db0
                          8 Scenario.rnd1
                          (Scenario.post (Scenario.credentials "carol@example.com" "s3cret"))
                          9 Scenario.rnd2 (Scenario.with_cookie Cases.carol_token)
                          _ _ _ _ _)) _).
  - vm_compute. reflexivity.
  - vm_compute. reflexivity.
  - reflexivity.
  - discriminate.
  - reflexivity.
  - vm_compute. discriminate.
Defined.

(** Bob's record on the concrete deployment is untouched by alice's
    refresh. *)
Lemma session_calls_touch_one_user_witness :
  find (owned_by "u-bob")
    (refreshTokens
       (snd (@refresh Mock.jwt Mock.bcrypt Scenario.env 20 Scenario.rnd2
               (Scenario.with_cookie Scenario.alice_token) (snd Scenario.logged_in))))
  = find (owned_by "u-bob") (refreshTokens (snd Scenario.logged_in)).
Proof.
  refine (proj1 (proj1 (@session_calls_touch_one_user Mock.jwt Mock.bcrypt
                          Scenario.env 20 Scenario.rnd2
                          (Scenario.with_cookie Scenario.alice_token)
                          (snd Scenario.logged_in) "u-bob") _)).
  intros decoded Hverify. vm_compute in Hverify. inversion Hverify. simpl. discriminate.
Defined.
